(** * ncov-tools.py: the artifact linker, the configuration writer and the
      result relocator of the SIGNAL pipeline, embedded in Rocq.

    The script [scripts/ncov-tools.py] is sequential glue code: it hard-links
    per-sample files into a flat data directory, rewrites FASTA headers,
    writes a [config.yaml] and (in a function that is never called) copies
    results.  The embedding follows the script function by function over an
    explicit model of what the script acts upon: Python strings, POSIX
    paths, a file system with hard links, the standard output and the one
    HTTP request.

    Modelled: [link_ivar], [link_freebayes], [set_up] and [move].  Not
    modelled: [run_all] and the [__main__] block, which only start external
    programs.

    Limits of the model.  Text is ASCII.  Paths are resolved lexically, as
    [os.path.abspath] does; there are no symbolic links, permissions or
    devices, so a link never fails for crossing a device, and
    [os.path.exists] and [os.link] never disagree about a name.
    [glob.glob] is modelled for patterns without metacharacters, which is
    how the script calls it as long as its working directory has none.
    [fileinput] on a directory is marked as outside the model.  A NUL
    character in a path is modelled where the script catches exceptions,
    in [shutil.copy]. *)

From Stdlib Require Import String Ascii ZArith List Lia DecimalString.
From stdpp Require Import base option list gmap strings sets.


(* ===================================================================== *)
(** * Python strings *)
(* ===================================================================== *)

(** A Python [str] is modelled as a Rocq [string].  Text handled by the
    script (paths, sample identifiers, FASTA and CSV text) is ASCII; bytes
    above 127 are carried through unchanged by the functions below. *)

Module Py.

Definition LF : ascii := "010"%char.
Definition CR : ascii := "013"%char.
Definition TAB : ascii := "009"%char.
Definition DQUOTE : ascii := "034"%char.
Definition SQUOTE : ascii := "039"%char.
Definition BACKSLASH : ascii := "092"%char.
Definition NUL : ascii := "000"%char.

(** [s.startswith(p)] *)
Definition startswith (s p : string) : bool := String.prefix p s.

(** The first character of [s], if any ([s[:1]]). *)
Definition first_char (s : string) : option ascii :=
  match s with
  | EmptyString => None
  | String c _ => Some c
  end.

(** The last character of [s], if any ([s[-1:]]). *)
Fixpoint last_char (s : string) : option ascii :=
  match s with
  | EmptyString => None
  | String c s' => match last_char s' with None => Some c | r => r end
  end.

(** [s[-n:]] for a positive [n]: the last [n] characters of [s]. *)
Fixpoint suffix (n : nat) (s : string) : string :=
  match s with
  | EmptyString => EmptyString
  | String c s' => if (String.length s <=? n)%nat then s else suffix n s'
  end.

(** [s.startswith(ps)] for a tuple [ps]: some member is a prefix. *)
Definition startswith_any (s : string) (ps : list string) : bool :=
  existsb (startswith s) ps.

(** [s.split(sep)] for a one-character separator; the result is never
    empty ([''.split(',') == ['']]). *)
Fixpoint split (sep : ascii) (s : string) : list string :=
  match s with
  | EmptyString => [EmptyString]
  | String c s' =>
      if Ascii.eqb c sep then EmptyString :: split sep s'
      else match split sep s' with
           | [] => [String c EmptyString]
           | f :: fs => String c f :: fs
           end
  end.

(** [l[0]] and [l[-1]] on the result of a split. *)
Definition item0 (l : list string) : string := hd EmptyString l.
Definition item_last (l : list string) : string := List.last l EmptyString.

(** [sep.join(l)] *)
Fixpoint join (sep : string) (l : list string) : string :=
  match l with
  | [] => EmptyString
  | [x] => x
  | x :: rest => x +:+ sep +:+ join sep rest
  end.

(** [s.lower()] on ASCII letters. *)
Definition lower_ascii (c : ascii) : ascii :=
  let n := nat_of_ascii c in
  if (65 <=? n)%nat && (n <=? 90)%nat then ascii_of_nat (n + 32) else c.

Fixpoint lower (s : string) : string :=
  match s with
  | EmptyString => EmptyString
  | String c s' => String (lower_ascii c) (lower s')
  end.

(** [s.strip(chars)]: every leading and every trailing character that
    occurs in [chars] is removed. *)
Fixpoint mem_char (c : ascii) (chars : string) : bool :=
  match chars with
  | EmptyString => false
  | String d r => Ascii.eqb c d || mem_char c r
  end.

Fixpoint lstrip (chars s : string) : string :=
  match s with
  | EmptyString => EmptyString
  | String c s' => if mem_char c chars then lstrip chars s' else s
  end.

Fixpoint rstrip (chars s : string) : string :=
  match s with
  | EmptyString => EmptyString
  | String c s' =>
      match rstrip chars s' with
      | EmptyString => if mem_char c chars then EmptyString else String c EmptyString
      | r => String c r
      end
  end.

Definition strip (chars s : string) : string := rstrip chars (lstrip chars s).

(** [s.replace(old, new)]: every non-overlapping occurrence of [old],
    scanning from the left.  [skip] counts the characters of an occurrence
    that has just been replaced and are still to be passed over. *)
Fixpoint replace_from (old new : string) (skip : nat) (s : string) : string :=
  match s with
  | EmptyString => EmptyString
  | String c s' =>
      match skip with
      | S k => replace_from old new k s'
      | O =>
          if String.prefix old s
          then new +:+ replace_from old new (String.length old - 1) s'
          else String c (replace_from old new 0 s')
      end
  end.

Fixpoint intersperse (new s : string) : string :=
  match s with
  | EmptyString => EmptyString
  | String c s' => String c (new +:+ intersperse new s')
  end.

Definition replace (s old new : string) : string :=
  match old with
  | EmptyString => new +:+ intersperse new s
  | _ => replace_from old new 0 s
  end.

(** Text-mode reading translates the line endings CR LF and CR to LF
    (universal newlines). *)
Fixpoint universal_newlines (s : string) : string :=
  match s with
  | EmptyString => EmptyString
  | String c s' =>
      if Ascii.eqb c CR then
        String LF
          match s' with
          | String c' s'' =>
              if Ascii.eqb c' LF then universal_newlines s''
              else universal_newlines s'
          | EmptyString => EmptyString
          end
      else String c (universal_newlines s')
  end.

(** The lines of a text, each with its terminating LF kept (the last one
    may lack it): what iterating over a file object yields. *)
Fixpoint keepends (s : string) : list string :=
  match s with
  | EmptyString => []
  | String c s' =>
      if Ascii.eqb c LF then String c EmptyString :: keepends s'
      else match keepends s' with
           | [] => [String c EmptyString]
           | l :: ls => String c l :: ls
           end
  end.

Definition text_lines (content : string) : list string :=
  keepends (universal_newlines content).

(** [repr(s)] of a [str]: single quotes unless the text has a single
    quote and no double quote; the quote character, the backslash and
    control characters are escaped. *)
Definition hex_digit (n : nat) : ascii :=
  if (n <? 10)%nat then ascii_of_nat (48 + n) else ascii_of_nat (87 + n).

Definition repr_char (quote c : ascii) : string :=
  let n := nat_of_ascii c in
  if Ascii.eqb c quote || Ascii.eqb c BACKSLASH then String BACKSLASH (String c EmptyString)
  else if Ascii.eqb c TAB then "\t"
  else if Ascii.eqb c LF then "\n"
  else if Ascii.eqb c CR then "\r"
  else if (n <? 32)%nat || (n =? 127)%nat
       then String BACKSLASH (String "x"%char
              (String (hex_digit (n / 16)) (String (hex_digit (n mod 16)) EmptyString)))
  else String c EmptyString.

Fixpoint repr_body (quote : ascii) (s : string) : string :=
  match s with
  | EmptyString => EmptyString
  | String c s' => repr_char quote c +:+ repr_body quote s'
  end.

Definition repr_quote (s : string) : ascii :=
  if mem_char SQUOTE s && negb (mem_char DQUOTE s) then DQUOTE else SQUOTE.

Definition repr (s : string) : string :=
  let q := repr_quote s in
  String q (repr_body q s +:+ String q EmptyString).

(** [str(l)] of a list of [str]. *)
Definition str_list (l : list string) : string :=
  "[" +:+ join ", " (map repr l) +:+ "]".

(** [str(n)] of an [int]. *)
Definition str_int (n : Z) : string := NilZero.string_of_int (Z.to_int n).

End Py.

(* ===================================================================== *)
(** * POSIX paths ([os.path]) *)
(* ===================================================================== *)

Module Path.

(** [os.path.join(a, *p)] *)
Definition join2 (path b : string) : string :=
  if Py.startswith b "/" then b
  else match Py.last_char path with
       | None => path +:+ b
       | Some c => if Ascii.eqb c "/" then path +:+ b else path +:+ "/" +:+ b
       end.

Definition join (a : string) (p : list string) : string := fold_left join2 p a.

(** [os.path.basename(p)]: the text after the last slash. *)
Definition basename (p : string) : string := Py.item_last (Py.split "/" p).

(** [os.path.normpath(path)]: empty and [.] components are dropped and
    [..] cancels the component before it. *)
Definition norm_step (initial_slashes : nat) (new_comps : list string) (comp : string)
  : list string :=
  if String.eqb comp EmptyString || String.eqb comp "." then new_comps
  else if negb (String.eqb comp "..")
          || (Nat.eqb initial_slashes 0 && Nat.eqb (length new_comps) 0)
          || (negb (Nat.eqb (length new_comps) 0)
              && String.eqb (List.last new_comps EmptyString) "..")
       then new_comps ++ [comp]
       else removelast new_comps.

Definition normpath (path : string) : string :=
  if String.eqb path EmptyString then "."
  else
    let initial_slashes :=
      if Py.startswith path "/" then
        if Py.startswith path "//" && negb (Py.startswith path "///") then 2 else 1
      else 0 in
    let comps := fold_left (norm_step initial_slashes) (Py.split "/" path) [] in
    let path' :=
      match initial_slashes with
      | 0 => Py.join "/" comps
      | 1 => "/" +:+ Py.join "/" comps
      | _ => "//" +:+ Py.join "/" comps
      end in
    if String.eqb path' EmptyString then "." else path'.

(** [os.path.abspath(path)] in a process whose working directory is
    [cwd]. *)
Definition abspath (cwd path : string) : string :=
  normpath (if Py.startswith path "/" then path else join cwd [path]).

(** The directory that holds an absolute, normalised path. *)
Definition parent (k : string) : string :=
  let d := Py.join "/" (removelast (Py.split "/" k)) in
  if String.eqb d EmptyString then "/" else d.

(** [glob.has_magic] *)
Definition has_magic (s : string) : bool :=
  Py.mem_char "*"%char s || Py.mem_char "?"%char s || Py.mem_char "["%char s.

End Path.

(* ===================================================================== *)
(** * The world the script acts upon *)
(* ===================================================================== *)

(** Exceptions the modelled operations raise.  [ValueError] is what a
    path with a NUL character gives in [shutil.copy].  [Unmodelled] marks
    a call whose behaviour lies outside the model (a glob pattern with
    metacharacters, [fileinput] on a directory). *)
Inductive exn :=
| FileExistsError (path : string)
| FileNotFoundError (path : string)
| NotADirectoryError (path : string)
| IsADirectoryError (path : string)
| PermissionError (path : string)
| SameFileError (path : string)
| URLError (url : string)
| NameError (name : string)
| AssertionError
| ValueError (what : string)
| Unmodelled (what : string).

(** [isinstance(e, IOError)]: [IOError] is [OSError], the base class of all
    file-system errors, of [shutil.Error] and of [urllib.error.URLError];
    [ValueError] is not below it. *)
Definition is_IOError (e : exn) : bool :=
  match e with
  | NameError _ | AssertionError | ValueError _ | Unmodelled _ => false
  | _ => true
  end.

Definition is_AssertionError (e : exn) : bool :=
  match e with AssertionError => true | _ => false end.

Inductive result (A : Type) :=
| Ok (a : A)
| Raise (e : exn).
Arguments Ok {A} a.
Arguments Raise {A} e.

(** The file system has directories and regular files.  A regular file is
    a name bound to an inode, so that hard links share one content; files
    and directories are keyed by absolute normalised paths.  There are no
    symbolic links, permissions or devices. *)
Record world := World {
  dirs : gset string;
  names : gmap string nat;
  inodes : gmap nat string;
  next_inode : nat;
  stdout : list string;      (* one entry per [print] call, oldest first *)
  requests : list string     (* URLs opened, oldest first *)
}.

Inductive node :=
| Absent
| Dir
| File (ino : nat).

Definition set_names (f : gmap string nat → gmap string nat) (w : world) : world :=
  World (dirs w) (f (names w)) (inodes w) (next_inode w) (stdout w) (requests w).

Definition set_dirs (f : gset string → gset string) (w : world) : world :=
  World (f (dirs w)) (names w) (inodes w) (next_inode w) (stdout w) (requests w).

Definition set_content (i : nat) (c : string) (w : world) : world :=
  World (dirs w) (names w) (<[i := c]> (inodes w)) (next_inode w) (stdout w) (requests w).

(** A new empty inode bound to the key [k]. *)
Definition create_file (k : string) (w : world) : nat * world :=
  let i := next_inode w in
  (i, World (dirs w) (<[k := i]> (names w)) (<[i := EmptyString]> (inodes w))
            (S i) (stdout w) (requests w)).

Definition content_of (w : world) (i : nat) : string := default EmptyString (inodes w !! i).

(** Computations of the script: a state and exception monad. *)
Definition M (A : Type) : Type := world → result A * world.

Global Instance M_ret : MRet M := λ A a w, (Ok a, w).
Global Instance M_bind : MBind M := λ A B f m w,
  match m w with
  | (Ok a, w') => f a w'
  | (Raise e, w') => (Raise e, w')
  end.

Definition raise {A} (e : exn) : M A := λ w, (Raise e, w).
Definition get_world : M world := λ w, (Ok w, w).
Definition modify (f : world → world) : M unit := λ w, (Ok tt, f w).

(** [try: m  except E: h] where [catches] decides [isinstance(e, E)]. *)
Definition try_except {A} (m : M A) (catches : exn → bool) (h : M A) : M A := λ w,
  match m w with
  | (Raise e, w') => if catches e then h w' else (Raise e, w')
  | r => r
  end.

(** [for x in xs: body], and the same with a body that may [break]. *)
Fixpoint for_each {A} (xs : list A) (body : A → M unit) : M unit :=
  match xs with
  | [] => mret tt
  | x :: rest => body x;; for_each rest body
  end.

Inductive flow := Next | Break.

Fixpoint for_each_break {A} (xs : list A) (body : A → M flow) : M unit :=
  match xs with
  | [] => mret tt
  | x :: rest =>
      c ← body x;
      match c with
      | Break => mret tt
      | Next => for_each_break rest body
      end
  end.

(* ===================================================================== *)
(** * The pipeline's parameter bundle *)
(* ===================================================================== *)

(** The [snakemake] object injected into the script: the four input file
    lists, the parameters the script reads, and the thread count.  The
    parameters that are only interpolated into text are held as the text
    [str()] gives them. *)
Record snakemake_t := Snakemake {
  input_variants : list string;
  input_consensus : list string;
  input_bams : list string;
  input_primertrimmed_bams : list string;
  exec_dir : string;
  result_dir : string;
  pangolin : string;
  negative_control_prefix : list string;
  sample_csv_filename : string;
  amplicon_bed : string;
  viral_reference_genome : string;
  primer_bed : string;
  phylo_include_seqs : string;
  freebayes_run : bool;
  threads : nat
}.

(** Objects bound to names at module level. *)
Inductive pyobj :=
| ModuleObj (name : string)
| FunctionObj (name : string)
| SnakemakeObj
| BoolObj (b : bool).

Definition module_globals : list (string * pyobj) :=
  [ ("os", ModuleObj "os"); ("sys", ModuleObj "sys"); ("shutil", ModuleObj "shutil");
    ("subprocess", ModuleObj "subprocess"); ("fileinput", ModuleObj "fileinput");
    ("glob", ModuleObj "glob");
    ("link_ivar", FunctionObj "link_ivar"); ("link_freebayes", FunctionObj "link_freebayes");
    ("set_up", FunctionObj "set_up"); ("run_all", FunctionObj "run_all");
    ("move", FunctionObj "move"); ("snakemake", SnakemakeObj) ].

(** [x is True] *)
Definition is_True (o : pyobj) : bool :=
  match o with BoolObj true => true | _ => false end.

(* ===================================================================== *)
(** * Operating-system and library calls *)
(* ===================================================================== *)

Section Script.

(** The host: the working directory of the process, the URL a request
    ends at after redirects ([None] when the request fails), the order
    in which a set of strings is iterated, and the injected [snakemake]
    object. *)
Context (getcwd : string).
Context (geturl : string → option string).
Context (set_order : gset string → list string).
Context (snakemake : snakemake_t).

Definition key (p : string) : string := Path.abspath getcwd p.

Definition is_dir (w : world) (k : string) : bool :=
  String.eqb k "/" || bool_decide (k ∈ dirs w).

(** What a path names; the empty path names nothing. *)
Definition node_at (w : world) (p : string) : node :=
  if String.eqb p EmptyString then Absent
  else
    match names w !! key p with
    | Some i => File i
    | None => if is_dir w (key p) then Dir else Absent
    end.

(** A new entry can be made at [p]: its directory exists. *)
Definition can_create (w : world) (p : string) : bool :=
  negb (String.eqb p EmptyString) && is_dir w (Path.parent (key p)).

(** [print(s)] on the real standard output. *)
Definition print (s : string) : M unit :=
  modify (λ w, World (dirs w) (names w) (inodes w) (next_inode w)
                     (stdout w ++ [s]) (requests w)).

(** A name that is not a local variable is looked up in the module. *)
Definition load_global (name : string) : M pyobj :=
  match List.find (λ b, String.eqb (fst b) name) module_globals with
  | Some b => mret (snd b)
  | None => raise (NameError name)
  end.

Definition os_path_exists (p : string) : M bool := λ w,
  (Ok (match node_at w p with Absent => false | _ => true end), w).

(** [os.link(src, dst)]: a second name for the inode of [src]; an
    existing [dst] is never replaced. *)
Definition os_link (src dst : string) : M unit := λ w,
  match node_at w src with
  | Absent => (Raise (FileNotFoundError src), w)
  | n =>
      if negb (can_create w dst) then (Raise (FileNotFoundError dst), w)
      else
        match node_at w dst with
        | Absent =>
            match n with
            | File i => (Ok tt, set_names (insert (key dst) i) w)
            | _ => (Raise (PermissionError src), w)
            end
        | _ => (Raise (FileExistsError dst), w)
        end
  end.

(** [os.mkdir(p)] *)
Definition os_mkdir (p : string) : M unit := λ w,
  match node_at w p with
  | Absent =>
      if can_create w p then (Ok tt, set_dirs (union {[key p]}) w)
      else (Raise (FileNotFoundError p), w)
  | _ => (Raise (FileExistsError p), w)
  end.

(** [shutil.rmtree(p)]: the directory and everything below it. *)
Definition under (k q : string) : bool :=
  Py.startswith q (if String.eqb k "/" then "/" else k +:+ "/").

Definition shutil_rmtree (p : string) : M unit := λ w,
  match node_at w p with
  | Dir =>
      let k := key p in
      (Ok tt, World (filter (λ q, under k q = false ∧ q ≠ k) (dirs w))
                    (filter (λ kv, under k kv.1 = false) (names w))
                    (inodes w) (next_inode w) (stdout w) (requests w))
  | File _ => (Raise (NotADirectoryError p), w)
  | Absent => (Raise (FileNotFoundError p), w)
  end.

(** [open(p).read()] in text mode, before line splitting. *)
Definition open_read (p : string) : M string := λ w,
  match node_at w p with
  | File i => (Ok (content_of w i), w)
  | Dir => (Raise (IsADirectoryError p), w)
  | Absent => (Raise (FileNotFoundError p), w)
  end.

(** [open(p, 'w')], the writes and the close: an existing file is
    truncated (its inode is kept), a missing one is created. *)
Definition open_write (p : string) (text : string) : M unit := λ w,
  match node_at w p with
  | File i => (Ok tt, set_content i text w)
  | Dir => (Raise (IsADirectoryError p), w)
  | Absent =>
      if can_create w p then
        let '(j, w1) := create_file (key p) w in (Ok tt, set_content j text w1)
      else (Raise (FileNotFoundError p), w)
  end.

(** [for line in fileinput.input(path, inplace=True): print(body line, end=...)].
    In-place mode moves the file to [path + ".bak"], creates a new file
    under the old name, sends what the loop body prints to that new file
    and removes the backup when the input is exhausted.  [body] gives the
    text the loop body prints for a line. *)
Definition fileinput_inplace (path : string) (body : string → string) : M unit := λ w,
  let backup := path +:+ ".bak" in
  (* try: os.unlink(backup)  except OSError: pass *)
  let w1 := set_names (delete (key backup)) w in
  match node_at w1 path with
  | Absent => (Raise (FileNotFoundError path), w1)
  | Dir => (Raise (Unmodelled "fileinput on a directory"), w1)
  | File i =>
      match node_at w1 backup with
      | Dir => (Raise (IsADirectoryError backup), w1)
      | _ =>
          (* os.rename(path, backup) *)
          let w2 := set_names (λ n, <[key backup := i]> (delete (key path) n)) w1 in
          (* the output file, created under the old name *)
          let '(j, w3) := create_file (key path) w2 in
          (* every line of the backup goes through the loop body *)
          let out := String.concat EmptyString (map body (Py.text_lines (content_of w2 i))) in
          let w4 := set_content j out w3 in
          (* the backup is removed on close *)
          (Ok tt, set_names (delete (key backup)) w4)
      end
  end.

(** [glob.glob(pattern)] for a pattern without metacharacters: the path
    itself when it exists. *)
Definition glob_glob (pattern : string) : M (list string) := λ w,
  if Path.has_magic pattern then (Raise (Unmodelled "glob pattern with metacharacters"), w)
  else match node_at w pattern with
       | Absent => (Ok [], w)
       | _ => (Ok [pattern], w)
       end.

(** [shutil.copy(src, dst)]: into [dst] when it is a directory, else onto
    [dst].  A path that holds a NUL character is refused by [os.stat] with
    [ValueError: embedded null byte]; [os.path.isdir] swallows that error
    and [copyfile] does not, whether or not the other path exists. *)
Definition shutil_copy (src dst : string) : M unit := λ w,
  if Py.mem_char Py.NUL src || Py.mem_char Py.NUL dst
  then (Raise (ValueError "embedded null byte"), w)
  else
    let dst' := match node_at w dst with
                | Dir => Path.join dst [Path.basename src]
                | _ => dst
                end in
    match node_at w src with
    | Absent => (Raise (FileNotFoundError src), w)
    | Dir => (Raise (IsADirectoryError src), w)
    | File i =>
        match node_at w dst' with
        | File j =>
            if Nat.eqb i j then (Raise (SameFileError src), w)
            else open_write dst' (content_of w i) w
        | _ => open_write dst' (content_of w i) w
        end
    end.

(** [urllib.request.urlopen(url).geturl()] *)
Definition urlopen_geturl (url : string) : M string := λ w,
  let w' := World (dirs w) (names w) (inodes w) (next_inode w)
                  (stdout w) (requests w ++ [url]) in
  match geturl url with
  | Some u => (Ok u, w')
  | None => (Raise (URLError url), w')
  end.

(* =================================================================== *)
(** * The script *)
(* =================================================================== *)

(** The first path segment of a per-sample file: [path.split('/')[0]]. *)
Definition sample_of (path : string) : string := Py.item0 (Py.split "/" path).

(** The body of the header-rewriting loop: what is printed, terminator
    included, for one line read from the file.
<<
    if line.startswith(">"):
        new_header = str(">"+sample)
        new_line = line.replace(line, new_header)
        print(new_line, end='\n')
    else:
        print(line, end='\n')
>> *)
Definition rewrite_line (sample line : string) : string :=
  if Py.startswith line ">" then
    let new_header := ">" +:+ sample in
    let new_line := Py.replace line line new_header in
    new_line +:+ String Py.LF EmptyString
  else
    line +:+ String Py.LF EmptyString.

Definition link_ivar (root : string) (replace : bool) : M unit :=
  print "Linking iVar files to ncov-tools!";;
  for_each (input_variants snakemake) (λ variants,
    let sample := sample_of variants in
    let ln_path := root +:+ "/" +:+ sample +:+ ".variants.tsv" in
    e ← os_path_exists ln_path;
    if negb e || replace then os_link variants ln_path else mret tt);;
  for_each (input_consensus snakemake) (λ consensus,
    let sample := sample_of consensus in
    let ln_path := root +:+ "/" +:+ sample +:+ ".consensus.fasta" in
    e ← os_path_exists ln_path;
    (if negb e || replace then os_link consensus ln_path else mret tt);;
    fileinput_inplace ln_path (rewrite_line sample)).

Definition link_freebayes (root : string) : M unit :=
  print "Linking FreeBayes files to ncov-tools!";;
  for_each_break (input_variants snakemake) (λ variants,
    let sample := sample_of variants in
    let expected_path := Path.join sample ["freebayes"; sample +:+ ".variants.norm.vcf"] in
    e ← os_path_exists expected_path;
    if negb e then
      print "Missing FreeBayes variant file! Switching to iVar input!";;
      link_ivar root true;;
      mret Break
    else
      let ln_path := root +:+ "/" +:+ sample +:+ ".variants.vcf" in
      e' ← os_path_exists ln_path;
      (if negb e' then os_link expected_path ln_path else mret tt);;
      mret Next);;
  for_each_break (input_consensus snakemake) (λ consensus,
    let sample := sample_of consensus in
    let expected_path := Path.join sample ["freebayes"; sample +:+ ".consensus.fasta"] in
    e ← os_path_exists expected_path;
    if negb e then
      print "Missing FreeBayes variant file! Switching to iVar input!";;
      link_ivar root true;;
      mret Break
    else
      let ln_path := root +:+ "/" +:+ sample +:+ ".consensus.fasta" in
      e' ← os_path_exists ln_path;
      (if negb e' then os_link expected_path ln_path else mret tt);;
      fileinput_inplace ln_path (rewrite_line sample);;
      mret Next).

(** [str(v).split(".")[0].lower().strip("v")]: how a pangolin version or
    release tag is reduced to its major version. *)
Definition major_version (v : string) : string :=
  Py.strip "v" (Py.lower (Py.item0 (Py.split "." v))).

Definition assert_ (b : bool) : M unit :=
  if b then mret tt else raise AssertionError.

(** Values of the configuration dictionary: text, an [int], or a
    [float] carried by the decimal text [str()] gives it. *)
Inductive pyval :=
| VStr (s : string)
| VInt (n : Z)
| VFloat (shown : string).

Definition format_value (v : pyval) : string :=
  match v with
  | VStr s => s
  | VInt n => Py.str_int n
  | VFloat shown => shown
  end.

(** A [dict] keeps its keys in insertion order; assigning to a key that
    is present changes the value where it stands. *)
Fixpoint dict_set (k : string) (v : pyval) (d : list (string * pyval))
  : list (string * pyval) :=
  match d with
  | [] => [(k, v)]
  | (k', v') :: rest =>
      if String.eqb k' k then (k', v) :: rest else (k', v') :: dict_set k v rest
  end.

Definition dict_literal (items : list (string * pyval)) : list (string * pyval) :=
  fold_left (λ d kv, dict_set (fst kv) (snd kv) d) items [].

(** The negative-control scan over the lines that follow the header. *)
Definition scan_negatives (neg_names : list string) (lines : list string) : gset string :=
  fold_left
    (λ (neg_samples : gset string) line,
       let id := Py.item0 (Py.split "," line) in
       if Py.startswith_any id neg_names then {[ id ]} ∪ neg_samples else neg_samples)
    lines ∅.

(** [neg_samples] as computed from the text of the manifest. *)
Definition neg_samples (neg_names : list string) (manifest : string) : gset string :=
  scan_negatives neg_names (tail (Py.text_lines manifest)).

Definition config_literal (data_root result_dir pangolin : string) (neg_list : list string)
  : list (string * pyval) :=
  dict_literal
    [ ("data_root", VStr ("'" +:+ data_root +:+ "'"));
      ("run_name", VStr ("'" +:+ result_dir +:+ "'"));
      ("amplicon_bed", VStr ("'" +:+ amplicon_bed snakemake +:+ "'"));
      ("reference_genome", VStr ("'" +:+ viral_reference_genome snakemake +:+ "'"));
      ("platform", VStr "illumina");
      ("primer_bed", VStr ("'" +:+ primer_bed snakemake +:+ "'"));
      ("bed_type", VStr "unique_amplicons");
      ("offset", VInt 0);
      ("completeness_threshold", VFloat "0.9");
      ("bam_pattern", VStr "'{data_root}/{sample}.bam'");
      ("primer_trimmed_bam_pattern", VStr "'{data_root}/{sample}.mapped.primertrimmed.sorted.bam'");
      ("consensus_pattern", VStr "'{data_root}/{sample}.consensus.fasta'");
      ("variants_pattern", VStr "'{data_root}/{sample}.variants.tsv'");
      ("assign_lineages", VStr "true");
      ("tree_include_consensus", VStr ("'" +:+ phylo_include_seqs snakemake +:+ "'"));
      ("negative_control_samples", VStr (Py.str_list neg_list));
      ("mutation_set", VStr "spike_mutations");
      ("output_directory", VStr (result_dir +:+ "_ncovresults"));
      ("pangolin_version", VStr ("'" +:+ pangolin +:+ "'")) ].

(** What the final loop writes: one [key: value] line per entry. *)
Definition config_text (config : list (string * pyval)) : string :=
  String.concat EmptyString
    (map (λ kv, fst kv +:+ ": " +:+ format_value (snd kv) +:+ String Py.LF EmptyString) config).

(** The guard of the two BAM loops, [(not os.path.exists(ln_path)) or
    (replace is True)]: [or] evaluates its right operand only when the left
    one is false, and [replace] is then looked up in the module. *)
Definition bam_guard (ln_path : string) : M bool :=
  e ← os_path_exists ln_path;
  if negb e then mret true
  else replace ← load_global "replace"; mret (is_True replace).

Definition link_bams (data_root : string) : M unit :=
  for_each (input_bams snakemake) (λ bam,
    let sample := sample_of bam in
    let ln_path := data_root +:+ "/" +:+ sample +:+ ".bam" in
    g ← bam_guard ln_path;
    if (g : bool) then os_link bam ln_path else mret tt).

Definition link_primertrimmed_bams (data_root : string) : M unit :=
  for_each (input_primertrimmed_bams snakemake) (λ primer_trimmed_bam,
    let sample := sample_of primer_trimmed_bam in
    let ln_path := data_root +:+ "/" +:+ sample +:+ ".mapped.primertrimmed.sorted.bam" in
    g ← bam_guard ln_path;
    if (g : bool) then os_link primer_trimmed_bam ln_path else mret tt).

(** The pangolin major version: taken from the parameter when it is 3 or
    4, else from the tag of the latest release. *)
Definition resolve_pangolin : M string :=
  let pangolin := major_version (pangolin snakemake) in
  try_except
    (assert_ (String.eqb pangolin "3" || String.eqb pangolin "4");; mret pangolin)
    is_AssertionError
    (commit_url ← urlopen_geturl "https://github.com/cov-lineages/pangolin/releases/latest";
     mret (major_version (Py.item_last (Py.split "/" commit_url)))).

(** The data directory of this run, removed if present and made anew. *)
Definition reset_data_root (data_root : string) : M unit :=
  e ← os_path_exists data_root;
  (if (e : bool) then shutil_rmtree data_root else mret tt);;
  os_mkdir data_root.

Definition set_up : M (string * string) :=
  print "Writing config.yaml for ncov-tools to ncov-tools/config.yaml";;
  let exec_dir := exec_dir snakemake in
  let result_dir := Path.basename (result_dir snakemake) in
  pangolin ← resolve_pangolin;
  let data_root := Path.abspath getcwd (Path.join exec_dir ["ncov-tools"; result_dir]) in
  reset_data_root data_root;;
  let neg_names := negative_control_prefix snakemake in
  manifest ← open_read (sample_csv_filename snakemake);
  let neg_list := set_order (neg_samples neg_names manifest) in
  print ("Negative control samples found include: " +:+ Py.str_list neg_list);;
  let config := config_literal data_root result_dir pangolin neg_list in
  print "Linking alignment BAMs to ncov-tools!";;
  link_bams data_root;;
  link_primertrimmed_bams data_root;;
  config ← (if freebayes_run snakemake then
              link_freebayes data_root;;
              mret (dict_set "variants_pattern" (VStr "'{data_root}/{sample}.variants.vcf'") config)
            else
              link_ivar data_root false;;
              mret config);
  open_write (Path.join exec_dir ["ncov-tools"; "config.yaml"]) (config_text config);;
  mret (exec_dir, result_dir).

Definition plot_extensions : list string :=
  [ "_amplicon_coverage_heatmap.pdf"; "_amplicon_covered_fraction.pdf";
    "_depth_by_position.pdf"; "_tree_snps.pdf" ].

Definition qc_extensions : list string :=
  [ "_aligned-delim.fasta.log"; "_aligned-delim.iqtree.log"; "_aligned.fasta";
    "_aligned.fasta.insertions.csv"; "_aligned.fasta.log"; "_alleles.tsv";
    "_tree.nwk"; "_tree_raw.nwk"; "_consensus.fasta" ].

Definition move (cwd dest prefix : string) : M unit :=
  e ← os_path_exists (Path.join cwd ["ncov-tools"; "plots"]);
  (if (e : bool) then
     let extensions := plot_extensions in
     for_each extensions (λ ext,
       files ← glob_glob (Path.join cwd ["ncov-tools"; "plots"; "default" +:+ ext]);
       for_each files (λ file,
         try_except
           (shutil_copy file (Path.join dest ["plots"; prefix +:+ ext]))
           is_IOError
           (print ("Missing file " +:+ prefix +:+ ext))))
   else print "Missing ncov-tools 'plots' directory");;
  e ← os_path_exists (Path.join cwd ["ncov-tools"; "lineages"]);
  (if (e : bool) then
     files ← glob_glob (Path.join cwd ["ncov-tools"; "lineages"; "default_lineage_report.csv"]);
     for_each files (λ file,
       try_except
         (shutil_copy file (Path.join dest ["lineages"; prefix +:+ "_lineage_report.csv"]))
         is_IOError
         (print ("Missing file " +:+ prefix +:+ "_lineage_report.csv")))
   else print "Missing ncov-tools 'lineages' directory");;
  e ← os_path_exists (Path.join cwd ["ncov-tools"; "qc_analysis"]);
  (if (e : bool) then
     let extensions := qc_extensions in
     for_each extensions (λ ext,
       files ← glob_glob (Path.join cwd ["ncov-tools"; "qc_analysis"; "default" +:+ ext]);
       for_each files (λ file,
         try_except
           (shutil_copy file (Path.join dest ["qc_analysis"; prefix +:+ ext]))
           is_IOError
           (print ("Missing file " +:+ prefix +:+ ext))))
   else print "Missing ncov-tools 'qc_analysis' directory").

End Script.


(* ===================================================================== *)
(** * Notions used in the statements *)
(* ===================================================================== *)

(** A path component that normalisation keeps as it is. *)
Definition no_slash (f : string) : Prop := Py.mem_char "/"%char f = false.

Definition plain_component (f : string) : Prop :=
  no_slash f ∧ f ≠ EmptyString ∧ f ≠ "." ∧ f ≠ "..".

(** [q] is [f] or ends in the component [f]. *)
Definition ends_in (q f : string) : Prop :=
  q = f ∨ ∃ d, q = d +:+ "/" +:+ f.

(** Every name of [w] is still bound in [w'], to the same inode, and the
    directories are the same. *)
Definition extends (w w' : world) : Prop :=
  dirs w' = dirs w ∧ ∀ q i, names w !! q = Some i → names w' !! q = Some i.

(** Moreover every name that is new in [w'] satisfies [P]. *)
Definition extends_by (P : string → Prop) (w w' : world) : Prop :=
  extends w w' ∧ ∀ q, names w !! q = None → is_Some (names w' !! q) → P q.

(** The names that satisfy [P] keep their inode from [w] to [w']. *)
Definition keeps (P : string → Prop) (w w' : world) : Prop :=
  ∀ q i, P q → names w !! q = Some i → names w' !! q = Some i.

(** Keys are told apart by how they end. *)
Definition ends_like (t : string) (q : string) : Prop :=
  Py.suffix (String.length t) q = t.

(** The paths the linker builds for an input file. *)
Definition variants_tsv_path (root variants : string) : string :=
  root +:+ "/" +:+ sample_of variants +:+ ".variants.tsv".

Definition variants_vcf_path (root variants : string) : string :=
  root +:+ "/" +:+ sample_of variants +:+ ".variants.vcf".

Definition consensus_path (root consensus : string) : string :=
  root +:+ "/" +:+ sample_of consensus +:+ ".consensus.fasta".

Definition expected_variants (variants : string) : string :=
  Path.join (sample_of variants) ["freebayes"; sample_of variants +:+ ".variants.norm.vcf"].

Definition expected_consensus (consensus : string) : string :=
  Path.join (sample_of consensus) ["freebayes"; sample_of consensus +:+ ".consensus.fasta"].

(* ===================================================================== *)
(** * Concrete worlds *)
(* ===================================================================== *)

Definition empty_world : world := World ∅ ∅ ∅ 0 [] [].

Definition add_file (k content : string) (w : world) : world :=
  let '(i, w1) := create_file k w in set_content i content w1.

(** A world with the given directories and files (absolute paths). *)
Definition mk_world (ds : list string) (files : list (string * string)) : world :=
  fold_left (λ w kc, add_file (fst kc) (snd kc) w) files
            (set_dirs (λ _, list_to_set ds) empty_world).

Definition nl : string := String Py.LF EmptyString.

(** A run of two samples in the working directory [/work]; the data
    directory [/work/ncov-tools/run1] exists and is empty. *)
Definition demo_dirs : list string :=
  [ "/work"; "/work/S1"; "/work/S1/core"; "/work/S1/freebayes";
    "/work/S2"; "/work/S2/core"; "/work/S2/freebayes";
    "/work/ncov-tools"; "/work/ncov-tools/run1" ].

Definition demo_primary : list (string * string) :=
  [ ("/work/S1/core/S1.variants.tsv", "POS" +:+ nl +:+ "241" +:+ nl);
    ("/work/S2/core/S2.variants.tsv", "POS" +:+ nl +:+ "3037" +:+ nl);
    ("/work/S1/core/S1.consensus.fa", ">Consensus_S1_threshold_0.75" +:+ nl +:+ "ACGT" +:+ nl +:+ "TTGA" +:+ nl);
    ("/work/S2/core/S2.consensus.fa", ">Consensus_S2_threshold_0.75" +:+ nl +:+ "GGCC" +:+ nl) ].

Definition demo_snakemake (freebayes : bool) (version : string) : snakemake_t :=
  Snakemake
    ["S1/core/S1.variants.tsv"; "S2/core/S2.variants.tsv"]
    ["S1/core/S1.consensus.fa"; "S2/core/S2.consensus.fa"]
    ["S1/core/S1.bam"; "S2/core/S2.bam"]
    ["S1/core/S1.trimmed.bam"; "S2/core/S2.trimmed.bam"]
    "." "results/run1" version ["NEG"; "neg"] "sample_table.csv"
    "resources/amplicon.bed" "resources/MN908947.fasta" "resources/primer.bed"
    "True" freebayes 4.

Definition demo_root : string := "/work/ncov-tools/run1".

(** The alternate caller produced variants for S1 only, and a consensus
    for both samples. *)
Definition world_vcf_missing : world :=
  mk_world demo_dirs
    (demo_primary ++
     [ ("/work/S1/freebayes/S1.variants.norm.vcf", "#CHROM" +:+ nl);
       ("/work/S1/freebayes/S1.consensus.fasta", ">S1_fb" +:+ nl +:+ "ACGT" +:+ nl);
       ("/work/S2/freebayes/S2.consensus.fasta", ">S2_fb" +:+ nl +:+ "GGCC" +:+ nl) ]).

(** The alternate caller produced variants for both samples, and a
    consensus for S1 only. *)
Definition world_consensus_missing : world :=
  mk_world demo_dirs
    (demo_primary ++
     [ ("/work/S1/freebayes/S1.variants.norm.vcf", "#CHROM" +:+ nl);
       ("/work/S2/freebayes/S2.variants.norm.vcf", "#CHROM" +:+ nl);
       ("/work/S1/freebayes/S1.consensus.fasta", ">S1_fb" +:+ nl +:+ "ACGT" +:+ nl) ]).

(** Only the primary caller ran. *)
Definition world_primary : world := mk_world demo_dirs demo_primary.

(** The content of the file at an absolute path, if there is one. *)
Definition file_content (w : world) (k : string) : option string :=
  i ← names w !! k; Some (content_of w i).

(** The output tree of the downstream tool with its three directories and
    none of the expected files, and a destination tree. *)
Definition world_no_outputs : world :=
  mk_world
    [ "/out"; "/out/ncov-tools"; "/out/ncov-tools/plots"; "/out/ncov-tools/lineages";
      "/out/ncov-tools/qc_analysis";
      "/res"; "/res/plots"; "/res/lineages"; "/res/qc_analysis" ]
    [].

(** An output tree without the [plots] directory, with a lineage report. *)
Definition world_no_plots : world :=
  mk_world
    [ "/out"; "/out/ncov-tools"; "/out/ncov-tools/lineages"; "/out/ncov-tools/qc_analysis";
      "/res"; "/res/plots"; "/res/lineages"; "/res/qc_analysis" ]
    [ ("/out/ncov-tools/lineages/default_lineage_report.csv", "taxon,lineage" +:+ nl) ].

(** Two alignment files of the same sample directory. *)
Definition snakemake_shared_segment : snakemake_t :=
  Snakemake [] [] ["S1/core/S1.bam"; "S1/core/S1.sorted.bam"] []
    "." "results/run1" "v3.1.2" ["NEG"; "neg"] "sample_table.csv"
    "resources/amplicon.bed" "resources/MN908947.fasta" "resources/primer.bed"
    "True" false 4.

Definition world_bams : world :=
  mk_world demo_dirs
    [ ("/work/S1/core/S1.bam", "BAM1"); ("/work/S1/core/S1.sorted.bam", "BAM2") ].

(** The link path of an alignment file, for either of the two loops. *)
Definition bam_path (data_root ext bam : string) : string :=
  data_root +:+ "/" +:+ sample_of bam +:+ ext.

(** The common shape of the two BAM loops of [set_up]. *)
Definition bam_loop (getcwd data_root ext : string) (l : list string) : M unit :=
  for_each l (λ bam,
    let sample := sample_of bam in
    let ln_path := data_root +:+ "/" +:+ sample +:+ ext in
    g ← bam_guard getcwd ln_path;
    if (g : bool) then os_link getcwd bam ln_path else mret tt).

(** The version normalisation as the specification words it: the text
    before the first dot, lower-cased, without a leading [v]. *)
Definition strip_leading (c : ascii) (s : string) : string :=
  match s with
  | EmptyString => EmptyString
  | String a s' => if Ascii.eqb a c then s' else s
  end.

Definition spec_major_version (v : string) : string :=
  strip_leading "v" (Py.lower (Py.item0 (Py.split "." v))).

(** The capital letters: what lower-casing leaves none of. *)
Definition upper_letters : string := "ABCDEFGHIJKLMNOPQRSTUVWXYZ".

(** Every character of [s] occurs in [chars]. *)
Fixpoint only_chars (chars s : string) : bool :=
  match s with
  | EmptyString => true
  | String c s' => Py.mem_char c chars && only_chars chars s'
  end.

Definition release_url : string :=
  "https://github.com/cov-lineages/pangolin/releases/latest".

(** A host without network, and one where the release page redirects to
    the tag [v4.3.1]. *)
Definition no_web : string → option string := λ _, None.

Definition web_v4 : string → option string :=
  λ _, Some "https://github.com/cov-lineages/pangolin/releases/tag/v4.3.1".

(** A text without line terminator, and a row of the sample sheet: an
    identifier, a comma, the other fields, a newline. *)
Definition no_newline (r : string) : Prop :=
  Py.mem_char Py.LF r = false ∧ Py.mem_char Py.CR r = false.

Definition row (id fields : string) : string := id +:+ "," +:+ fields +:+ nl.

(** A sample sheet with two negative controls, and a world where a whole
    primary-mode run of [set_up] goes through. *)
Definition demo_sheet : string :=
  "sample,r1_path,r2_path" +:+ nl +:+ row "NEG1" "a_R1.fastq.gz,a_R2.fastq.gz"
  +:+ row "SAMPLE2" "b_R1.fastq.gz,b_R2.fastq.gz"
  +:+ row "neg_blank" "c_R1.fastq.gz,c_R2.fastq.gz".

Definition world_full : world :=
  mk_world demo_dirs
    (demo_primary ++
     [ ("/work/S1/core/S1.bam", "BAM1"); ("/work/S2/core/S2.bam", "BAM2");
       ("/work/S1/core/S1.trimmed.bam", "BAM3"); ("/work/S2/core/S2.trimmed.bam", "BAM4");
       ("/work/sample_table.csv", demo_sheet) ]).


(** The same run when the alternate caller gave no variants for S2. *)
Definition world_full_vcf_missing : world :=
  mk_world demo_dirs
    (demo_primary ++
     [ ("/work/S1/freebayes/S1.variants.norm.vcf", "#CHROM" +:+ nl);
       ("/work/S1/freebayes/S1.consensus.fasta", ">S1_fb" +:+ nl +:+ "ACGT" +:+ nl);
       ("/work/S2/freebayes/S2.consensus.fasta", ">S2_fb" +:+ nl +:+ "GGCC" +:+ nl);
       ("/work/S1/core/S1.bam", "BAM1"); ("/work/S2/core/S2.bam", "BAM2");
       ("/work/S1/core/S1.trimmed.bam", "BAM3"); ("/work/S2/core/S2.trimmed.bam", "BAM4");
       ("/work/sample_table.csv", demo_sheet) ]).

(** The configuration file of that run, line by line, with the line of
    [variants_pattern] as given. *)
Definition demo_config (variants_pattern_line : string) : string :=
  "data_root: '/work/ncov-tools/run1'" +:+ nl
  +:+ "run_name: 'run1'" +:+ nl
  +:+ "amplicon_bed: 'resources/amplicon.bed'" +:+ nl
  +:+ "reference_genome: 'resources/MN908947.fasta'" +:+ nl
  +:+ "platform: illumina" +:+ nl
  +:+ "primer_bed: 'resources/primer.bed'" +:+ nl
  +:+ "bed_type: unique_amplicons" +:+ nl
  +:+ "offset: 0" +:+ nl
  +:+ "completeness_threshold: 0.9" +:+ nl
  +:+ "bam_pattern: '{data_root}/{sample}.bam'" +:+ nl
  +:+ "primer_trimmed_bam_pattern: '{data_root}/{sample}.mapped.primertrimmed.sorted.bam'" +:+ nl
  +:+ "consensus_pattern: '{data_root}/{sample}.consensus.fasta'" +:+ nl
  +:+ variants_pattern_line +:+ nl
  +:+ "assign_lineages: true" +:+ nl
  +:+ "tree_include_consensus: 'True'" +:+ nl
  +:+ "negative_control_samples: ['neg_blank', 'NEG1']" +:+ nl
  +:+ "mutation_set: spike_mutations" +:+ nl
  +:+ "output_directory: run1_ncovresults" +:+ nl
  +:+ "pangolin_version: '3'" +:+ nl.

(** The nineteen keys of the configuration file, in the order of the
    dictionary literal. *)
Definition config_keys : list string :=
  [ "data_root"; "run_name"; "amplicon_bed"; "reference_genome"; "platform";
    "primer_bed"; "bed_type"; "offset"; "completeness_threshold"; "bam_pattern";
    "primer_trimmed_bam_pattern"; "consensus_pattern"; "variants_pattern";
    "assign_lineages"; "tree_include_consensus"; "negative_control_samples";
    "mutation_set"; "output_directory"; "pangolin_version" ].

Definition tsv_pattern : string := "'{data_root}/{sample}.variants.tsv'".
Definition vcf_pattern : string := "'{data_root}/{sample}.variants.vcf'".

(** The entries the configuration file is expected to hold, as text. *)
Definition config_entries (sm : snakemake_t) (data_root run pangolin : string)
           (neg_list : list string) : list (string * string) :=
  [ ("data_root", "'" +:+ data_root +:+ "'");
    ("run_name", "'" +:+ run +:+ "'");
    ("amplicon_bed", "'" +:+ amplicon_bed sm +:+ "'");
    ("reference_genome", "'" +:+ viral_reference_genome sm +:+ "'");
    ("platform", "illumina");
    ("primer_bed", "'" +:+ primer_bed sm +:+ "'");
    ("bed_type", "unique_amplicons");
    ("offset", "0");
    ("completeness_threshold", "0.9");
    ("bam_pattern", "'{data_root}/{sample}.bam'");
    ("primer_trimmed_bam_pattern", "'{data_root}/{sample}.mapped.primertrimmed.sorted.bam'");
    ("consensus_pattern", "'{data_root}/{sample}.consensus.fasta'");
    ("variants_pattern", if freebayes_run sm then vcf_pattern else tsv_pattern);
    ("assign_lineages", "true");
    ("tree_include_consensus", "'" +:+ phylo_include_seqs sm +:+ "'");
    ("negative_control_samples", Py.str_list neg_list);
    ("mutation_set", "spike_mutations");
    ("output_directory", run +:+ "_ncovresults");
    ("pangolin_version", "'" +:+ pangolin +:+ "'") ].

Definition key_value_line (kv : string * string) : string :=
  fst kv +:+ ": " +:+ snd kv +:+ nl.









(* ===================================================================== *)
(** * Further notions: what a computation leaves alone *)
(* ===================================================================== *)

(** No request was made between [w] and [w']. *)
Definition same_requests (w w' : world) : Prop := requests w' = requests w.

(** Every inode allocated in [w] holds in [w'] the text it held in [w]. *)
Definition contents_kept (w w' : world) : Prop :=
  next_inode w ≤ next_inode w'
  ∧ ∀ i, i < next_inode w → inodes w' !! i = inodes w !! i.

(** What was printed in [w] is the beginning of what is printed in [w']. *)
Definition output_grows (w w' : world) : Prop := stdout w `prefix_of` stdout w'.

(** [m] relates the world it starts in to the world it ends in by [R],
    whether it returns or raises. *)
Definition frames {A} (R : world → world → Prop) (m : M A) : Prop :=
  ∀ w, R w (snd (m w)).

(** A run whose sample sheet is kept inside the data directory. *)
Definition snakemake_sheet_inside : snakemake_t :=
  Snakemake
    ["S1/core/S1.variants.tsv"; "S2/core/S2.variants.tsv"]
    ["S1/core/S1.consensus.fa"; "S2/core/S2.consensus.fa"]
    ["S1/core/S1.bam"; "S2/core/S2.bam"]
    ["S1/core/S1.trimmed.bam"; "S2/core/S2.trimmed.bam"]
    "." "results/run1" "v3.1.2" ["NEG"; "neg"] "ncov-tools/run1/sample_table.csv"
    "resources/amplicon.bed" "resources/MN908947.fasta" "resources/primer.bed"
    "True" false 4.

Definition world_sheet_inside : world :=
  mk_world demo_dirs
    (demo_primary ++
     [ ("/work/S1/core/S1.bam", "BAM1"); ("/work/S2/core/S2.bam", "BAM2");
       ("/work/S1/core/S1.trimmed.bam", "BAM3"); ("/work/S2/core/S2.trimmed.bam", "BAM4");
       ("/work/ncov-tools/run1/sample_table.csv", demo_sheet) ]).

(** The data directory of a run. *)
Definition data_root_of (getcwd : string) (sm : snakemake_t) : string :=
  Path.abspath getcwd
    (Path.join (exec_dir sm) ["ncov-tools"; Path.basename (result_dir sm)]).

(** [isinstance(e, FileExistsError)] *)
Definition is_FileExistsError (e : exn) : bool :=
  match e with FileExistsError _ => true | _ => false end.

(** [m] raises no exception of the class [E]. *)
Definition never_raises {A} (E : exn → bool) (m : M A) : Prop :=
  ∀ w e w', m w = (Raise e, w') → E e = false.

(** The text the header-rewriting loop leaves in place of [content]. *)
Definition rewritten (sample content : string) : string :=
  String.concat EmptyString (map (rewrite_line sample) (Py.text_lines content)).

(** The lines that stand, after the rewrite, where [line] stood: the new
    header for a header; for any other line the line itself and an empty
    line, or the line with a terminator if it had none. *)
Definition rewritten_lines (sample line : string) : list string :=
  if Py.startswith line ">" then [">" +:+ sample +:+ nl]
  else match Py.last_char line with
       | Some c => if Ascii.eqb c Py.LF then [line; nl] else [line +:+ nl]
       | None => [line +:+ nl]
       end.

(** A line as iteration over a file yields it: not empty, without CR, and
    with LF at most at its end. *)
Definition is_line (l : string) : Prop :=
  ∃ r, no_newline r ∧ (l = r +:+ nl ∨ (l = r ∧ r ≠ EmptyString)).

(** The state of a consensus link: bound to an inode that holds a
    rewritten text for its sample. *)
Definition holds_rewritten (getcwd root c : string) (w : world) : Prop :=
  ∃ j text,
    names w !! key getcwd (consensus_path root c) = Some j
    ∧ j < next_inode w
    ∧ inodes w !! j = Some (rewritten (sample_of c) text).

(** A sheet with a single column. *)
Definition one_column_sheet : string := "sample" +:+ nl +:+ "NEG1" +:+ nl.

(** From [w] to [w'] the directories are the same and every name that
    does not end in [.bak] is still bound (perhaps to another inode). *)
Definition survives (w w' : world) : Prop :=
  dirs w' = dirs w
  ∧ ∀ q, ¬ ends_like ".bak" q → is_Some (names w !! q) → is_Some (names w' !! q).

(** Both callers ran for both samples. *)
Definition world_alternate_complete : world :=
  mk_world demo_dirs
    (demo_primary ++
     [ ("/work/S1/freebayes/S1.variants.norm.vcf", "#CHROM" +:+ nl);
       ("/work/S2/freebayes/S2.variants.norm.vcf", "#CHROM" +:+ nl);
       ("/work/S1/freebayes/S1.consensus.fasta", ">S1_fb" +:+ nl +:+ "ACGT" +:+ nl);
       ("/work/S2/freebayes/S2.consensus.fasta", ">S2_fb" +:+ nl +:+ "GGCC" +:+ nl) ]).

(** A name that is neither a consensus link nor the backup file of one. *)
Definition other_name (q : string) : Prop :=
  ¬ ends_like ".consensus.fasta" q ∧ ¬ ends_like ".consensus.fasta.bak" q.

(** Two paths that name one file: both are bound to the same inode. *)
Definition hard_linked (getcwd : string) (w : world) (p q : string) : Prop :=
  ∃ i, node_at getcwd w p = File i ∧ node_at getcwd w q = File i.

(** No destination of a consensus link is a directory. *)
Definition consensus_links_no_dir (getcwd : string) (sm : snakemake_t) (root : string)
           (w : world) : Prop :=
  ∀ c, c ∈ input_consensus sm → is_dir w (key getcwd (consensus_path root c)) = false.

Definition is_Unmodelled (e : exn) : bool :=
  match e with Unmodelled _ => true | _ => false end.

(** Started in a world that satisfies [I], [m] ends in a world that
    satisfies [I] and raises no exception of the class [E]. *)
Definition guarded {A} (I : world → Prop) (E : exn → bool) (m : M A) : Prop :=
  ∀ w, I w → I (snd (m w)) ∧ ∀ e, fst (m w) = Raise e → E e = false.

(** The name [q] is that of a file of [w] with the text [t]. *)
Definition holds (w : world) (q t : string) : Prop :=
  ∃ i, names w !! q = Some i ∧ i < next_inode w ∧ content_of w i = t.

(** Every file of [w] that is neither a consensus link nor a backup is
    there in [w'], under its name and with its text. *)
Definition files_kept (w w' : world) : Prop :=
  ∀ q t, other_name q → holds w q t → holds w' q t.
(* ===================================================================== *)
(** * Facts about strings and paths *)
(* ===================================================================== *)

Section StringFacts.

#[local] Arguments String.append : simpl nomatch.

Lemma app_assoc_s (a b c : string) : (a +:+ b) +:+ c = a +:+ (b +:+ c).
Proof. induction a as [|x a IH]; simpl; [reflexivity | by rewrite IH]. Qed.

Lemma app_nil_r_s (a : string) : a +:+ EmptyString = a.
Proof. induction a as [|x a IH]; simpl; [reflexivity | by rewrite IH]. Qed.

Lemma length_app_s (a b : string) :
  String.length (a +:+ b) = String.length a + String.length b.
Proof. induction a as [|x a IH]; simpl; [reflexivity | by rewrite IH]. Qed.

Lemma prefix_refl (s : string) : String.prefix s s = true.
Proof.
  induction s as [|c s IH]; simpl; [reflexivity|].
  destruct (ascii_dec c c); [exact IH | congruence].
Qed.

Lemma prefix_app (p s : string) : String.prefix p (p +:+ s) = true.
Proof.
  induction p as [|c p IH]; simpl; [by destruct s|].
  destruct (ascii_dec c c); [exact IH | congruence].
Qed.

Lemma mem_char_app (c : ascii) (a b : string) :
  Py.mem_char c (a +:+ b) = Py.mem_char c a || Py.mem_char c b.
Proof.
  induction a as [|x a IH]; simpl; [reflexivity|].
  rewrite IH. by rewrite orb_assoc.
Qed.

(** The last characters of a text are those of its last part. *)
Lemma suffix_app (n : nat) (s t : string) :
  n ≤ String.length t → Py.suffix n (s +:+ t) = Py.suffix n t.
Proof.
  intros Hn. induction s as [|c s IH]; [reflexivity|].
  change (Py.suffix n (String c s +:+ t))
    with (if (String.length (String c (s +:+ t)) <=? n)%nat
          then String c (s +:+ t) else Py.suffix n (s +:+ t)).
  destruct (Nat.leb_spec (String.length (String c (s +:+ t))) n) as [H|H]; [|exact IH].
  simpl in H. rewrite length_app_s in H. lia.
Qed.

Lemma last_char_app (s t : string) :
  t ≠ EmptyString → Py.last_char (s +:+ t) = Py.last_char t.
Proof.
  intros Ht. induction s as [|c s IH]; simpl; [reflexivity|].
  rewrite IH. destruct t as [|d t]; [congruence|].
  simpl. by destruct (Py.last_char t).
Qed.

(** Replacing a whole non-empty text by another gives the other. *)
Lemma replace_from_skip (old new s : string) (k : nat) :
  String.length s ≤ k → Py.replace_from old new k s = EmptyString.
Proof.
  revert k. induction s as [|c s IH]; intros k Hk; simpl in *; [reflexivity|].
  destruct k as [|k]; [lia|]. apply IH. lia.
Qed.

Lemma replace_self (s new : string) :
  s ≠ EmptyString → Py.replace s s new = new.
Proof.
  destruct s as [|c s]; [congruence|]. intros _.
  unfold Py.replace.
  change (Py.replace_from (String c s) new 0 (String c s))
    with (if String.prefix (String c s) (String c s)
          then new +:+ Py.replace_from (String c s) new (String.length (String c s) - 1) s
          else String c (Py.replace_from (String c s) new 0 s)).
  rewrite prefix_refl. rewrite replace_from_skip; [apply app_nil_r_s | simpl; lia].
Qed.

(** Components of a split hold no separator, and a text without the
    separator is its own single component. *)
Lemma split_nonempty (sep : ascii) (s : string) : Py.split sep s ≠ [].
Proof.
  induction s as [|c s IH]; simpl; [done|].
  destruct (Ascii.eqb c sep); [done|]. by destruct (Py.split sep s).
Qed.

Lemma split_no_sep (sep : ascii) (s x : string) :
  x ∈ Py.split sep s → Py.mem_char sep x = false.
Proof.
  revert x. induction s as [|c s IH]; intros x; simpl.
  - intros ->%list_elem_of_singleton. reflexivity.
  - destruct (Ascii.eqb c sep) eqn:E.
    + intros [->|Hx]%elem_of_cons; [reflexivity | by apply IH].
    + destruct (Py.split sep s) as [|f fs] eqn:Es.
      * intros ->%list_elem_of_singleton. simpl.
        rewrite Ascii.eqb_sym, E. reflexivity.
      * intros [->|Hx]%elem_of_cons.
        -- simpl. rewrite Ascii.eqb_sym, E. simpl. apply IH. left.
        -- apply IH. by right.
Qed.

Lemma split_single (sep : ascii) (s : string) :
  Py.mem_char sep s = false → Py.split sep s = [s].
Proof.
  induction s as [|c s IH]; simpl; [reflexivity|].
  intros [Hc Hs]%orb_false_iff. rewrite Ascii.eqb_sym, Hc, (IH Hs). reflexivity.
Qed.

Lemma split_app (sep : ascii) (a b : string) :
  Py.split sep (a +:+ String sep b) = Py.split sep a ++ Py.split sep b.
Proof.
  induction a as [|c a IH]; simpl.
  - by rewrite Ascii.eqb_refl.
  - destruct (Ascii.eqb c sep); rewrite IH; [reflexivity|].
    pose proof (split_nonempty sep a). by destruct (Py.split sep a).
Qed.

Lemma item0_no_sep (sep : ascii) (s : string) :
  Py.mem_char sep (Py.item0 (Py.split sep s)) = false.
Proof.
  apply (split_no_sep sep s). pose proof (split_nonempty sep s).
  destruct (Py.split sep s); [done | left].
Qed.

End StringFacts.

Section PathFacts.

#[local] Arguments String.append : simpl nomatch.

Context (getcwd : string).

Lemma join_snoc (sep : string) (l : list string) (f : string) :
  Py.join sep (l ++ [f])
  = match l with [] => f | _ => Py.join sep l +:+ sep +:+ f end.
Proof.
  induction l as [|x l IH]; [reflexivity|].
  destruct l as [|z l]; [reflexivity|].
  change (Py.join sep ((x :: z :: l) ++ [f]))
    with (x +:+ sep +:+ Py.join sep ((z :: l) ++ [f])).
  rewrite IH.
  change (Py.join sep (x :: z :: l)) with (x +:+ sep +:+ Py.join sep (z :: l)).
  by rewrite !app_assoc_s.
Qed.

Lemma plain_not_slash_first (f : string) : no_slash f → Py.startswith f "/" = false.
Proof.
  unfold no_slash, Py.startswith. destruct f as [|c f]; [reflexivity|].
  cbn [Py.mem_char String.prefix].
  intros [Hc _]%orb_false_iff.
  destruct (ascii_dec "/" c) as [<-|]; [by rewrite Ascii.eqb_refl in Hc | reflexivity].
Qed.

Lemma norm_step_plain (n : nat) (comps : list string) (f : string) :
  plain_component f → Path.norm_step n comps f = comps ++ [f].
Proof.
  intros (_ & H0 & H1 & H2). unfold Path.norm_step.
  apply String.eqb_neq in H0, H1, H2. by rewrite H0, H1, H2.
Qed.

Lemma ends_in_nonempty (q f : string) : ends_in q f → f ≠ EmptyString → q ≠ EmptyString.
Proof. intros [->|[d ->]] Hf; [done|]. by destruct d. Qed.

Lemma ends_in_trans_l (x q f : string) : ends_in q f → ends_in (x +:+ "/" +:+ q) f.
Proof.
  intros [->|[d ->]]; right; [by exists x|].
  exists (x +:+ "/" +:+ d). by rewrite !app_assoc_s.
Qed.

Lemma normpath_ends_in (q f : string) :
  ends_in q f → plain_component f → ends_in (Path.normpath q) f.
Proof.
  intros Hq Hf. pose proof Hf as (Hs & Hne & _).
  unfold Path.normpath.
  rewrite (proj2 (String.eqb_neq _ _) (ends_in_nonempty _ _ Hq Hne)).
  set (n := if Py.startswith q "/" then _ else _). clearbody n.
  assert (∃ L, fold_left (Path.norm_step n) (Py.split "/" q) [] = L ++ [f])
    as [L ->].
  { destruct Hq as [->|[d ->]].
    - exists []. rewrite (split_single _ _ Hs). simpl.
      by rewrite (norm_step_plain _ _ _ Hf).
    - change ("/" +:+ f) with (String "/"%char f).
      rewrite split_app, (split_single _ _ Hs), fold_left_app. simpl.
      rewrite (norm_step_plain _ _ _ Hf). by eexists. }
  rewrite join_snoc.
  assert (∀ s, ends_in s f → ends_in (if String.eqb s EmptyString then "." else s) f)
    as Hfin.
  { intros s Hsf.
    by rewrite (proj2 (String.eqb_neq _ _) (ends_in_nonempty _ _ Hsf Hne)). }
  apply Hfin.
  destruct L as [|x L].
  - destruct n as [|[|n]]; [by left | right; by exists EmptyString | right; by exists "/"].
  - destruct n as [|[|n]]; right.
    + by eexists.
    + exists ("/" +:+ Py.join "/" (x :: L)). by rewrite !app_assoc_s.
    + exists ("//" +:+ Py.join "/" (x :: L)). by rewrite !app_assoc_s.
Qed.

Lemma last_char_snoc (x : string) (c : ascii) :
  Py.last_char x = Some c → ∃ d, x = d +:+ String c EmptyString.
Proof.
  induction x as [|a x IH]; simpl; [done|].
  destruct (Py.last_char x) as [c'|] eqn:E.
  - intros [= ->]. destruct (IH eq_refl) as [d ->]. by exists (String a d).
  - intros [= ->]. destruct x; [by exists EmptyString|].
    simpl in E. by destruct (Py.last_char x).
Qed.

Lemma join2_ends_in (x p f : string) : ends_in p f → ends_in (Path.join2 x p) f.
Proof.
  intros Hp. unfold Path.join2.
  destruct (Py.startswith p "/"); [done|].
  destruct (Py.last_char x) as [c|] eqn:E.
  - destruct (Ascii.eqb_spec c "/") as [->|_].
    + destruct (last_char_snoc _ _ E) as [d ->].
      rewrite app_assoc_s. by apply ends_in_trans_l.
    + by apply ends_in_trans_l.
  - destruct x; [done|]. simpl in E. by destruct (Py.last_char x).
Qed.

Lemma key_ends_in (p f : string) :
  ends_in p f → plain_component f → ends_in (key getcwd p) f.
Proof.
  intros Hp Hf. unfold key, Path.abspath. apply normpath_ends_in; [|done].
  destruct (Py.startswith p "/"); [done|]. by apply join2_ends_in.
Qed.

Lemma ends_in_suffix (n : nat) (q f : string) :
  ends_in q f → n ≤ String.length f → Py.suffix n q = Py.suffix n f.
Proof.
  intros [->|[d ->]] Hn; [done|].
  rewrite <- app_assoc_s. by apply suffix_app.
Qed.

(** A sample name followed by a fixed extension is a plain component. *)
Lemma plain_sample_ext (s t : string) :
  no_slash s → no_slash t → 3 ≤ String.length t → plain_component (s +:+ t).
Proof.
  intros Hs Ht Hl. unfold plain_component, no_slash in *.
  rewrite mem_char_app, Hs, Ht.
  assert (3 ≤ String.length (s +:+ t)) as H by (rewrite length_app_s; lia).
  repeat split; intros E; rewrite E in H; simpl in H; lia.
Qed.

(** The key of a path that ends in [sample ++ ext] ends like [ext]. *)
Lemma key_suffix (n : nat) (p s t : string) :
  ends_in p (s +:+ t) → no_slash s → no_slash t →
  3 ≤ String.length t → n ≤ String.length t →
  Py.suffix n (key getcwd p) = Py.suffix n t.
Proof.
  intros Hp Hs Ht H3 Hn.
  rewrite (ends_in_suffix n _ (s +:+ t)).
  - by apply suffix_app.
  - apply key_ends_in; [done | by apply plain_sample_ext].
  - rewrite length_app_s. lia.
Qed.

Lemma sample_no_slash (path : string) : no_slash (sample_of path).
Proof. apply item0_no_sep. Qed.

(** The three shapes of path the linker builds. *)
Lemma link_path_ends_in (root s t : string) : ends_in (root +:+ "/" +:+ s +:+ t) (s +:+ t).
Proof. right. by exists root. Qed.

Lemma backup_path_ends_in (root s t : string) :
  ends_in ((root +:+ "/" +:+ s +:+ t) +:+ ".bak") (s +:+ t +:+ ".bak").
Proof. right. exists root. by rewrite !app_assoc_s. Qed.

Lemma expected_path_ends_in (s t : string) :
  ends_in (Path.join s ["freebayes"; s +:+ t]) (s +:+ t).
Proof. unfold Path.join. simpl. apply join2_ends_in. by left. Qed.

End PathFacts.

(* ===================================================================== *)
(** * Facts about the monad and the operating-system calls *)
(* ===================================================================== *)

Lemma bind_Ok {A B} (m : M A) (f : A → M B) (w w' : world) (b : B) :
  (m ≫= f) w = (Ok b, w') → ∃ a w1, m w = (Ok a, w1) ∧ f a w1 = (Ok b, w').
Proof.
  unfold mbind, M_bind. destruct (m w) as [[a|e] w1]; [|done]. by exists a, w1.
Qed.

Lemma bind_Raise {A B} (m : M A) (f : A → M B) (w w' : world) (e : exn) :
  m w = (Raise e, w') → (m ≫= f) w = (Raise e, w').
Proof. unfold mbind, M_bind. by intros ->. Qed.

Lemma bind_step {A B} (m : M A) (f : A → M B) (w w1 : world) (a : A) :
  m w = (Ok a, w1) → (m ≫= f) w = f a w1.
Proof. unfold mbind, M_bind. by intros ->. Qed.

Lemma ret_Ok {A} (a b : A) (w w' : world) :
  (mret a : M A) w = (Ok b, w') → a = b ∧ w = w'.
Proof. unfold mret, M_ret. by intros [= -> ->]. Qed.

(** Splits a successful run of [m ≫= f] found in hypothesis [H]. *)
Ltac bind_ok H :=
  let a := fresh "a" in
  let w := fresh "w" in
  let Hm := fresh "Hm" in
  apply bind_Ok in H as (a & w & Hm & H).

Tactic Notation "bind_in" hyp(H) "as" simple_intropattern(a) simple_intropattern(w)
       simple_intropattern(Hm) :=
  apply bind_Ok in H as (a & w & Hm & H).

Lemma extends_refl (w : world) : extends w w.
Proof. by split. Qed.

Lemma extends_trans (w1 w2 w3 : world) : extends w1 w2 → extends w2 w3 → extends w1 w3.
Proof. intros [D1 N1] [D2 N2]. split; [congruence | eauto]. Qed.

Lemma extends_by_refl (P : string → Prop) (w : world) : extends_by P w w.
Proof.
  split; [apply extends_refl|]. intros q Hq [i Hi]. congruence.
Qed.

Lemma extends_by_trans (P : string → Prop) (w1 w2 w3 : world) :
  extends_by P w1 w2 → extends_by P w2 w3 → extends_by P w1 w3.
Proof.
  intros [E1 P1] [E2 P2]. split; [by eapply extends_trans|].
  intros q Hq H3. destruct (names w2 !! q) as [i|] eqn:E; [apply P1 | apply P2]; eauto.
Qed.

Lemma keeps_refl (P : string → Prop) (w : world) : keeps P w w.
Proof. by intros q i _ H. Qed.

Lemma keeps_trans (P : string → Prop) (w1 w2 w3 : world) :
  keeps P w1 w2 → keeps P w2 w3 → keeps P w1 w3.
Proof. intros K1 K2 q i Hq H. eauto. Qed.

Lemma extends_keeps (P : string → Prop) (w w' : world) : extends w w' → keeps P w w'.
Proof. intros [_ N] q i _ H. eauto. Qed.

Section OsFacts.

Context (getcwd : string).

Lemma node_at_file (w : world) (p : string) (i : nat) :
  node_at getcwd w p = File i ↔ p ≠ EmptyString ∧ names w !! key getcwd p = Some i.
Proof.
  unfold node_at. destruct (String.eqb_spec p EmptyString) as [->|Hp].
  - split; [done | by intros [? _]].
  - destruct (names w !! key getcwd p) as [j|].
    + split; [by intros [= ->] | by intros [_ [= ->]]].
    + split; [by destruct (is_dir w _) | by intros [_ ?]].
Qed.

Lemma node_at_absent (w : world) (p : string) :
  node_at getcwd w p = Absent → p ≠ EmptyString → names w !! key getcwd p = None.
Proof.
  unfold node_at. destruct (String.eqb_spec p EmptyString) as [->|Hp]; [done|].
  by destruct (names w !! key getcwd p).
Qed.

(** Whether a path is absent depends on the directories and on whether
    its key is bound. *)
Lemma node_at_absent_iff (w : world) (p : string) :
  node_at getcwd w p = Absent
  ↔ p = EmptyString ∨ (names w !! key getcwd p = None ∧ is_dir w (key getcwd p) = false).
Proof.
  unfold node_at. destruct (String.eqb_spec p EmptyString) as [->|Hp]; [by split; auto|].
  destruct (names w !! key getcwd p) as [j|].
  - split; [done | by intros [?|[? _]]].
  - destruct (is_dir w _); split; try done; auto. by intros [?|[_ ?]]. 
Qed.

Lemma is_dir_dirs (w w' : world) (k : string) :
  dirs w' = dirs w → is_dir w' k = is_dir w k.
Proof. unfold is_dir. by intros ->. Qed.

Lemma print_Ok (s : string) (w w' : world) (u : unit) :
  print s w = (Ok u, w') → dirs w' = dirs w ∧ names w' = names w ∧ inodes w' = inodes w.
Proof. unfold print, modify. by intros [= _ <-]. Qed.

Lemma os_path_exists_Ok (p : string) (w w' : world) (b : bool) :
  os_path_exists getcwd p w = (Ok b, w') →
  w' = w ∧ (b = false ↔ node_at getcwd w p = Absent).
Proof.
  unfold os_path_exists. intros [= <- <-]. split; [done|].
  by destruct (node_at getcwd w p).
Qed.

(** A successful [os.link] binds one new name, to the inode of the
    source. *)
Lemma os_link_Ok (src dst : string) (w w' : world) (u : unit) :
  os_link getcwd src dst w = (Ok u, w') →
  ∃ i, node_at getcwd w src = File i
       ∧ node_at getcwd w dst = Absent
       ∧ dst ≠ EmptyString
       ∧ w' = set_names (insert (key getcwd dst) i) w.
Proof.
  unfold os_link. destruct (node_at getcwd w src) as [| |i] eqn:Es; [done| |].
  - destruct (can_create getcwd w dst); [|done].
    by destruct (node_at getcwd w dst).
  - destruct (can_create getcwd w dst) eqn:Ec; [|done]. simpl.
    destruct (node_at getcwd w dst) eqn:Ed; try done.
    intros [= <-]. exists i. repeat split; try done.
    unfold can_create in Ec. intros ->. done.
Qed.

Lemma os_link_extends (src dst : string) (w w' : world) (u : unit) :
  os_link getcwd src dst w = (Ok u, w') →
  extends_by (λ q, q = key getcwd dst) w w'
  ∧ ∃ i, node_at getcwd w src = File i ∧ names w' !! key getcwd dst = Some i.
Proof.
  intros (i & Hs & Hd & Hne & ->)%os_link_Ok.
  apply node_at_absent in Hd; [|done].
  split; [split; [split; [done|]|]|].
  - intros q j Hq. simpl. rewrite lookup_insert_ne; [done | congruence].
  - intros q Hq [j Hj]. simpl in Hj.
    destruct (decide (key getcwd dst = q)) as [<-|Hn]; [done|].
    rewrite lookup_insert_ne in Hj; congruence.
  - exists i. split; [done|]. simpl. by rewrite lookup_insert_eq.
Qed.

(** A successful in-place rewrite: the path is bound to a new inode that
    holds the rewritten lines, the backup name is gone, and every other
    name is as before. *)
Lemma fileinput_inplace_Ok (p : string) (body : string → string) (w w' : world) (u : unit) :
  fileinput_inplace getcwd p body w = (Ok u, w') →
  dirs w' = dirs w
  ∧ (∀ q, q ≠ key getcwd p → q ≠ key getcwd (p +:+ ".bak") →
          names w' !! q = names w !! q)
  ∧ ∃ i, names w !! key getcwd p = Some i
         ∧ names w' !! key getcwd p = Some (next_inode w)
         ∧ inodes w' !! next_inode w
           = Some (String.concat EmptyString
                     (map body (Py.text_lines (content_of w i)))).
Proof.
  unfold fileinput_inplace.
  set (kb := key getcwd (p +:+ ".bak")). set (k := key getcwd p).
  set (w1 := set_names (delete kb) w).
  destruct (node_at getcwd w1 p) as [| |i] eqn:E1; [done|done|].
  apply node_at_file in E1 as [Hp E1]. fold k in E1. simpl in E1.
  assert (k ≠ kb) as Hk.
  { intros ->. by rewrite lookup_delete_eq in E1. }
  rewrite lookup_delete_ne in E1 by done.
  destruct (node_at getcwd w1 (p +:+ ".bak")); [|done|]; simpl; intros [= _ <-]; simpl.
  all: split; [done|]; split.
  all: try (intros q Hq Hqb;
            by rewrite lookup_delete_ne, lookup_insert_ne, lookup_insert_ne,
                       lookup_delete_ne, lookup_delete_ne by done).
  all: exists i; split; [done|]; split;
       [ by rewrite lookup_delete_ne, lookup_insert_eq by done
       | by rewrite lookup_insert_eq ].
Qed.

Lemma fileinput_inplace_keeps (P : string → Prop) (p : string) (body : string → string)
      (w w' : world) (u : unit) :
  fileinput_inplace getcwd p body w = (Ok u, w') →
  ¬ P (key getcwd p) → ¬ P (key getcwd (p +:+ ".bak")) →
  keeps P w w'.
Proof.
  intros (_ & Hn & _)%fileinput_inplace_Ok H1 H2 q i Hq Hi.
  rewrite Hn; [done | |]; intros ->; done.
Qed.

End OsFacts.

(* ===================================================================== *)
(** * Facts about the loops and the two linkers *)
(* ===================================================================== *)

Lemma for_each_rel {A} (R : world → world → Prop) (xs : list A) (body : A → M unit) :
  (∀ w, R w w) → (∀ w1 w2 w3, R w1 w2 → R w2 w3 → R w1 w3) →
  (∀ x w w' u, x ∈ xs → body x w = (Ok u, w') → R w w') →
  ∀ w w' u, for_each xs body w = (Ok u, w') → R w w'.
Proof.
  intros Hrefl Htrans. induction xs as [|x xs IH]; intros Hbody w w' u H; simpl in H.
  - apply ret_Ok in H as [_ <-]. apply Hrefl.
  - bind_ok H. eapply Htrans.
    + eapply Hbody; [left | exact Hm].
    + eapply IH; [|exact H]. intros y ? ? ? Hy. apply Hbody. by right.
Qed.

Lemma for_each_break_rel {A} (R : world → world → Prop) (xs : list A) (body : A → M flow) :
  (∀ w, R w w) → (∀ w1 w2 w3, R w1 w2 → R w2 w3 → R w1 w3) →
  (∀ x w w' c, x ∈ xs → body x w = (Ok c, w') → R w w') →
  ∀ w w' u, for_each_break xs body w = (Ok u, w') → R w w'.
Proof.
  intros Hrefl Htrans. induction xs as [|x xs IH]; intros Hbody w w' u H; simpl in H.
  - apply ret_Ok in H as [_ <-]. apply Hrefl.
  - bind_ok H. assert (R w w0) as H0 by (eapply Hbody; [left | exact Hm]).
    destruct a.
    + eapply Htrans; [exact H0|]. eapply IH; [|exact H].
      intros y ? ? ? Hy. apply Hbody. by right.
    + apply ret_Ok in H as [_ <-]. exact H0.
Qed.

(** A loop whose body establishes [Q x] for the element it handles, under
    an invariant [I], without undoing [Q] for the others. *)
Lemma for_each_spec {A} (I : world → Prop) (Q : A → world → Prop)
      (xs : list A) (body : A → M unit) :
  (∀ x w w' u, I w → body x w = (Ok u, w') →
               I w' ∧ Q x w' ∧ ∀ y, Q y w → Q y w') →
  ∀ w w' u, I w → for_each xs body w = (Ok u, w') →
            I w' ∧ (∀ x, x ∈ xs → Q x w') ∧ (∀ y, Q y w → Q y w').
Proof.
  intros Hbody. induction xs as [|x xs IH]; intros w w' u HI H; simpl in H.
  - apply ret_Ok in H as [_ <-]. split; [done|]. split; [|done].
    intros x Hx. by apply elem_of_nil in Hx.
  - bind_ok H. destruct (Hbody _ _ _ _ HI Hm) as (HI0 & HQ & Hkeep).
    destruct (IH _ _ _ HI0 H) as (HI' & HQs & Hkeep').
    split; [done|]. split; [|by auto].
    intros y [->|Hy]%elem_of_cons; [by apply Hkeep' | by apply HQs].
Qed.

Section LinkerFacts.

Context (getcwd : string) (snakemake : snakemake_t).

Lemma ends_like_link_path (n : nat) (root path t : string) :
  no_slash t → 3 ≤ String.length t → n ≤ String.length t →
  Py.suffix n (key getcwd (root +:+ "/" +:+ sample_of path +:+ t)) = Py.suffix n t.
Proof.
  intros. apply (key_suffix getcwd n _ (sample_of path) t); try done.
  - apply link_path_ends_in.
  - apply sample_no_slash.
Qed.

Lemma ends_like_backup_path (n : nat) (root path t : string) :
  no_slash (t +:+ ".bak") → 3 ≤ String.length (t +:+ ".bak") →
  n ≤ String.length (t +:+ ".bak") →
  Py.suffix n (key getcwd ((root +:+ "/" +:+ sample_of path +:+ t) +:+ ".bak"))
  = Py.suffix n (t +:+ ".bak").
Proof.
  intros. apply (key_suffix getcwd n _ (sample_of path) (t +:+ ".bak")); try done.
  - apply backup_path_ends_in.
  - apply sample_no_slash.
Qed.

Lemma ends_like_expected_path (n : nat) (path t : string) :
  no_slash t → 3 ≤ String.length t → n ≤ String.length t →
  Py.suffix n (key getcwd (Path.join (sample_of path) ["freebayes"; sample_of path +:+ t]))
  = Py.suffix n t.
Proof.
  intros. apply (key_suffix getcwd n _ (sample_of path) t); try done.
  - apply expected_path_ends_in.
  - apply sample_no_slash.
Qed.

(** A guarded link: names are only added. *)
Lemma guarded_link_extends (c : bool) (src dst : string) (w w' : world) (u : unit) :
  (if c then os_link getcwd src dst else mret tt) w = (Ok u, w') →
  extends_by (λ q, q = key getcwd dst) w w'.
Proof.
  destruct c.
  - by intros [H _]%os_link_extends.
  - intros [_ <-]%ret_Ok. apply extends_by_refl.
Qed.

(** The header rewrite of a consensus link leaves every name that ends in
    [v] alone. *)
Lemma rewrite_consensus_keeps (root consensus : string) (w w' : world) (u : unit) :
  fileinput_inplace getcwd (consensus_path root consensus)
    (rewrite_line (sample_of consensus)) w = (Ok u, w') →
  keeps (ends_like "v") w w'.
Proof.
  intros H. eapply fileinput_inplace_keeps; [exact H| |]; unfold ends_like, consensus_path.
  - rewrite ends_like_link_path; [done | done | simpl; lia | simpl; lia].
  - rewrite ends_like_backup_path; [done | done | simpl; lia | simpl; lia].
Qed.

Lemma link_ivar_consensus_keeps (root : string) (replace : bool) (w w' : world) (u : unit) :
  for_each (input_consensus snakemake) (λ consensus,
    let sample := sample_of consensus in
    let ln_path := root +:+ "/" +:+ sample +:+ ".consensus.fasta" in
    e ← os_path_exists getcwd ln_path;
    (if negb e || replace then os_link getcwd consensus ln_path else mret tt);;
    fileinput_inplace getcwd ln_path (rewrite_line sample)) w = (Ok u, w') →
  keeps (ends_like "v") w w'.
Proof.
  apply for_each_rel; [apply keeps_refl | apply keeps_trans|].
  intros c w1 w2 u' _ H. simpl in H.
  bind_ok H. apply os_path_exists_Ok in Hm as [-> _].
  bind_ok H. apply guarded_link_extends in Hm as [He _].
  eapply keeps_trans; [by apply extends_keeps|].
  by eapply rewrite_consensus_keeps.
Qed.

Lemma link_ivar_variants_extends (root : string) (replace : bool) (w w' : world) (u : unit) :
  for_each (input_variants snakemake) (λ variants,
    let sample := sample_of variants in
    let ln_path := root +:+ "/" +:+ sample +:+ ".variants.tsv" in
    e ← os_path_exists getcwd ln_path;
    if negb e || replace then os_link getcwd variants ln_path else mret tt) w = (Ok u, w') →
  extends w w'.
Proof.
  apply for_each_rel; [apply extends_refl | apply extends_trans|].
  intros v w1 w2 u' _ H. simpl in H.
  bind_ok H. apply os_path_exists_Ok in Hm as [-> _].
  by apply guarded_link_extends in H as [He _].
Qed.

(** Whatever its flag, [link_ivar] leaves the names that end in [v]
    bound as they were. *)
Lemma link_ivar_keeps (root : string) (replace : bool) (w w' : world) (u : unit) :
  link_ivar getcwd snakemake root replace w = (Ok u, w') →
  keeps (ends_like "v") w w'.
Proof.
  unfold link_ivar. intros H.
  bind_ok H. apply print_Ok in Hm as (_ & Hn & _).
  bind_ok H. apply link_ivar_variants_extends in Hm.
  apply link_ivar_consensus_keeps in H.
  intros q i Hq Hi. apply H; [done|]. apply Hm. by rewrite Hn.
Qed.

(** With the flag set, a successful [link_ivar] has linked every variants
    input under its [.variants.tsv] name. *)
Lemma link_ivar_true_links (root : string) (w w' : world) (u : unit) :
  link_ivar getcwd snakemake root true w = (Ok u, w') →
  ∀ v, v ∈ input_variants snakemake →
    ∃ i, names w' !! key getcwd (variants_tsv_path root v) = Some i
         ∧ ∀ j, names w !! key getcwd v = Some j → i = j.
Proof.
  unfold link_ivar. intros H.
  bind_ok H. apply print_Ok in Hm as (_ & Hn & _).
  bind_ok H. apply link_ivar_consensus_keeps in H.
  pose (Q := λ (v : string) (x : world),
          ∃ i, names x !! key getcwd (variants_tsv_path root v) = Some i
               ∧ ∀ j, names w !! key getcwd v = Some j → i = j).
  eapply (for_each_spec (extends w0) Q) in Hm as (_ & HQ & _); [| |apply extends_refl].
  - intros v Hv. destruct (HQ v Hv) as (i & Hi & Hj). exists i. split; [|done].
    apply H; [|done]. unfold ends_like, variants_tsv_path.
    rewrite ends_like_link_path; [done | done | simpl; lia | simpl; lia].
  - intros v x x' u' Hx Hb. simpl in Hb.
    bind_ok Hb. apply os_path_exists_Ok in Hm0 as [-> _].
    rewrite orb_true_r in Hb.
    apply os_link_extends in Hb as ([He _] & i & Hsrc & Hdst).
    split; [by eapply extends_trans|]. split.
    + exists i. split; [done|]. intros j Hj.
      apply node_at_file in Hsrc as [_ Hsrc].
      destruct Hx as [_ Hx]. rewrite <- Hn in Hj. apply Hx in Hj. congruence.
    + intros y (i' & Hi' & Hj'). exists i'. split; [|done]. by apply He.
Qed.

End LinkerFacts.

(* ===================================================================== *)
(** * The fallback linker downgrades the whole sample set *)
(* ===================================================================== *)

Section Downgrade.

Context (getcwd : string) (snakemake : snakemake_t).

Lemma extends_by_weaken (P P' : string → Prop) (w w' : world) :
  (∀ q, P q → P' q) → extends_by P w w' → extends_by P' w w'.
Proof. intros HP [He Hn]. split; [done|]. eauto. Qed.

(** A path that is absent stays absent while only names that end
    differently are added. *)
Lemma absent_stable (P : string → Prop) (w0 w : world) (p : string) :
  extends_by P w0 w → ¬ P (key getcwd p) →
  node_at getcwd w0 p = Absent → node_at getcwd w p = Absent.
Proof.
  intros [[Hd _] Hnew] HP. rewrite !node_at_absent_iff.
  intros [->|[Hn Hdir]]; [by left | right].
  split; [|by rewrite (is_dir_dirs w0 w)].
  destruct (names w !! key getcwd p) eqn:E; [|done].
  exfalso. apply HP, Hnew; [done | by eexists].
Qed.

Lemma link_path_nonempty (root s t : string) : root +:+ "/" +:+ s +:+ t ≠ EmptyString.
Proof. by destruct root. Qed.

(** The variants loop of [link_freebayes], started in a world that has
    only gained [.variants.vcf] links since [w0]: if some expected file is
    missing in [w0], every variants input ends up linked from the primary
    source. *)
Lemma freebayes_variants_loop (root : string) (w0 : world) (l : list string) :
  ∀ w w' u,
    extends_by (ends_like ".variants.vcf") w0 w →
    for_each_break l (λ variants,
      let sample := sample_of variants in
      let expected_path := Path.join sample ["freebayes"; sample +:+ ".variants.norm.vcf"] in
      e ← os_path_exists getcwd expected_path;
      if negb e then
        print "Missing FreeBayes variant file! Switching to iVar input!";;
        link_ivar getcwd snakemake root true;;
        mret Break
      else
        let ln_path := root +:+ "/" +:+ sample +:+ ".variants.vcf" in
        e' ← os_path_exists getcwd ln_path;
        (if negb e' then os_link getcwd expected_path ln_path else mret tt);;
        mret Next) w = (Ok u, w') →
    (∃ v, v ∈ l ∧ node_at getcwd w0 (expected_variants v) = Absent) →
    ∀ v, v ∈ input_variants snakemake →
      ∃ i, names w' !! key getcwd (variants_tsv_path root v) = Some i
           ∧ ∀ j, names w0 !! key getcwd v = Some j → i = j.
Proof.
  induction l as [|a l IH]; intros w w' u Hext H (m & Hm & Hmiss).
  { by apply elem_of_nil in Hm. }
  simpl in H. bind_in H as c w1 Hbody.
  bind_in Hbody as e w2 He. apply os_path_exists_Ok in He as [-> Hex].
  destruct e; simpl in Hbody.
  - (* the expected file is there: a .variants.vcf link, then the next sample *)
    bind_in Hbody as e' w3 He'. apply os_path_exists_Ok in He' as [-> _].
    bind_in Hbody as u' w4 Hlink. apply ret_Ok in Hbody as [<- <-].
    apply guarded_link_extends in Hlink.
    assert (extends_by (ends_like ".variants.vcf") w0 w4) as Hext'.
    { eapply extends_by_trans; [exact Hext|].
      eapply extends_by_weaken; [|exact Hlink]. intros q ->.
      unfold ends_like. rewrite ends_like_link_path; [done | done | simpl; lia | simpl; lia]. }
    eapply IH; [exact Hext' | exact H |].
    exists m. split; [|done].
    apply elem_of_cons in Hm as [->|Hm]; [|done].
    exfalso. assert (true = false) as Habs; [|done].
    apply Hex. eapply absent_stable; [exact Hext | | exact Hmiss].
    unfold ends_like. simpl String.length.
    change (key getcwd _)
      with (key getcwd (Path.join (sample_of a)
                          ["freebayes"; sample_of a +:+ ".variants.norm.vcf"])).
    rewrite ends_like_expected_path; [done | done | simpl; lia | simpl; lia].
  - (* the expected file is missing: the whole set is linked from iVar *)
    bind_in Hbody as u1 w3 Hp. apply print_Ok in Hp as (_ & Hn & _).
    bind_in Hbody as u2 w4 Hivar. apply ret_Ok in Hbody as [<- <-].
    apply ret_Ok in H as [_ <-].
    intros v Hv. destruct (link_ivar_true_links _ _ _ _ _ _ Hivar v Hv) as (i & Hi & Hj).
    exists i. split; [done|]. intros j Hj0. apply Hj. rewrite Hn.
    destruct Hext as [[_ Hext] _]. by apply Hext.
Qed.

Lemma freebayes_consensus_loop_keeps (root : string) (w w' : world) (u : unit) :
  for_each_break (input_consensus snakemake) (λ consensus,
    let sample := sample_of consensus in
    let expected_path := Path.join sample ["freebayes"; sample +:+ ".consensus.fasta"] in
    e ← os_path_exists getcwd expected_path;
    if negb e then
      print "Missing FreeBayes variant file! Switching to iVar input!";;
      link_ivar getcwd snakemake root true;;
      mret Break
    else
      let ln_path := root +:+ "/" +:+ sample +:+ ".consensus.fasta" in
      e' ← os_path_exists getcwd ln_path;
      (if negb e' then os_link getcwd expected_path ln_path else mret tt);;
      fileinput_inplace getcwd ln_path (rewrite_line sample);;
      mret Next) w = (Ok u, w') →
  keeps (ends_like "v") w w'.
Proof.
  apply for_each_break_rel; [apply keeps_refl | apply keeps_trans|].
  intros c w1 w2 fl _ H. simpl in H.
  bind_in H as e w3 He. apply os_path_exists_Ok in He as [-> _].
  destruct e; simpl in H.
  - bind_in H as e' w4 He'. apply os_path_exists_Ok in He' as [-> _].
    bind_in H as u1 w5 Hlink. apply guarded_link_extends in Hlink as [He _].
    bind_in H as u2 w6 Hrw. apply ret_Ok in H as [_ <-].
    eapply keeps_trans; [by apply extends_keeps|].
    by eapply rewrite_consensus_keeps.
  - bind_in H as u1 w4 Hp. apply print_Ok in Hp as (_ & Hn & _).
    bind_in H as u2 w5 Hivar. apply ret_Ok in H as [_ <-].
    apply link_ivar_keeps in Hivar. intros q i Hq Hi. apply Hivar; [done|]. by rewrite Hn.
Qed.

(** ** C2.  In fallback mode, when the alternate caller's variants file
    [{sample}/freebayes/{sample}.variants.norm.vcf] is missing for at least
    one input, a linking pass that completes leaves, for every variants
    input (also those whose alternate file exists),
    [{root}/{sample}.variants.tsv] as a hard link of the primary-source
    file: a regular file on the inode the input had. *)
Theorem link_freebayes_downgrades_every_sample (root : string) (w w' : world) :
  link_freebayes getcwd snakemake root w = (Ok tt, w') →
  (∃ v, v ∈ input_variants snakemake
        ∧ node_at getcwd w (expected_variants v) = Absent) →
  ∀ v, v ∈ input_variants snakemake →
    ∃ i, node_at getcwd w' (variants_tsv_path root v) = File i
         ∧ ∀ j, node_at getcwd w v = File j → i = j.
Proof.
  unfold link_freebayes. intros H Hmiss v Hv.
  bind_in H as u1 w1 Hp. apply print_Ok in Hp as (Hd & Hn & _).
  bind_in H as u2 w2 Hvar.
  apply freebayes_consensus_loop_keeps in H.
  destruct (freebayes_variants_loop root w1 _ _ _ _ (extends_by_refl _ _) Hvar) with (v := v)
    as (i & Hi & Hj); [|done|].
  { destruct Hmiss as (m & Hm & Habs). exists m. split; [done|].
    revert Habs. rewrite !node_at_absent_iff, Hn, (is_dir_dirs w w1); done. }
  exists i. split.
  - apply node_at_file. split; [apply link_path_nonempty|].
    apply H; [|done]. unfold ends_like, variants_tsv_path.
    rewrite ends_like_link_path; [done | done | simpl; lia | simpl; lia].
  - intros j [_ Hf]%node_at_file. apply Hj. by rewrite Hn.
Qed.

End Downgrade.

(** A run where the alternate caller has no variants for S2: the link of
    S1, whose alternate file exists, is on the inode of the primary file. *)
Lemma link_freebayes_downgrades_every_sample_witness :
  ∃ i, node_at "/work"
         (snd (link_freebayes "/work" (demo_snakemake true "v3.1.2") demo_root world_vcf_missing))
         "/work/ncov-tools/run1/S1.variants.tsv" = File i
       ∧ node_at "/work" world_vcf_missing "S1/core/S1.variants.tsv" = File i.
Proof.
  destruct (link_freebayes_downgrades_every_sample "/work" (demo_snakemake true "v3.1.2")
              demo_root world_vcf_missing
              (snd (link_freebayes "/work" (demo_snakemake true "v3.1.2") demo_root
                      world_vcf_missing)))
    with (v := "S1/core/S1.variants.tsv") as (i & Hi & Hj).
  - vm_compute. reflexivity.
  - exists "S2/core/S2.variants.tsv". split.
    + right. left.
    + vm_compute. reflexivity.
  - left.
  - exists i. split; [exact Hi|].
    rewrite (Hj 0); [|vm_compute; reflexivity]. vm_compute. reflexivity.
Defined.

(* ===================================================================== *)
(** * The header rewrite *)
(* ===================================================================== *)

(** A header line is replaced by [>sample] and a line terminator. *)
Lemma rewrite_line_header (sample line : string) :
  Py.startswith line ">" = true →
  rewrite_line sample line = ">" +:+ sample +:+ nl.
Proof.
  intros H. unfold rewrite_line. rewrite H.
  rewrite replace_self; [reflexivity|]. intros ->. discriminate H.
Qed.

(** Any other line is printed with a terminator of its own after the one
    it already carries. *)
Lemma rewrite_line_other (sample line : string) :
  Py.startswith line ">" = false →
  rewrite_line sample line = line +:+ nl.
Proof. intros H. unfold rewrite_line. by rewrite H. Qed.

(** ** C1.  Linking the consensus of S1, whose source is the header
    [>Consensus_S1_threshold_0.75] and the lines [ACGT] and [TTGA]: the
    header of the destination is [>S1], but an empty line follows each of
    the two sequence lines, so the destination has five lines where the
    source has three. *)
Theorem link_ivar_consensus_gains_blank_lines :
  let r := link_ivar "/work" (demo_snakemake false "v3.1.2") demo_root false world_primary in
  fst r = Ok tt
  ∧ file_content world_primary "/work/S1/core/S1.consensus.fa"
    = Some (">Consensus_S1_threshold_0.75" +:+ nl +:+ "ACGT" +:+ nl +:+ "TTGA" +:+ nl)
  ∧ file_content (snd r) "/work/ncov-tools/run1/S1.consensus.fasta"
    = Some (">S1" +:+ nl +:+ "ACGT" +:+ nl +:+ nl +:+ "TTGA" +:+ nl +:+ nl)
  ∧ file_content (snd r) "/work/S1/core/S1.consensus.fa"
    = file_content world_primary "/work/S1/core/S1.consensus.fa".
Proof. vm_compute. repeat split. Qed.

(* ===================================================================== *)
(** * Recovery from a missing alternate-caller file *)
(* ===================================================================== *)

(** ** C3.  Fallback mode where the alternate caller has a consensus for
    S1 and none for S2: the consensus of S1 is linked, the missing file of
    S2 starts the primary pass with the flag set, and that pass raises
    [FileExistsError] on the link of S1 that is already there. *)
Theorem link_freebayes_recovery_raises :
  fst (link_freebayes "/work" (demo_snakemake true "v3.1.2") demo_root world_consensus_missing)
  = Raise (FileExistsError "/work/ncov-tools/run1/S1.consensus.fasta").
Proof. vm_compute. reflexivity. Qed.

(* ===================================================================== *)
(** * Linking twice *)
(* ===================================================================== *)

(** ** C4.  Two primary passes without the replace flag over the same
    samples: the second pass raises nothing and leaves the variants link as
    it was, but it rewrites the consensus link again, and each of its
    non-header lines gains one more empty line. *)
Theorem link_ivar_twice_changes_consensus :
  let sm := demo_snakemake false "v3.1.2" in
  let r1 := link_ivar "/work" sm demo_root false world_primary in
  let r2 := link_ivar "/work" sm demo_root false (snd r1) in
  fst r1 = Ok tt ∧ fst r2 = Ok tt
  ∧ file_content (snd r2) "/work/ncov-tools/run1/S1.variants.tsv"
    = file_content (snd r1) "/work/ncov-tools/run1/S1.variants.tsv"
  ∧ file_content (snd r1) "/work/ncov-tools/run1/S1.consensus.fasta"
    = Some (">S1" +:+ nl +:+ "ACGT" +:+ nl +:+ nl +:+ "TTGA" +:+ nl +:+ nl)
  ∧ file_content (snd r2) "/work/ncov-tools/run1/S1.consensus.fasta"
    = Some (">S1" +:+ nl +:+ "ACGT" +:+ nl +:+ nl +:+ nl +:+ nl
            +:+ "TTGA" +:+ nl +:+ nl +:+ nl +:+ nl).
Proof. vm_compute. repeat split. Qed.

(* ===================================================================== *)
(** * One artifact per sample and kind *)
(* ===================================================================== *)

(** ** C5.  Fallback mode where the alternate caller has variants for S1
    and none for S2: the pass completes, and the data directory then holds
    two variants artifacts of S1, the [.vcf] link made before the downgrade
    and the [.tsv] link made by it. *)
Theorem link_freebayes_downgrade_leaves_two_variants :
  let r := link_freebayes "/work" (demo_snakemake true "v3.1.2") demo_root world_vcf_missing in
  fst r = Ok tt
  ∧ file_content (snd r) "/work/ncov-tools/run1/S1.variants.vcf" = Some ("#CHROM" +:+ nl)
  ∧ file_content (snd r) "/work/ncov-tools/run1/S1.variants.tsv"
    = Some ("POS" +:+ nl +:+ "241" +:+ nl).
Proof. vm_compute. repeat split. Qed.

(* ===================================================================== *)
(** * Result relocation *)
(* ===================================================================== *)

(** ** C9.  Relocation from an output tree whose three directories exist
    and hold none of the fourteen expected files: nothing is raised and
    nothing is printed, so no missing file is reported. *)
Theorem move_is_silent_about_missing_sources :
  move "/" "/out" "/res" "run1" world_no_outputs = (Ok tt, world_no_outputs)
  ∧ stdout world_no_outputs = [].
Proof. vm_compute. split; reflexivity. Qed.

(** A missing [plots] directory is reported and the other two categories
    are still handled: the lineage report is copied. *)
Lemma move_reports_missing_directory :
  let r := move "/" "/out" "/res" "run1" world_no_plots in
  fst r = Ok tt
  ∧ stdout (snd r) = ["Missing ncov-tools 'plots' directory"]
  ∧ file_content (snd r) "/res/lineages/run1_lineage_report.csv"
    = Some ("taxon,lineage" +:+ nl).
Proof. vm_compute. repeat split. Qed.

(* ===================================================================== *)
(** * The guard of the BAM loops *)
(* ===================================================================== *)

Section BamGuard.

Context (getcwd : string) (snakemake : snakemake_t).

Lemma load_global_replace : load_global "replace" = raise (NameError "replace").
Proof. reflexivity. Qed.

Lemma bam_guard_absent (p : string) (w : world) :
  node_at getcwd w p = Absent → bam_guard getcwd p w = (Ok true, w).
Proof.
  intros H. unfold bam_guard, os_path_exists, mbind, M_bind. by rewrite H.
Qed.

Lemma bam_guard_present (p : string) (w : world) :
  node_at getcwd w p ≠ Absent → bam_guard getcwd p w = (Raise (NameError "replace"), w).
Proof.
  intros H. unfold bam_guard, os_path_exists, mbind, M_bind.
  by destruct (node_at getcwd w p).
Qed.

Lemma absent_before (w w' : world) (p : string) :
  extends w w' → node_at getcwd w' p = Absent → node_at getcwd w p = Absent.
Proof.
  intros [Hd Hn]. rewrite !node_at_absent_iff.
  intros [->|[Hnone Hdir]]; [by left | right]. split.
  - destruct (names w !! key getcwd p) as [i|] eqn:E; [|done].
    apply Hn in E. congruence.
  - by rewrite <- (is_dir_dirs w w').
Qed.

(** A loop that completes found no destination in place and made one link
    per input. *)
Lemma bam_loop_Ok (data_root ext : string) (l : list string) :
  ∀ w w' u, bam_loop getcwd data_root ext l w = (Ok u, w') →
    extends w w'
    ∧ (∀ b, b ∈ l → node_at getcwd w (bam_path data_root ext b) = Absent)
    ∧ NoDup (map (λ b, key getcwd (bam_path data_root ext b)) l).
Proof.
  induction l as [|b l IH]; intros w w' u H; unfold bam_loop in H; simpl in H.
  - apply ret_Ok in H as [_ <-]. split; [apply extends_refl|]. split; [|constructor].
    intros b Hb. by apply elem_of_nil in Hb.
  - bind_in H as u1 w1 Hbody. bind_in Hbody as g w2 Hg.
    fold (bam_path data_root ext b) in *.
    destruct (node_at getcwd w (bam_path data_root ext b)) eqn:Hnode.
    2,3: rewrite bam_guard_present in Hg by (by rewrite Hnode); done.
    rewrite (bam_guard_absent _ _ Hnode) in Hg. injection Hg as <- <-.
    apply os_link_extends in Hbody as ([He _] & i & _ & Hi).
    destruct (IH _ _ _ H) as (He' & Habs & Hnd).
    split; [by eapply extends_trans|]. split.
    + intros b' [->|Hb']%elem_of_cons; [done|].
      eapply absent_before; [exact He | by apply Habs].
    + simpl. constructor; [|done].
      intros (b' & Hk & Hb')%list_elem_of_fmap.
      specialize (Habs b' Hb'). apply node_at_absent in Habs.
      * rewrite <- Hk in Habs. congruence.
      * apply link_path_nonempty.
Qed.

(** Two inputs of one sample directory: the second evaluation of the guard
    finds the link of the first. *)
Lemma bam_loop_shared_segment (data_root ext b1 b2 : string) (rest : list string)
      (w : world) (i : nat) :
  sample_of b1 = sample_of b2 →
  node_at getcwd w b1 = File i →
  can_create getcwd w (bam_path data_root ext b1) = true →
  fst (bam_loop getcwd data_root ext (b1 :: b2 :: rest) w) = Raise (NameError "replace").
Proof.
  intros Hs Hsrc Hc. unfold bam_loop. simpl.
  fold (bam_path data_root ext b1). rewrite <- Hs. fold (bam_path data_root ext b1).
  destruct (node_at getcwd w (bam_path data_root ext b1)) eqn:Hnode.
  2,3: erewrite bind_Raise;
       [reflexivity | apply bind_Raise, bam_guard_present; by rewrite Hnode].
  erewrite bind_step.
  2:{ erewrite bind_step; [|by apply bam_guard_absent].
      unfold os_link. rewrite Hsrc, Hc, Hnode. reflexivity. }
  erewrite bind_Raise; [reflexivity|]. apply bind_Raise, bam_guard_present.
  rewrite (proj2 (node_at_file getcwd _ _ i)); [done|].
  split; [apply link_path_nonempty|]. simpl. by rewrite lookup_insert_eq.
Qed.

Lemma prefix_length (p s : string) :
  String.prefix p s = true → String.length p ≤ String.length s.
Proof.
  revert s. induction p as [|c p IH]; intros s; [simpl; lia|].
  destruct s as [|d s]; [done|]. cbn [String.prefix String.length].
  destruct (ascii_dec c d); [|done]. intros H%IH. lia.
Qed.

Lemma under_neq (k q : string) : k ≠ "/" → under k q = true → q ≠ k.
Proof.
  unfold under, Py.startswith. intros Hk%String.eqb_neq. rewrite Hk.
  intros H%prefix_length ->. rewrite length_app_s in H. simpl in H. lia.
Qed.

(** The data directory after the reset: it is a directory, and when it
    was there before, nothing is left below it. *)
Lemma reset_data_root_Ok (data_root : string) (w w' : world) (u : unit) :
  reset_data_root getcwd data_root w = (Ok u, w') →
  node_at getcwd w' data_root = Dir
  ∧ (node_at getcwd w data_root ≠ Absent →
     ∀ q, under (key getcwd data_root) q = true →
          names w' !! q = None ∧ q ∉ dirs w').
Proof.
  unfold reset_data_root. intros H.
  bind_in H as e w1 He. apply os_path_exists_Ok in He as [-> He].
  bind_in H as u1 w2 Hrm.
  assert (node_at getcwd w2 data_root = Absent
          ∧ data_root ≠ EmptyString
          ∧ w' = set_dirs (union {[key getcwd data_root]}) w2) as (Habs & Hne & ->).
  { unfold os_mkdir in H. destruct (node_at getcwd w2 data_root) eqn:E; try done.
    destruct (can_create getcwd w2 data_root) eqn:Ec; [|done].
    injection H as _ <-. repeat split. intros ->. done. }
  assert (key getcwd data_root ≠ "/") as Hroot.
  { intros Hk. revert Habs. unfold node_at.
    rewrite (proj2 (String.eqb_neq _ _) Hne), Hk.
    by destruct (names w2 !! "/"). }
  split.
  - unfold node_at. rewrite (proj2 (String.eqb_neq _ _) Hne). simpl.
    rewrite (node_at_absent _ _ _ Habs Hne).
    unfold is_dir. simpl. rewrite bool_decide_eq_true_2; [by rewrite orb_true_r|].
    apply elem_of_union_l. by apply elem_of_singleton.
  - intros Hex q Hq. destruct e; [|by destruct (proj1 He eq_refl)].
    unfold shutil_rmtree in Hrm.
    destruct (node_at getcwd w data_root); try done.
    injection Hrm as _ <-. simpl. split.
    + apply map_lookup_filter_None. right. intros i _. simpl. by rewrite Hq.
    + intros [Hin|Hin]%elem_of_union.
      * apply elem_of_singleton in Hin. by apply (under_neq _ _ Hroot Hq).
      * apply elem_of_filter in Hin as [[Hin _] _]. congruence.
Qed.

(** ** C10.  The guard of the BAM loop and of the primer-trimmed-BAM loop
    looks up [replace], a name bound neither in [set_up] nor in the module:
    on a destination that exists its evaluation raises [NameError].  So a
    loop that completes found every destination absent and linked pairwise
    distinct destinations; two inputs with the same first path segment make
    it raise as soon as the first one is linked; and the reset that [set_up]
    runs before the loops leaves nothing below a data directory that was
    there. *)
Theorem bam_guard_raises_NameError :
  (∀ w p, node_at getcwd w p ≠ Absent →
          bam_guard getcwd p w = (Raise (NameError "replace"), w))
  ∧ (∀ data_root w w',
       link_bams getcwd snakemake data_root w = (Ok tt, w') →
       (∀ b, b ∈ input_bams snakemake →
             node_at getcwd w (bam_path data_root ".bam" b) = Absent)
       ∧ NoDup (map (λ b, key getcwd (bam_path data_root ".bam" b))
                    (input_bams snakemake)))
  ∧ (∀ data_root w w',
       link_primertrimmed_bams getcwd snakemake data_root w = (Ok tt, w') →
       (∀ b, b ∈ input_primertrimmed_bams snakemake →
             node_at getcwd w (bam_path data_root ".mapped.primertrimmed.sorted.bam" b) = Absent)
       ∧ NoDup (map (λ b, key getcwd (bam_path data_root ".mapped.primertrimmed.sorted.bam" b))
                    (input_primertrimmed_bams snakemake)))
  ∧ (∀ data_root w b1 b2 rest i,
       input_bams snakemake = b1 :: b2 :: rest →
       sample_of b1 = sample_of b2 →
       node_at getcwd w b1 = File i →
       can_create getcwd w (bam_path data_root ".bam" b1) = true →
       fst (link_bams getcwd snakemake data_root w) = Raise (NameError "replace"))
  ∧ (∀ data_root w w',
       reset_data_root getcwd data_root w = (Ok tt, w') →
       node_at getcwd w' data_root = Dir
       ∧ (node_at getcwd w data_root ≠ Absent →
          ∀ q, under (key getcwd data_root) q = true →
               names w' !! q = None ∧ q ∉ dirs w')).
Proof.
  split; [intros; by apply bam_guard_present|].
  split; [intros data_root w w' H; by apply (bam_loop_Ok data_root ".bam") in H as (_ & ? & ?)|].
  split; [intros data_root w w' H;
          by apply (bam_loop_Ok data_root ".mapped.primertrimmed.sorted.bam") in H as (_ & ? & ?)|].
  split; [|intros; by eapply reset_data_root_Ok].
  intros data_root w b1 b2 rest i Hl Hs Hsrc Hc.
  unfold link_bams. rewrite Hl. by eapply (bam_loop_shared_segment data_root ".bam").
Qed.

End BamGuard.

(** Two alignment files of the sample directory [S1]: the second guard
    raises. *)
Lemma bam_guard_raises_NameError_witness :
  fst (link_bams "/work" snakemake_shared_segment demo_root world_bams)
  = Raise (NameError "replace").
Proof.
  destruct (bam_guard_raises_NameError "/work" snakemake_shared_segment)
    as (_ & _ & _ & H & _).
  apply (H demo_root world_bams "S1/core/S1.bam" "S1/core/S1.sorted.bam" [] 0).
  - reflexivity.
  - reflexivity.
  - vm_compute. reflexivity.
  - vm_compute. reflexivity.
Defined.

(* ===================================================================== *)
(** * The pangolin major version *)
(* ===================================================================== *)

Section Version.

#[local] Arguments String.append : simpl nomatch.

Lemma split_head_spec (sep : ascii) (v : string) :
  ∃ rest, v = Py.item0 (Py.split sep v) +:+ rest
          ∧ Py.mem_char sep (Py.item0 (Py.split sep v)) = false
          ∧ (rest = EmptyString ∨ Py.first_char rest = Some sep).
Proof.
  induction v as [|c v (rest & Hv & Hno & Hrest)].
  - exists EmptyString. repeat split. by left.
  - cbn [Py.split]. destruct (Ascii.eqb_spec c sep) as [->|Hc].
    + exists (String sep v). repeat split. by right.
    + pose proof (split_nonempty sep v).
      destruct (Py.split sep v) as [|f fs]; [done|]. exists rest.
      cbn [Py.item0 hd] in *. split; [simpl; by rewrite <- Hv|]. split; [|done].
      cbn [Py.mem_char]. rewrite Hno, orb_false_r.
      apply Ascii.eqb_neq. congruence.
Qed.

Lemma lstrip_spec (chars s : string) :
  ∃ pre, s = pre +:+ Py.lstrip chars s
         ∧ only_chars chars pre = true
         ∧ ∀ c, Py.first_char (Py.lstrip chars s) = Some c → Py.mem_char c chars = false.
Proof.
  induction s as [|a s (pre & Hs & Hpre & Hfirst)].
  - exists EmptyString. by repeat split.
  - cbn [Py.lstrip]. destruct (Py.mem_char a chars) eqn:E.
    + exists (String a pre). split; [simpl; by rewrite <- Hs|]. split; [|done].
      cbn [only_chars]. by rewrite E, Hpre.
    + exists EmptyString. repeat split. by intros c [= <-].
Qed.

Lemma rstrip_spec (chars s : string) :
  ∃ post, s = Py.rstrip chars s +:+ post
          ∧ only_chars chars post = true
          ∧ ∀ c, Py.last_char (Py.rstrip chars s) = Some c → Py.mem_char c chars = false.
Proof.
  induction s as [|a s (post & Hs & Hpost & Hlast)].
  - exists EmptyString. by repeat split.
  - cbn [Py.rstrip]. destruct (Py.rstrip chars s) as [|b r] eqn:Er.
    + simpl in Hs. subst post. destruct (Py.mem_char a chars) eqn:E.
      * exists (String a s). repeat split; [|done]. cbn [only_chars]. by rewrite E, Hpost.
      * exists s. repeat split; [done|]. by intros c [= <-].
    + exists post. split; [by rewrite Hs at 1|]. split; [done|].
      intros c Hc. apply Hlast. cbn [Py.last_char] in Hc |- *.
      by destruct (Py.last_char r).
Qed.

Lemma rstrip_first_char (chars s : string) :
  (∀ c, Py.first_char s = Some c → Py.mem_char c chars = false) →
  Py.first_char (Py.rstrip chars s) = Py.first_char s.
Proof.
  destruct s as [|a s]; [done|]. intros H. cbn [Py.rstrip].
  destruct (Py.rstrip chars s); [|done]. by rewrite (H a eq_refl).
Qed.

(** What [strip] removes and what it leaves. *)
Lemma strip_spec (chars s : string) :
  ∃ pre post, s = pre +:+ Py.strip chars s +:+ post
              ∧ only_chars chars pre = true ∧ only_chars chars post = true
              ∧ (∀ c, Py.first_char (Py.strip chars s) = Some c → Py.mem_char c chars = false)
              ∧ (∀ c, Py.last_char (Py.strip chars s) = Some c → Py.mem_char c chars = false).
Proof.
  destruct (lstrip_spec chars s) as (pre & Hs & Hpre & Hfirst).
  destruct (rstrip_spec chars (Py.lstrip chars s)) as (post & Hl & Hpost & Hlast).
  exists pre, post. unfold Py.strip. split; [by rewrite <- Hl|].
  repeat split; try done.
  intros c. rewrite rstrip_first_char by done. apply Hfirst.
Qed.

Lemma resolve_pangolin_supported (geturl : string → option string) (sm : snakemake_t)
      (w : world) :
  major_version (pangolin sm) = "3" ∨ major_version (pangolin sm) = "4" →
  resolve_pangolin geturl sm w = (Ok (major_version (pangolin sm)), w).
Proof.
  intros H. unfold resolve_pangolin, try_except, assert_, mbind, M_bind.
  by destruct H as [-> | ->].
Qed.

Lemma resolve_pangolin_unsupported (geturl : string → option string) (sm : snakemake_t)
      (w : world) :
  major_version (pangolin sm) ≠ "3" → major_version (pangolin sm) ≠ "4" →
  requests (snd (resolve_pangolin geturl sm w)) = requests w ++ [release_url].
Proof.
  intros H3%String.eqb_neq H4%String.eqb_neq.
  unfold resolve_pangolin, try_except, assert_, mbind, M_bind.
  rewrite H3, H4. simpl. unfold urlopen_geturl. fold release_url.
  by destruct (geturl release_url).
Qed.

(** Lower-casing leaves no capital letter. *)
Lemma lower_ascii_not_upper (a : ascii) :
  Py.mem_char (Py.lower_ascii a) upper_letters = false.
Proof. destruct a as [[] [] [] [] [] [] [] []]; reflexivity. Qed.

Lemma lower_no_upper (s : string) (c : ascii) :
  Py.mem_char c (Py.lower s) = true → Py.mem_char c upper_letters = false.
Proof.
  induction s as [|a s IH]; [done|]. cbn [Py.lower Py.mem_char].
  intros [Hc|Hc]%orb_true_iff; [|by apply IH].
  apply Ascii.eqb_eq in Hc as ->. apply lower_ascii_not_upper.
Qed.

(** ** C8 (as amended).  The version is normalised by taking the text
    before the first dot, lower-casing it and stripping every leading and
    every trailing [v].  For [v3.1.2] the result is [3] and no request is
    made; when the normalised value is neither [3] nor [4], as for [v99.0],
    the release page is requested.  Lower-casing is pinned down apart from
    [Py.lower]: the normalised value holds no capital letter, and the
    capital [V4.0.1] gives [4] with no request. *)
Theorem major_version_strips_every_v :
  (∀ v, ∃ rest pre post,
      v = Py.item0 (Py.split "." v) +:+ rest
      ∧ Py.mem_char "." (Py.item0 (Py.split "." v)) = false
      ∧ (rest = EmptyString ∨ Py.first_char rest = Some "."%char)
      ∧ Py.lower (Py.item0 (Py.split "." v)) = pre +:+ major_version v +:+ post
      ∧ only_chars "v" pre = true ∧ only_chars "v" post = true
      ∧ Py.first_char (major_version v) ≠ Some "v"%char
      ∧ Py.last_char (major_version v) ≠ Some "v"%char)
  ∧ (∀ geturl sm w, pangolin sm = "v3.1.2" → resolve_pangolin geturl sm w = (Ok "3", w))
  ∧ major_version "v99.0" = "99"
  ∧ (∀ geturl sm w,
       major_version (pangolin sm) ≠ "3" → major_version (pangolin sm) ≠ "4" →
       requests (snd (resolve_pangolin geturl sm w)) = requests w ++ [release_url])
  ∧ (∀ geturl sm w,
       major_version (pangolin sm) = "3" ∨ major_version (pangolin sm) = "4" →
       resolve_pangolin geturl sm w = (Ok (major_version (pangolin sm)), w))
  ∧ (∀ v c, Py.mem_char c (major_version v) = true → Py.mem_char c upper_letters = false)
  ∧ major_version "V4.0.1" = "4"
  ∧ major_version "V" = EmptyString
  ∧ (∀ geturl sm w, pangolin sm = "V4.0.1" → resolve_pangolin geturl sm w = (Ok "4", w)).
Proof.
  split; [|split; [|split; [reflexivity|split; [|split; [|split; [|split; [reflexivity|split; [reflexivity|]]]]]]]].
  - intros v. destruct (split_head_spec "." v) as (rest & Hv & Hno & Hrest).
    destruct (strip_spec "v" (Py.lower (Py.item0 (Py.split "." v))))
      as (pre & post & Hl & Hpre & Hpost & Hfirst & Hlast).
    exists rest, pre, post. repeat split; try done.
    + intros H. by specialize (Hfirst _ H).
    + intros H. by specialize (Hlast _ H).
  - intros geturl sm w Hp.
    rewrite (resolve_pangolin_supported geturl sm w); rewrite Hp; [reflexivity | by left].
  - intros. by apply resolve_pangolin_unsupported.
  - intros. by apply resolve_pangolin_supported.
  - intros v c Hc.
    destruct (strip_spec "v" (Py.lower (Py.item0 (Py.split "." v))))
      as (pre & post & Hl & _).
    apply (lower_no_upper (Py.item0 (Py.split "." v))).
    rewrite Hl, !mem_char_app. fold (major_version v). rewrite Hc.
    by rewrite orb_true_r.
  - intros geturl sm w Hp.
    rewrite (resolve_pangolin_supported geturl sm w); rewrite Hp; [reflexivity | by right].
Qed.

End Version.

(** The parameter [v99.0]: one request, to the release page.  The
    parameter [V4.0.1], with a capital: version [4], no request. *)
Lemma major_version_strips_every_v_witness :
  requests (snd (resolve_pangolin web_v4 (demo_snakemake false "v99.0") world_primary))
  = [release_url]
  ∧ resolve_pangolin no_web (demo_snakemake false "V4.0.1") world_primary
    = (Ok "4", world_primary).
Proof.
  destruct major_version_strips_every_v as (_ & _ & _ & H & _ & _ & _ & _ & Hcap).
  split.
  - apply (H web_v4 (demo_snakemake false "v99.0") world_primary).
    + vm_compute. discriminate.
    + vm_compute. discriminate.
  - apply (Hcap no_web (demo_snakemake false "V4.0.1") world_primary). reflexivity.
Defined.

(** The parameter [4v.1]: stripping one leading [v] would leave [4v], which
    is neither [3] nor [4]; the script strips the trailing [v] too, takes
    [4], and makes no request. *)
Lemma major_version_strips_trailing_v :
  spec_major_version "4v.1" = "4v"
  ∧ major_version "4v.1" = "4"
  ∧ major_version "4v.1" ≠ spec_major_version "4v.1"
  ∧ resolve_pangolin no_web (demo_snakemake false "4v.1") world_primary
    = (Ok "4", world_primary).
Proof. vm_compute. repeat split. discriminate. Qed.

(* ===================================================================== *)
(** * Negative-control detection *)
(* ===================================================================== *)

Section Negatives.

#[local] Arguments String.append : simpl nomatch.

Lemma universal_newlines_app (r rest : string) :
  Py.mem_char Py.CR r = false →
  Py.universal_newlines (r +:+ rest) = r +:+ Py.universal_newlines rest.
Proof.
  induction r as [|c r IH]; [done|]. cbn [Py.mem_char].
  intros [Hc Hr]%orb_false_iff. rewrite Ascii.eqb_sym in Hc.
  change (String c r +:+ rest) with (String c (r +:+ rest)).
  cbn [Py.universal_newlines]. rewrite Hc, (IH Hr). reflexivity.
Qed.

Lemma keepends_app (r rest : string) :
  Py.mem_char Py.LF r = false →
  Py.keepends (r +:+ String Py.LF rest) = (r +:+ nl) :: Py.keepends rest.
Proof.
  induction r as [|c r IH]; [done|]. cbn [Py.mem_char].
  intros [Hc Hr]%orb_false_iff. rewrite Ascii.eqb_sym in Hc.
  change (String c r +:+ String Py.LF rest) with (String c (r +:+ String Py.LF rest)).
  cbn [Py.keepends]. rewrite Hc, (IH Hr). reflexivity.
Qed.

Lemma keepends_single (r : string) :
  Py.mem_char Py.LF r = false → tail (Py.keepends r) = [].
Proof.
  induction r as [|c r IH]; [done|]. cbn [Py.mem_char].
  intros [Hc Hr]%orb_false_iff. rewrite Ascii.eqb_sym in Hc.
  cbn [Py.keepends]. rewrite Hc. specialize (IH Hr).
  by destruct (Py.keepends r).
Qed.

(** The first line of a text is what stands before its first newline. *)
Lemma text_lines_cons (r rest : string) :
  no_newline r → Py.text_lines (r +:+ nl +:+ rest) = (r +:+ nl) :: Py.text_lines rest.
Proof.
  intros [Hlf Hcr]. unfold Py.text_lines.
  rewrite universal_newlines_app by done.
  change (Py.universal_newlines (nl +:+ rest)) with (String Py.LF (Py.universal_newlines rest)).
  by apply keepends_app.
Qed.

Lemma text_lines_single (r : string) : no_newline r → tail (Py.text_lines r) = [].
Proof.
  intros [Hlf Hcr]. unfold Py.text_lines.
  pose proof (universal_newlines_app r EmptyString Hcr) as H.
  rewrite !app_nil_r_s in H. rewrite H. by apply keepends_single.
Qed.

Lemma no_newline_row (id fields : string) :
  no_newline id → no_newline fields → no_newline (id +:+ "," +:+ fields).
Proof.
  unfold no_newline. intros [H1 H2] [H3 H4].
  rewrite !mem_char_app, H1, H2, H3, H4. by split.
Qed.

Lemma text_lines_row (id fields rest : string) :
  no_newline id → no_newline fields →
  Py.text_lines (row id fields +:+ rest) = row id fields :: Py.text_lines rest.
Proof.
  intros Hid Hf. unfold row.
  replace ((id +:+ "," +:+ fields +:+ nl) +:+ rest)
    with ((id +:+ "," +:+ fields) +:+ nl +:+ rest) by (by rewrite !app_assoc_s).
  rewrite text_lines_cons by (by apply no_newline_row).
  by rewrite !app_assoc_s.
Qed.

(** The leading field of a line is the text before its first comma. *)
Lemma leading_field_unique (sep : ascii) (a rest : string) :
  Py.mem_char sep a = false →
  rest = EmptyString ∨ Py.first_char rest = Some sep →
  Py.item0 (Py.split sep (a +:+ rest)) = a.
Proof.
  intros Ha [->|Hrest].
  - by rewrite app_nil_r_s, split_single.
  - destruct rest as [|c rest]; [done|]. injection Hrest as ->.
    by rewrite split_app, split_single.
Qed.

Lemma leading_field_row (id fields : string) :
  Py.mem_char "," id = false → Py.item0 (Py.split "," (row id fields)) = id.
Proof. intros H. unfold row. apply leading_field_unique; [done | by right]. Qed.

Lemma startswith_any_spec (id : string) (prefixes : list string) :
  Py.startswith_any id prefixes = true
  ↔ ∃ p, p ∈ prefixes ∧ String.prefix p id = true.
Proof.
  unfold Py.startswith_any, Py.startswith. rewrite existsb_exists.
  split; intros (p & Hp & H); exists p; split; try done; by apply list_elem_of_In.
Qed.

Lemma scan_negatives_spec (prefixes lines : list string) (id : string) :
  id ∈ scan_negatives prefixes lines
  ↔ ∃ line, line ∈ lines ∧ id = Py.item0 (Py.split "," line)
            ∧ Py.startswith_any id prefixes = true.
Proof.
  unfold scan_negatives.
  assert (∀ acc : gset string,
    id ∈ fold_left
           (λ (neg_samples : gset string) line,
              let id := Py.item0 (Py.split "," line) in
              if Py.startswith_any id prefixes then {[ id ]} ∪ neg_samples else neg_samples)
           lines acc
    ↔ id ∈ acc ∨ ∃ line, line ∈ lines ∧ id = Py.item0 (Py.split "," line)
                         ∧ Py.startswith_any id prefixes = true) as H.
  { induction lines as [|l lines IH]; intros acc; simpl.
    - split; [by left|]. intros [?|(line & Hl & _)]; [done|]. by apply elem_of_nil in Hl.
    - rewrite IH. split.
      + intros [Hacc|(line & Hl & Hid)].
        * destruct (Py.startswith_any (Py.item0 (Py.split "," l)) prefixes) eqn:E; [|by left].
          apply elem_of_union in Hacc as [->%elem_of_singleton|Hacc]; [|by left].
          right. eexists. split; [left|]. by split.
        * right. exists line. split; [by right | done].
      + intros [Hacc|(line & [->|Hl]%elem_of_cons & Hid & Hp)].
        * left. destruct (Py.startswith_any (Py.item0 (Py.split "," l)) prefixes); [|done].
          apply elem_of_union. by right.
        * left. rewrite <- Hid, Hp. apply elem_of_union. left. by apply elem_of_singleton.
        * right. by exists line. }
  rewrite H. split; [|by right]. intros [Hin|?]; [|done]. by apply not_elem_of_empty in Hin.
Qed.

(** ** C7.  Negative-control detection drops the first line of the sample
    sheet, takes from every other line the text before its first comma,
    and returns the set of those identifiers that start with one of the
    given prefixes.  A sheet that is only a header gives the empty set, and
    the rows [NEG1,...], [SAMPLE2,...], [neg_blank,...] with the prefixes
    [NEG] and [neg] give [{NEG1, neg_blank}]. *)
Theorem negative_control_detection :
  (∀ prefixes manifest id,
     id ∈ neg_samples prefixes manifest
     ↔ ∃ line rest,
         line ∈ tail (Py.text_lines manifest)
         ∧ line = id +:+ rest
         ∧ Py.mem_char "," id = false
         ∧ (rest = EmptyString ∨ Py.first_char rest = Some ","%char)
         ∧ ∃ p, p ∈ prefixes ∧ String.prefix p id = true)
  ∧ (∀ prefixes header,
       no_newline header →
       neg_samples prefixes (header +:+ nl) = ∅ ∧ neg_samples prefixes header = ∅)
  ∧ (∀ header f1 f2 f3,
       no_newline header → no_newline f1 → no_newline f2 → no_newline f3 →
       neg_samples ["NEG"; "neg"]
         (header +:+ nl +:+ row "NEG1" f1 +:+ row "SAMPLE2" f2 +:+ row "neg_blank" f3)
       = {[ "NEG1"; "neg_blank" ]}).
Proof.
  split; [|split].
  - intros prefixes manifest id. unfold neg_samples. rewrite scan_negatives_spec. split.
    + intros (line & Hl & Hid & Hp).
      destruct (split_head_spec "," line) as (rest & Hline & Hno & Hrest).
      exists line, rest. rewrite <- Hid in *. repeat split; try done.
      by apply startswith_any_spec.
    + intros (line & rest & Hl & -> & Hno & Hrest & Hp).
      exists (id +:+ rest). split; [done|].
      rewrite leading_field_unique by done. split; [done|].
      by apply startswith_any_spec.
  - intros prefixes header Hh. unfold neg_samples. split.
    + pose proof (text_lines_cons header EmptyString Hh) as H.
      rewrite app_nil_r_s in H. by rewrite H.
    + by rewrite text_lines_single.
  - intros header f1 f2 f3 Hh H1 H2 H3. unfold neg_samples.
    rewrite text_lines_cons by done.
    rewrite !text_lines_row by done.
    pose proof (text_lines_row "neg_blank" f3 EmptyString) as H.
    rewrite app_nil_r_s in H. rewrite H by done.
    cbn [tail scan_negatives fold_left Py.text_lines Py.universal_newlines Py.keepends].
    rewrite !leading_field_row by done.
    apply set_eq. intros x. vm_compute Py.startswith_any. set_solver.
Qed.

End Negatives.

(** Three rows after a header, prefixes [NEG] and [neg]. *)
Lemma negative_control_detection_witness :
  neg_samples ["NEG"; "neg"] demo_sheet = {[ "NEG1"; "neg_blank" ]}.
Proof.
  destruct negative_control_detection as (_ & _ & H).
  apply (H "sample,r1_path,r2_path" "a_R1.fastq.gz,a_R2.fastq.gz"
           "b_R1.fastq.gz,b_R2.fastq.gz" "c_R1.fastq.gz,c_R2.fastq.gz").
  - split; reflexivity.
  - split; reflexivity.
  - split; reflexivity.
  - split; reflexivity.
Defined.

(* ===================================================================== *)
(** * The configuration file *)
(* ===================================================================== *)

Section Config.

Context (getcwd : string) (geturl : string → option string).
Context (set_order : gset string → list string) (snakemake : snakemake_t).
















End Config.


(* ===================================================================== *)
(** * Relocation: when it cannot raise *)
(* ===================================================================== *)

Section Relocation.

Context (getcwd : string).

Lemma has_magic_app (a b : string) :
  Path.has_magic (a +:+ b) = Path.has_magic a || Path.has_magic b.
Proof.
  unfold Path.has_magic. rewrite !mem_char_app.
  destruct (Py.mem_char "*" a), (Py.mem_char "?" a), (Py.mem_char "[" a),
           (Py.mem_char "*" b), (Py.mem_char "?" b), (Py.mem_char "[" b); reflexivity.
Qed.

Lemma has_magic_join2 (x b : string) :
  Path.has_magic x = false → Path.has_magic b = false →
  Path.has_magic (Path.join2 x b) = false.
Proof.
  intros Hx Hb. unfold Path.join2.
  destruct (Py.startswith b "/"); [done|].
  destruct (Py.last_char x) as [c|]; [destruct (Ascii.eqb c "/")|];
    rewrite ?has_magic_app, ?Hx, ?Hb; reflexivity.
Qed.

Lemma has_magic_join (a : string) (p : list string) :
  Path.has_magic a = false → Forall (λ b, Path.has_magic b = false) p →
  Path.has_magic (Path.join a p) = false.
Proof.
  unfold Path.join. revert a. induction p as [|b p IH]; intros a Ha Hp; [done|].
  apply Forall_cons in Hp as [Hb Hp]. simpl. apply IH; [|done].
  by apply has_magic_join2.
Qed.

Lemma glob_glob_Ok (pattern : string) (w : world) :
  Path.has_magic pattern = false →
  ∃ files, glob_glob getcwd pattern w = (Ok files, w).
Proof.
  intros H. unfold glob_glob. rewrite H.
  destruct (node_at getcwd w pattern); by eexists.
Qed.

Lemma nul_join2 (x b : string) :
  Py.mem_char Py.NUL x = false → Py.mem_char Py.NUL b = false →
  Py.mem_char Py.NUL (Path.join2 x b) = false.
Proof.
  intros Hx Hb. unfold Path.join2.
  destruct (Py.startswith b "/"); [done|].
  destruct (Py.last_char x) as [c|]; [destruct (Ascii.eqb c "/")|];
    rewrite ?mem_char_app, ?Hx, ?Hb; reflexivity.
Qed.

Lemma nul_join (a : string) (p : list string) :
  Py.mem_char Py.NUL a = false → Forall (λ b, Py.mem_char Py.NUL b = false) p →
  Py.mem_char Py.NUL (Path.join a p) = false.
Proof.
  unfold Path.join. revert a. induction p as [|b p IH]; intros a Ha Hp; [done|].
  apply Forall_cons in Hp as [Hb Hp]. simpl. apply IH; [|done].
  by apply nul_join2.
Qed.

(** What [glob.glob] finds for a literal pattern is the pattern. *)
Lemma glob_glob_files (pattern : string) (w : world) :
  Path.has_magic pattern = false →
  ∃ files, glob_glob getcwd pattern w = (Ok files, w) ∧ ∀ f, f ∈ files → f = pattern.
Proof.
  intros H. unfold glob_glob. rewrite H.
  destruct (node_at getcwd w pattern); eexists; (split; [reflexivity|]); intros f Hf.
  - by apply elem_of_nil in Hf.
  - by apply list_elem_of_singleton in Hf.
  - by apply list_elem_of_singleton in Hf.
Qed.

(** Every exception of [shutil.copy] between paths without NUL is an
    [IOError]. *)
Lemma shutil_copy_raises (src dst : string) (w w' : world) (e : exn) :
  Py.mem_char Py.NUL src = false → Py.mem_char Py.NUL dst = false →
  shutil_copy getcwd src dst w = (Raise e, w') → is_IOError e = true.
Proof.
  intros Hs Hd. unfold shutil_copy. rewrite Hs, Hd. cbn [orb].
  assert (∀ p text, open_write getcwd p text w = (Raise e, w') → is_IOError e = true) as Hw.
  { intros p text. unfold open_write.
    destruct (node_at getcwd w p); [destruct (can_create getcwd w p)| |]; simpl;
      by intros [= <- _]. }
  destruct (node_at getcwd w src); [by intros [= <- _] | by intros [= <- _] |].
  match goal with |- context [node_at getcwd w ?d] => destruct (node_at getcwd w d) end;
    try apply Hw.
  destruct (Nat.eqb _ _); [by intros [= <- _] | apply Hw].
Qed.

(** A path with NUL is refused, and that is no [IOError]. *)
Lemma shutil_copy_nul (src dst : string) (w : world) :
  Py.mem_char Py.NUL src || Py.mem_char Py.NUL dst = true →
  shutil_copy getcwd src dst w = (Raise (ValueError "embedded null byte"), w).
Proof. intros H. unfold shutil_copy. by rewrite H. Qed.

Lemma guarded_copy_Ok (src dst msg : string) (w : world) :
  Py.mem_char Py.NUL src = false → Py.mem_char Py.NUL dst = false →
  fst (try_except (shutil_copy getcwd src dst) is_IOError (print msg) w) = Ok tt.
Proof.
  intros Hs Hd.
  unfold try_except. destruct (shutil_copy getcwd src dst w) as [[[]|e] w'] eqn:E; [done|].
  by rewrite (shutil_copy_raises _ _ _ _ _ Hs Hd E).
Qed.

Lemma for_each_total {A} (xs : list A) (body : A → M unit) :
  (∀ x w, x ∈ xs → fst (body x w) = Ok tt) → ∀ w, fst (for_each xs body w) = Ok tt.
Proof.
  induction xs as [|x xs IH]; intros Hb w; [done|]. simpl.
  unfold mbind, M_bind. pose proof (Hb x w (list_elem_of_here _ _)) as Hx.
  destruct (body x w) as [[[]|e] w1]; [|done].
  apply IH. intros y w2 Hy. apply Hb. by right.
Qed.

(** [move] returns normally in every world, whatever is missing, when the
    working directory it is given has no glob metacharacter and none of
    its three arguments holds a NUL character. *)
Lemma move_never_raises (cwd dest prefix : string) (w : world) :
  Path.has_magic cwd = false →
  Py.mem_char Py.NUL cwd = false → Py.mem_char Py.NUL dest = false →
  Py.mem_char Py.NUL prefix = false →
  fst (move getcwd cwd dest prefix w) = Ok tt.
Proof.
  intros Hc Hnc Hnd Hnp. unfold move, mbind, M_bind, os_path_exists.
  assert (∀ (c : bool) (m1 m2 : M unit) w0,
            (∀ w1, fst (m1 w1) = Ok tt) → (∀ w1, fst (m2 w1) = Ok tt) →
            ∃ w1, (if c then m1 else m2) w0 = (Ok tt, w1)) as Hif.
  { intros c m1 m2 w0 H1 H2. destruct c.
    - specialize (H1 w0). destruct (m1 w0) as [[[]|] w1]; [by eexists | done].
    - specialize (H2 w0). destruct (m2 w0) as [[[]|] w1]; [by eexists | done]. }
  assert (∀ msg w1, fst (print msg w1) = Ok tt) as Hprint by done.
  assert (∀ sub name out msg,
            Path.has_magic sub = false → Path.has_magic name = false →
            Py.mem_char Py.NUL sub = false → Py.mem_char Py.NUL name = false →
            Py.mem_char Py.NUL out = false →
            ∀ w1, fst ((files ← glob_glob getcwd (Path.join cwd ["ncov-tools"; sub; name]);
                        for_each files (λ file,
                          try_except (shutil_copy getcwd file (Path.join dest [sub; out]))
                                     is_IOError (print msg))) w1)
                  = Ok tt) as Hone.
  { intros sub name out msg Hsub Hname Hnsub Hnname Hnout w1.
    destruct (glob_glob_files (Path.join cwd ["ncov-tools"; sub; name]) w1)
      as (files & Hg & Hfiles).
    { apply has_magic_join; [done | by repeat constructor]. }
    unfold mbind, M_bind. rewrite Hg. apply for_each_total.
    intros file w3 Hfile. apply guarded_copy_Ok.
    - rewrite (Hfiles _ Hfile). apply nul_join; [done | by repeat constructor].
    - apply nul_join; [done | by repeat constructor]. }
  assert (∀ sub exts,
            Path.has_magic sub = false → Py.mem_char Py.NUL sub = false →
            Forall (λ ext, Path.has_magic ("default" +:+ ext) = false
                           ∧ Py.mem_char Py.NUL ext = false) exts →
            ∀ w1, fst (for_each exts (λ ext,
                    files ← glob_glob getcwd (Path.join cwd ["ncov-tools"; sub; "default" +:+ ext]);
                    for_each files (λ file,
                      try_except (shutil_copy getcwd file (Path.join dest [sub; prefix +:+ ext]))
                                 is_IOError (print ("Missing file " +:+ prefix +:+ ext)))) w1)
                  = Ok tt) as Hcat.
  { intros sub exts Hsub Hnsub Hexts w1. apply for_each_total. intros ext w2 Hext.
    rewrite Forall_forall in Hexts. destruct (Hexts _ Hext) as [Hm Hn].
    apply Hone; try done; rewrite mem_char_app, ?Hnp, ?Hn; reflexivity. }
  edestruct (Hif (match node_at getcwd w (Path.join cwd ["ncov-tools"; "plots"]) with
                  | Absent => false | _ => true end)) as [w1 ->];
    [apply (Hcat "plots" plot_extensions); [done | done | by repeat constructor]
    | apply Hprint |].
  edestruct (Hif (match node_at getcwd w1 (Path.join cwd ["ncov-tools"; "lineages"]) with
                  | Absent => false | _ => true end)) as [w2 ->];
    [ | apply Hprint |].
  { intros w2. apply Hone; try done; rewrite mem_char_app, ?Hnp; reflexivity. }
  edestruct (Hif (match node_at getcwd w2 (Path.join cwd ["ncov-tools"; "qc_analysis"]) with
                  | Absent => false | _ => true end)) as [w3 Hq];
    [apply (Hcat "qc_analysis" qc_extensions); [done | done | by repeat constructor]
    | apply Hprint |].
  by rewrite Hq.
Qed.

End Relocation.

(* ===================================================================== *)
(** * The model on concrete inputs *)
(* ===================================================================== *)

Example split_path : Py.split "/" "S1/core/S1.tsv" = ["S1"; "core"; "S1.tsv"].
Proof. reflexivity. Qed.

Example strip_both_ends : Py.strip "v" "vv3v" = "3".
Proof. reflexivity. Qed.

Example lines_of_text :
  Py.text_lines (">a" +:+ String Py.CR (String Py.LF ("AC" +:+ String Py.LF "G")))
  = [">a" +:+ nl; "AC" +:+ nl; "G"].
Proof. reflexivity. Qed.

Example str_of_list :
  Py.str_list ["NEG1"; "it's"]
  = "['NEG1', " +:+ String Py.DQUOTE ("it's" +:+ String Py.DQUOTE "]").
Proof. reflexivity. Qed.

Example replace_all : Py.replace "abcabc" "bc" "X" = "aXaX".
Proof. reflexivity. Qed.

Example join_expected :
  Path.join "S1" ["freebayes"; "S1.variants.norm.vcf"] = "S1/freebayes/S1.variants.norm.vcf".
Proof. reflexivity. Qed.

Example abspath_normalises :
  Path.abspath "/work/run" "./ncov-tools/../ncov-tools//res" = "/work/run/ncov-tools/res".
Proof. reflexivity. Qed.

Example parent_of_key : Path.parent "/a/b" = "/a" ∧ Path.parent "/a" = "/".
Proof. split; reflexivity. Qed.

(** A whole primary-mode run of [set_up]: what it returns, what it prints
    and the configuration file it leaves.  The negative controls come in
    the order in which [elements] lists the set. *)
Example set_up_run :
  let r := set_up "/work" no_web elements (demo_snakemake false "v3.1.2") world_full in
  fst r = Ok (".", "run1")
  ∧ stdout (snd r)
    = [ "Writing config.yaml for ncov-tools to ncov-tools/config.yaml";
        "Negative control samples found include: ['neg_blank', 'NEG1']";
        "Linking alignment BAMs to ncov-tools!";
        "Linking iVar files to ncov-tools!" ]
  ∧ requests (snd r) = []
  ∧ file_content (snd r) "/work/ncov-tools/config.yaml"
    = Some ("data_root: '/work/ncov-tools/run1'" +:+ nl
            +:+ "run_name: 'run1'" +:+ nl
            +:+ "amplicon_bed: 'resources/amplicon.bed'" +:+ nl
            +:+ "reference_genome: 'resources/MN908947.fasta'" +:+ nl
            +:+ "platform: illumina" +:+ nl
            +:+ "primer_bed: 'resources/primer.bed'" +:+ nl
            +:+ "bed_type: unique_amplicons" +:+ nl
            +:+ "offset: 0" +:+ nl
            +:+ "completeness_threshold: 0.9" +:+ nl
            +:+ "bam_pattern: '{data_root}/{sample}.bam'" +:+ nl
            +:+ "primer_trimmed_bam_pattern: '{data_root}/{sample}.mapped.primertrimmed.sorted.bam'" +:+ nl
            +:+ "consensus_pattern: '{data_root}/{sample}.consensus.fasta'" +:+ nl
            +:+ "variants_pattern: '{data_root}/{sample}.variants.tsv'" +:+ nl
            +:+ "assign_lineages: true" +:+ nl
            +:+ "tree_include_consensus: 'True'" +:+ nl
            +:+ "negative_control_samples: ['neg_blank', 'NEG1']" +:+ nl
            +:+ "mutation_set: spike_mutations" +:+ nl
            +:+ "output_directory: run1_ncovresults" +:+ nl
            +:+ "pangolin_version: '3'" +:+ nl).
Proof. vm_compute. repeat split. Qed.

(** A run in alternate mode that falls back to the primary caller: it
    completes, the pattern it writes is still the [.vcf] one, and the
    variants of S2 are linked as [.tsv] only. *)
Example set_up_downgrade_run :
  let r := set_up "/work" no_web elements (demo_snakemake true "v3.1.2")
             world_full_vcf_missing in
  fst r = Ok (".", "run1")
  ∧ file_content (snd r) "/work/ncov-tools/config.yaml"
    = Some (demo_config "variants_pattern: '{data_root}/{sample}.variants.vcf'")
  ∧ node_at "/work" (snd r) "/work/ncov-tools/run1/S2.variants.vcf" = Absent
  ∧ node_at "/work" (snd r) "/work/ncov-tools/run1/S2.variants.tsv" = File 1.
Proof. vm_compute. repeat split. Qed.

(* ===================================================================== *)
(** * Frame rules for the monad and the loops *)
(* ===================================================================== *)

Section Frames.

Context (R : world → world → Prop).
Hypothesis R_refl : ∀ w, R w w.
Hypothesis R_trans : ∀ w1 w2 w3, R w1 w2 → R w2 w3 → R w1 w3.

Lemma frames_ret {A} (a : A) : frames R (mret a : M A).
Proof. intros w. apply R_refl. Qed.

Lemma frames_raise {A} (e : exn) : frames R (raise e : M A).
Proof. intros w. apply R_refl. Qed.

Lemma frames_bind {A B} (m : M A) (f : A → M B) :
  frames R m → (∀ a, frames R (f a)) → frames R (m ≫= f).
Proof.
  intros Hm Hf w. unfold mbind, M_bind. specialize (Hm w).
  destruct (m w) as [[a|e] w1]; simpl in *; [|done].
  eapply R_trans; [exact Hm | apply Hf].
Qed.

Lemma frames_if {A} (c : bool) (m1 m2 : M A) :
  frames R m1 → frames R m2 → frames R (if c then m1 else m2).
Proof. by destruct c. Qed.

Lemma frames_try_except {A} (m : M A) (catches : exn → bool) (h : M A) :
  frames R m → frames R h → frames R (try_except m catches h).
Proof.
  intros Hm Hh w. unfold try_except. specialize (Hm w).
  destruct (m w) as [[a|e] w1]; simpl in *; [done|].
  destruct (catches e); [|done]. eapply R_trans; [exact Hm | apply Hh].
Qed.

Lemma frames_for_each {A} (xs : list A) (body : A → M unit) :
  (∀ x, frames R (body x)) → frames R (for_each xs body).
Proof.
  intros Hb. induction xs as [|x xs IH]; simpl; [apply frames_ret|].
  apply frames_bind; [apply Hb | by intros _].
Qed.

Lemma frames_for_each_break {A} (xs : list A) (body : A → M flow) :
  (∀ x, frames R (body x)) → frames R (for_each_break xs body).
Proof.
  intros Hb. induction xs as [|x xs IH]; simpl; [apply frames_ret|].
  apply frames_bind; [apply Hb|]. intros []; [exact IH | apply frames_ret].
Qed.

(** The linkers, given that the calls they make are framed by [R]. *)
Context (getcwd : string) (snakemake : snakemake_t).
Hypothesis R_print : ∀ s, frames R (print s).
Hypothesis R_exists : ∀ p, frames R (os_path_exists getcwd p).
Hypothesis R_link : ∀ src dst, frames R (os_link getcwd src dst).
Hypothesis R_rewrite : ∀ root x,
  frames R (fileinput_inplace getcwd (consensus_path root x) (rewrite_line (sample_of x))).

Lemma frames_link_ivar (root : string) (replace : bool) :
  frames R (link_ivar getcwd snakemake root replace).
Proof.
  unfold link_ivar.
  apply frames_bind; [apply R_print | intros _].
  apply frames_bind; [|intros _]; apply frames_for_each; intros x; cbv zeta.
  - apply frames_bind; [apply R_exists | intros e].
    apply frames_if; [apply R_link | apply frames_ret].
  - apply frames_bind; [apply R_exists | intros e].
    apply frames_bind; [|intros _; apply (R_rewrite root x)].
    apply frames_if; [apply R_link | apply frames_ret].
Qed.

Lemma frames_link_freebayes (root : string) :
  frames R (link_freebayes getcwd snakemake root).
Proof.
  unfold link_freebayes.
  apply frames_bind; [apply R_print | intros _].
  apply frames_bind; [|intros _]; apply frames_for_each_break; intros x; cbv zeta.
  - apply frames_bind; [apply R_exists | intros e].
    apply frames_if.
    + apply frames_bind; [apply R_print | intros _].
      apply frames_bind; [apply frames_link_ivar | intros _; apply frames_ret].
    + apply frames_bind; [apply R_exists | intros e'].
      apply frames_bind; [|intros _; apply frames_ret].
      apply frames_if; [apply R_link | apply frames_ret].
  - apply frames_bind; [apply R_exists | intros e].
    apply frames_if.
    + apply frames_bind; [apply R_print | intros _].
      apply frames_bind; [apply frames_link_ivar | intros _; apply frames_ret].
    + apply frames_bind; [apply R_exists | intros e'].
      apply frames_bind; [|intros _].
      { apply frames_if; [apply R_link | apply frames_ret]. }
      apply frames_bind; [apply (R_rewrite root x) | intros _; apply frames_ret].
Qed.

End Frames.

(* ===================================================================== *)
(** * Linking leaves the text of existing files alone *)
(* ===================================================================== *)

Lemma contents_kept_refl (w : world) : contents_kept w w.
Proof. by split. Qed.

Lemma contents_kept_trans (w1 w2 w3 : world) :
  contents_kept w1 w2 → contents_kept w2 w3 → contents_kept w1 w3.
Proof.
  intros [L1 H1] [L2 H2]. split; [lia|].
  intros i Hi. rewrite H2 by lia. by apply H1.
Qed.

Section ContentsKept.

Context (getcwd : string) (snakemake : snakemake_t).

Lemma print_keeps_contents (s : string) : frames contents_kept (print s).
Proof. intros w. by split. Qed.

Lemma exists_keeps_contents (p : string) : frames contents_kept (os_path_exists getcwd p).
Proof. intros w. apply contents_kept_refl. Qed.

Lemma os_link_keeps_contents (src dst : string) :
  frames contents_kept (os_link getcwd src dst).
Proof.
  intros w. unfold os_link.
  destruct (node_at getcwd w src); [apply contents_kept_refl| |];
    (destruct (can_create getcwd w dst); simpl; [|apply contents_kept_refl]);
    destruct (node_at getcwd w dst); by split.
Qed.

(** The in-place rewrite writes into an inode of its own. *)
Lemma fileinput_keeps_contents (p : string) (body : string → string) :
  frames contents_kept (fileinput_inplace getcwd p body).
Proof.
  intros w. unfold fileinput_inplace.
  destruct (node_at getcwd _ p); [by split | by split |].
  destruct (node_at getcwd _ (p +:+ ".bak")); try by split.
  all: simpl; split; simpl; [lia|]; intros i Hi;
       rewrite !lookup_insert_ne by lia; reflexivity.
Qed.

End ContentsKept.

(* ===================================================================== *)
(** * Requests and failures of [set_up] *)
(* ===================================================================== *)

Lemma same_requests_refl (w : world) : same_requests w w.
Proof. done. Qed.

Lemma same_requests_trans (w1 w2 w3 : world) :
  same_requests w1 w2 → same_requests w2 w3 → same_requests w1 w3.
Proof. unfold same_requests. congruence. Qed.

Section SetUpRequests.

Context (getcwd : string) (geturl : string → option string).
Context (set_order : gset string → list string) (snakemake : snakemake_t).

Lemma print_requests (s : string) : frames same_requests (print s).
Proof. by intros w. Qed.

Lemma exists_requests (p : string) : frames same_requests (os_path_exists getcwd p).
Proof. by intros w. Qed.

Lemma os_link_requests (src dst : string) : frames same_requests (os_link getcwd src dst).
Proof.
  intros w. unfold os_link.
  destruct (node_at getcwd w src); [done| |];
    (destruct (can_create getcwd w dst); simpl; [|done]);
    by destruct (node_at getcwd w dst).
Qed.

Lemma fileinput_requests (p : string) (body : string → string) :
  frames same_requests (fileinput_inplace getcwd p body).
Proof.
  intros w. unfold fileinput_inplace.
  destruct (node_at getcwd _ p); [done | done |].
  by destruct (node_at getcwd _ (p +:+ ".bak")).
Qed.

Lemma os_mkdir_requests (p : string) : frames same_requests (os_mkdir getcwd p).
Proof.
  intros w. unfold os_mkdir.
  destruct (node_at getcwd w p); [|done|done]. by destruct (can_create getcwd w p).
Qed.

Lemma shutil_rmtree_requests (p : string) : frames same_requests (shutil_rmtree getcwd p).
Proof. intros w. unfold shutil_rmtree. by destruct (node_at getcwd w p). Qed.

Lemma open_read_requests (p : string) : frames same_requests (open_read getcwd p).
Proof. intros w. unfold open_read. by destruct (node_at getcwd w p). Qed.

Lemma open_write_requests (p text : string) : frames same_requests (open_write getcwd p text).
Proof.
  intros w. unfold open_write.
  destruct (node_at getcwd w p); [|done|done]. by destruct (can_create getcwd w p).
Qed.

Lemma bam_loop_requests (data_root ext : string) (l : list string) :
  frames same_requests (bam_loop getcwd data_root ext l).
Proof.
  apply (frames_for_each same_requests same_requests_refl same_requests_trans).
  intros bam. cbv zeta.
  apply (frames_bind same_requests same_requests_trans).
  - intros w. unfold bam_guard, os_path_exists, mbind, M_bind.
    by destruct (node_at getcwd w _).
  - intros g. apply frames_if; [apply os_link_requests | by intros w].
Qed.

Lemma reset_data_root_requests (data_root : string) :
  frames same_requests (reset_data_root getcwd data_root).
Proof.
  unfold reset_data_root.
  apply (frames_bind same_requests same_requests_trans); [apply exists_requests|].
  intros e. apply (frames_bind same_requests same_requests_trans).
  - apply frames_if; [apply shutil_rmtree_requests | by intros w].
  - intros _. apply os_mkdir_requests.
Qed.

Local Ltac bind_requests := apply (frames_bind same_requests same_requests_trans).

(** [set_up] makes no request other than those of the version lookup. *)
Lemma set_up_requests :
  frames same_requests (resolve_pangolin geturl snakemake) →
  frames same_requests (set_up getcwd geturl set_order snakemake).
Proof.
  intros Hres. unfold set_up.
  pose proof (frames_link_ivar same_requests same_requests_refl same_requests_trans
                getcwd snakemake print_requests exists_requests os_link_requests
                (λ _ _, fileinput_requests _ _)) as Hivar.
  pose proof (frames_link_freebayes same_requests same_requests_refl same_requests_trans
                getcwd snakemake print_requests exists_requests os_link_requests
                (λ _ _, fileinput_requests _ _)) as Hfb.
  bind_requests; [apply print_requests | intros _].
  bind_requests; [exact Hres | intros version].
  bind_requests; [apply reset_data_root_requests | intros _].
  bind_requests; [apply open_read_requests | intros manifest].
  bind_requests; [apply print_requests | intros _].
  bind_requests; [apply print_requests | intros _].
  bind_requests; [apply (bam_loop_requests _ ".bam") | intros _].
  bind_requests; [apply (bam_loop_requests _ ".mapped.primertrimmed.sorted.bam") | intros _].
  bind_requests.
  - apply frames_if; (bind_requests; [|intros _; by intros w]); [apply Hfb | apply Hivar].
  - intros config. bind_requests; [apply open_write_requests | intros _; by intros w].
Qed.

(** ** X2.  With a pangolin version whose major part is 3 or 4, [set_up]
    makes no request, whatever else happens and whether it returns or
    raises. *)
Theorem set_up_supported_version_makes_no_request (w : world) :
  major_version (pangolin snakemake) = "3" ∨ major_version (pangolin snakemake) = "4" →
  requests (snd (set_up getcwd geturl set_order snakemake w)) = requests w.
Proof.
  intros Hv. apply set_up_requests. intros w0.
  by rewrite (resolve_pangolin_supported geturl snakemake w0 Hv).
Qed.


Lemma resolve_pangolin_files (w w' : world) (r : result string) :
  resolve_pangolin geturl snakemake w = (r, w') →
  dirs w' = dirs w ∧ names w' = names w.
Proof.
  unfold resolve_pangolin, try_except, assert_, mbind, M_bind.
  destruct (_ || _); simpl; [by intros [= _ <-]|].
  unfold urlopen_geturl. destruct (geturl _); by intros [= _ <-].
Qed.

Lemma node_at_same_files (w w' : world) (p : string) :
  dirs w' = dirs w → names w' = names w → node_at getcwd w' p = node_at getcwd w p.
Proof. intros Hd Hn. unfold node_at, is_dir. by rewrite Hd, Hn. Qed.

(** ** X4.  A sample sheet kept below the data directory of the run does
    not survive the reset with which [set_up] starts: when that directory
    exists, [set_up] cannot complete. *)
Theorem set_up_sheet_below_data_root (w : world) (r : string * string) :
  node_at getcwd w (data_root_of getcwd snakemake) ≠ Absent →
  under (key getcwd (data_root_of getcwd snakemake))
        (key getcwd (sample_csv_filename snakemake)) = true →
  fst (set_up getcwd geturl set_order snakemake w) ≠ Ok r.
Proof.
  intros Hroot Hunder Hok.
  destruct (set_up getcwd geturl set_order snakemake w) as [r' w'] eqn:H.
  simpl in Hok. subst r'. unfold set_up in H.
  bind_in H as u1 w1 Hp1. apply print_Ok in Hp1 as (Hd1 & Hn1 & _).
  bind_in H as version w2 Hres. apply resolve_pangolin_files in Hres as (Hd2 & Hn2).
  bind_in H as u2 w3 Hreset. fold (data_root_of getcwd snakemake) in Hreset.
  apply reset_data_root_Ok in Hreset as [_ Hgone].
  bind_in H as manifest w4 Hread.
  unfold open_read in Hread.
  destruct (node_at getcwd w3 (sample_csv_filename snakemake)) as [| |i] eqn:E; try done.
  apply node_at_file in E as [_ E].
  destruct (Hgone) with (q := key getcwd (sample_csv_filename snakemake)) as [Hnone _];
    [|done|congruence].
  rewrite (node_at_same_files w1 w2), (node_at_same_files w w1); done.
Qed.

End SetUpRequests.

(** The sheet [/work/ncov-tools/run1/sample_table.csv] of a run whose data
    directory is [/work/ncov-tools/run1]. *)
Lemma set_up_sheet_below_data_root_witness :
  fst (set_up "/work" no_web elements snakemake_sheet_inside world_sheet_inside)
  ≠ Ok (".", "run1").
Proof.
  apply set_up_sheet_below_data_root.
  - vm_compute. discriminate.
  - vm_compute. reflexivity.
Defined.

(** The version [v3.1.2]: no request. *)
Lemma set_up_supported_version_makes_no_request_witness :
  requests (snd (set_up "/work" web_v4 elements (demo_snakemake false "v3.1.2") world_full))
  = requests world_full.
Proof.
  apply set_up_supported_version_makes_no_request. left. vm_compute. reflexivity.
Defined.


(* ===================================================================== *)
(** * [FileExistsError] and the replace flag *)
(* ===================================================================== *)

Lemma bind_Raise_inv {A B} (m : M A) (f : A → M B) (w w' : world) (e : exn) :
  (m ≫= f) w = (Raise e, w') →
  m w = (Raise e, w') ∨ ∃ a w1, m w = (Ok a, w1) ∧ f a w1 = (Raise e, w').
Proof.
  unfold mbind, M_bind. destruct (m w) as [[a|e0] w1]; [|intros [= -> ->]; by left].
  intros H. right. by exists a, w1.
Qed.

Lemma never_raises_bind {A B} (E : exn → bool) (m : M A) (f : A → M B) :
  never_raises E m → (∀ a, never_raises E (f a)) → never_raises E (m ≫= f).
Proof.
  intros Hm Hf w e w' [H|(a & w1 & _ & H)]%bind_Raise_inv; [by eapply Hm | by eapply Hf].
Qed.

Lemma never_raises_ret {A} (E : exn → bool) (a : A) : never_raises E (mret a : M A).
Proof. by intros w e w'. Qed.

Lemma never_raises_for_each {A} (E : exn → bool) (xs : list A) (body : A → M unit) :
  (∀ x, never_raises E (body x)) → never_raises E (for_each xs body).
Proof.
  intros Hb. induction xs as [|x xs IH]; simpl; [apply never_raises_ret|].
  apply never_raises_bind; [apply Hb | by intros _].
Qed.

Section ReplaceFlag.

Context (getcwd : string) (snakemake : snakemake_t).

Lemma print_never_raises (E : exn → bool) (s : string) : never_raises E (print s).
Proof. by intros w e w'. Qed.

(** A link made only where nothing stands cannot find its destination
    taken. *)
Lemma link_if_absent_never_FileExistsError (src dst : string) :
  never_raises is_FileExistsError
    (e ← os_path_exists getcwd dst;
     if negb e || false then os_link getcwd src dst else mret tt).
Proof.
  intros w e w'. unfold mbind, M_bind, os_path_exists, os_link.
  destruct (node_at getcwd w dst) eqn:Ed; simpl; [|done|done].
  destruct (node_at getcwd w src); [by intros [= <- _]| |];
    (destruct (can_create getcwd w dst); simpl; [|by intros [= <- _]]);
    rewrite ?Ed; by intros [= <- _].
Qed.

Lemma fileinput_never_FileExistsError (p : string) (body : string → string) :
  never_raises is_FileExistsError (fileinput_inplace getcwd p body).
Proof.
  intros w e w'. unfold fileinput_inplace.
  destruct (node_at getcwd _ p); [by intros [= <- _] | by intros [= <- _] |].
  destruct (node_at getcwd _ (p +:+ ".bak")); by intros [= <- _].
Qed.

(** ** X5.  In a file system of directories and regular files, which is
    what a [world] is, [link_ivar] without the replace flag never raises
    [FileExistsError]: a destination that is already there is skipped.
    (Symbolic links are outside the model: at a dangling one
    [os.path.exists] is false while [os.link] finds the name taken.) *)
Theorem link_ivar_without_replace_skips_existing (root : string) (w : world) (p : string) :
  fst (link_ivar getcwd snakemake root false w) ≠ Raise (FileExistsError p).
Proof.
  assert (never_raises is_FileExistsError (link_ivar getcwd snakemake root false)) as H.
  { unfold link_ivar.
    apply never_raises_bind; [apply print_never_raises | intros _].
    apply never_raises_bind; [|intros _]; apply never_raises_for_each; intros x; cbv zeta.
    - apply link_if_absent_never_FileExistsError.
    - change (never_raises is_FileExistsError
                ((e ← os_path_exists getcwd (root +:+ "/" +:+ sample_of x +:+ ".consensus.fasta");
                  if negb e || false
                  then os_link getcwd x (root +:+ "/" +:+ sample_of x +:+ ".consensus.fasta")
                  else mret ())
                 ≫= λ _, fileinput_inplace getcwd
                           (root +:+ "/" +:+ sample_of x +:+ ".consensus.fasta")
                           (rewrite_line (sample_of x)))).
      apply never_raises_bind; [apply link_if_absent_never_FileExistsError | intros _].
      apply fileinput_never_FileExistsError. }
  destruct (link_ivar getcwd snakemake root false w) as [r w'] eqn:E. simpl.
  intros ->. by apply H in E.
Qed.

(** ** X6.  With the replace flag [link_ivar] does not replace: after a
    pass that completed, a second pass over at least one variants input
    cannot complete, because [os.link] finds the first destination taken. *)
Theorem link_ivar_with_replace_fails_second_time (root : string) (w w1 : world) :
  input_variants snakemake ≠ [] →
  link_ivar getcwd snakemake root true w = (Ok tt, w1) →
  fst (link_ivar getcwd snakemake root true w1) ≠ Ok tt.
Proof.
  intros Hne H1 H2.
  destruct (input_variants snakemake) as [|v rest] eqn:Ei; [done|].
  destruct (link_ivar_true_links getcwd snakemake root w w1 tt H1 v) as (i & Hi & _).
  { rewrite Ei. left. }
  destruct (link_ivar getcwd snakemake root true w1) as [r w2] eqn:E. simpl in H2. subst r.
  unfold link_ivar in E. rewrite Ei in E.
  bind_in E as u1 w3 Hp. apply print_Ok in Hp as (_ & Hn & _).
  bind_in E as u2 w4 Hloop. simpl in Hloop.
  bind_in Hloop as u3 w5 Hbody.
  bind_in Hbody as e w6 He. apply os_path_exists_Ok in He as [-> _].
  rewrite orb_true_r in Hbody.
  apply os_link_Ok in Hbody as (j & _ & Habs & Hdst & _).
  apply node_at_absent in Habs; [|done].
  unfold variants_tsv_path in Hi. rewrite Hn in Habs. congruence.
Qed.

End ReplaceFlag.

(** Two passes with the flag over the two samples of the primary world. *)
Lemma link_ivar_with_replace_fails_second_time_witness :
  fst (link_ivar "/work" (demo_snakemake false "v3.1.2") demo_root true
         (snd (link_ivar "/work" (demo_snakemake false "v3.1.2") demo_root true world_primary)))
  ≠ Ok tt.
Proof.
  apply (link_ivar_with_replace_fails_second_time "/work" (demo_snakemake false "v3.1.2")
           demo_root world_primary).
  - discriminate.
  - vm_compute. reflexivity.
Defined.

(* ===================================================================== *)
(** * The header rewrite, line by line *)
(* ===================================================================== *)

Section RewriteLines.

#[local] Arguments String.append : simpl nomatch.

Lemma universal_newlines_no_CR_fuel (n : nat) (s : string) :
  String.length s ≤ n → Py.mem_char Py.CR (Py.universal_newlines s) = false.
Proof.
  revert s. induction n as [|n IH]; intros s Hn.
  - destruct s; [done | simpl in Hn; lia].
  - destruct s as [|c s]; [done|]. simpl in Hn. cbn [Py.universal_newlines].
    destruct (Ascii.eqb_spec c Py.CR) as [->|Hc].
    + cbn [Py.mem_char]. change (Ascii.eqb Py.CR Py.LF) with false. simpl orb.
      destruct s as [|c' s]; [done|]. simpl in Hn.
      destruct (Ascii.eqb c' Py.LF); apply IH; simpl; lia.
    + cbn [Py.mem_char]. rewrite IH by lia.
      rewrite orb_false_r. apply Ascii.eqb_neq. congruence.
Qed.

Lemma universal_newlines_no_CR (s : string) :
  Py.mem_char Py.CR (Py.universal_newlines s) = false.
Proof. by apply (universal_newlines_no_CR_fuel (String.length s)). Qed.

Lemma keepends_is_line (s : string) (l : string) :
  Py.mem_char Py.CR s = false → l ∈ Py.keepends s → is_line l.
Proof.
  revert l. induction s as [|c s IH]; intros l Hcr Hl; [by apply elem_of_nil in Hl|].
  cbn [Py.mem_char] in Hcr. apply orb_false_iff in Hcr as [Hc Hs].
  cbn [Py.keepends] in Hl. destruct (Ascii.eqb_spec c Py.LF) as [->|Hlf].
  - apply elem_of_cons in Hl as [->|Hl]; [|by apply IH].
    exists EmptyString. split; [by split | by left].
  - assert (Py.mem_char Py.LF (String c EmptyString) = false
            ∧ Py.mem_char Py.CR (String c EmptyString) = false) as [H1 H2].
    { cbn [Py.mem_char]. rewrite !orb_false_r. split; [|done].
      apply Ascii.eqb_neq. congruence. }
    destruct (Py.keepends s) as [|l0 ls] eqn:E.
    + apply list_elem_of_singleton in Hl as ->.
      exists (String c EmptyString). split; [by split | by right].
    + apply elem_of_cons in Hl as [->|Hl]; [|apply IH; [done | by right]].
      destruct (IH l0 Hs) as (r & [Hr1 Hr2] & Hshape); [left|].
      exists (String c r). split.
      { split; cbn [Py.mem_char]; rewrite ?Hr1, ?Hr2, orb_false_r; [|done].
        apply Ascii.eqb_neq. congruence. }
      destruct Hshape as [->|[-> _]]; [by left | by right].
Qed.

(** Every line of a text is a line. *)
Lemma text_lines_is_line (content l : string) : l ∈ Py.text_lines content → is_line l.
Proof. apply keepends_is_line, universal_newlines_no_CR. Qed.

Lemma concat_cons (x : string) (xs : list string) :
  String.concat EmptyString (x :: xs) = x +:+ String.concat EmptyString xs.
Proof. destruct xs; simpl; [by rewrite app_nil_r_s | reflexivity]. Qed.

Lemma last_char_mem (r : string) (c : ascii) :
  Py.last_char r = Some c → Py.mem_char c r = true.
Proof.
  induction r as [|a r IH]; [done|]. cbn [Py.last_char Py.mem_char].
  destruct (Py.last_char r) as [c'|].
  - intros [= ->]. rewrite IH by done. apply orb_true_r.
  - intros [= ->]. by rewrite Ascii.eqb_refl.
Qed.

Lemma text_lines_nil : Py.text_lines EmptyString = [].
Proof. reflexivity. Qed.

Lemma no_newline_header (sample : string) : no_newline sample → no_newline (">" +:+ sample).
Proof. intros [H1 H2]. split; cbn [String.append Py.mem_char]; by rewrite ?H1, ?H2. Qed.

Lemma rewrite_lines_of_list (sample : string) (L : list string) :
  no_newline sample → (∀ l, l ∈ L → is_line l) →
  Py.text_lines (String.concat EmptyString (map (rewrite_line sample) L))
  = flat_map (rewritten_lines sample) L.
Proof.
  intros Hs. induction L as [|l L IH]; intros HL; [done|].
  cbn [map flat_map]. rewrite concat_cons.
  specialize (IH (λ x Hx, HL x (list_elem_of_further _ _ _ Hx))).
  destruct (HL l (list_elem_of_here _ _)) as (r & Hr & Hshape).
  unfold rewritten_lines at 1. destruct (Py.startswith l ">") eqn:Eh.
  - rewrite rewrite_line_header by done.
    replace ((">" +:+ sample +:+ nl) +:+ String.concat EmptyString (map (rewrite_line sample) L))
      with ((">" +:+ sample) +:+ nl +:+ String.concat EmptyString (map (rewrite_line sample) L))
      by (by rewrite !app_assoc_s).
    rewrite text_lines_cons by (by apply no_newline_header).
    rewrite IH. by rewrite !app_assoc_s.
  - rewrite rewrite_line_other by done.
    destruct Hshape as [->|[-> Hne]].
    + rewrite last_char_app by done. change (Py.last_char nl) with (Some Py.LF).
      cbv iota beta. rewrite Ascii.eqb_refl.
      replace (((r +:+ nl) +:+ nl) +:+ String.concat EmptyString (map (rewrite_line sample) L))
        with (r +:+ nl +:+ (EmptyString +:+ nl +:+
                String.concat EmptyString (map (rewrite_line sample) L)))
        by (by rewrite !app_assoc_s).
      rewrite !text_lines_cons by done. by rewrite IH.
    + replace ((r +:+ nl) +:+ String.concat EmptyString (map (rewrite_line sample) L))
        with (r +:+ nl +:+ String.concat EmptyString (map (rewrite_line sample) L))
        by (by rewrite !app_assoc_s).
      rewrite text_lines_cons, IH by done.
      destruct (Py.last_char r) as [c|] eqn:El; [|done].
      destruct (Ascii.eqb_spec c Py.LF) as [->|_]; [|done].
      apply last_char_mem in El. destruct Hr as [Hr _]. congruence.
Qed.

Lemma startswith_app_nonempty (l t p : string) :
  l ≠ EmptyString → p = ">" → Py.startswith (l +:+ t) p = Py.startswith l p.
Proof.
  intros Hl ->. destruct l as [|a l]; [done|].
  unfold Py.startswith. cbn [String.append String.prefix].
  destruct (ascii_dec ">" a); [|done].
  by destruct l, t.
Qed.

(** ** X7.  The header rewrite, for a sample name without line break:
    line by line, a header becomes [>sample], any other line is kept and
    followed by an empty line, and a last line without terminator gets one.
    So every line of the result that starts with [>] is exactly
    [>sample]. *)
Theorem rewritten_line_by_line (sample content : string) :
  no_newline sample →
  Py.text_lines (rewritten sample content)
  = flat_map (rewritten_lines sample) (Py.text_lines content)
  ∧ ∀ l, l ∈ Py.text_lines (rewritten sample content) →
         Py.startswith l ">" = true → l = ">" +:+ sample +:+ nl.
Proof.
  intros Hs.
  assert (Py.text_lines (rewritten sample content)
          = flat_map (rewritten_lines sample) (Py.text_lines content)) as Heq.
  { apply rewrite_lines_of_list; [done|]. intros l. apply text_lines_is_line. }
  split; [done|]. rewrite Heq. intros l Hl Hstart.
  apply list_elem_of_In, in_flat_map in Hl as (l0 & Hl0 & Hl).
  apply list_elem_of_In in Hl0, Hl. apply text_lines_is_line in Hl0 as (r & Hr & Hshape).
  unfold rewritten_lines in Hl. destruct (Py.startswith l0 ">") eqn:E0.
  - by apply list_elem_of_singleton in Hl.
  - exfalso. destruct Hshape as [->|[-> Hne]].
    + rewrite last_char_app in Hl by done. change (Py.last_char nl) with (Some Py.LF) in Hl.
      cbv iota beta in Hl. rewrite Ascii.eqb_refl in Hl.
      apply elem_of_cons in Hl as [->|Hl]; [congruence|].
      apply list_elem_of_singleton in Hl as ->. done.
    + assert (l = r +:+ nl) as ->.
      { destruct (Py.last_char r) as [c|]; [destruct (Ascii.eqb c Py.LF)|];
          try by apply list_elem_of_singleton in Hl.
        apply elem_of_cons in Hl as [->|Hl]; [congruence|].
        apply list_elem_of_singleton in Hl as ->. done. }
      rewrite startswith_app_nonempty in Hstart by done. congruence.
Qed.

End RewriteLines.

(** The consensus of S1 rewritten for the sample [S1]. *)
Lemma rewritten_line_by_line_witness :
  Py.text_lines
    (rewritten "S1" (">Consensus_S1_threshold_0.75" +:+ nl +:+ "ACGT" +:+ nl +:+ "TTGA"))
  = [">S1" +:+ nl; "ACGT" +:+ nl; nl; "TTGA" +:+ nl].
Proof.
  destruct (rewritten_line_by_line "S1"
              (">Consensus_S1_threshold_0.75" +:+ nl +:+ "ACGT" +:+ nl +:+ "TTGA"))
    as [H _].
  - split; reflexivity.
  - rewrite H. reflexivity.
Defined.

(* ===================================================================== *)
(** * What the consensus links hold after a pass *)
(* ===================================================================== *)

Section LinksRewritten.

#[local] Arguments String.append : simpl nomatch.

Context (getcwd : string) (snakemake : snakemake_t).

Lemma ends_in_basename (q f : string) : ends_in q f → no_slash f → Path.basename q = f.
Proof.
  unfold Path.basename, Py.item_last. intros [->|[d ->]] Hf.
  - by rewrite (split_single _ _ Hf).
  - change ("/" +:+ f) with (String "/"%char f).
    rewrite split_app, (split_single _ _ Hf). apply last_last.
Qed.

Lemma app_inv_tail_s (s s' t : string) : s +:+ t = s' +:+ t → s = s'.
Proof.
  revert s'. induction s as [|c s IH]; intros [|c' s'] H.
  - done.
  - apply (f_equal String.length) in H. simpl in H. rewrite length_app_s in H. lia.
  - apply (f_equal String.length) in H. simpl in H. rewrite length_app_s in H. lia.
  - simpl in H. injection H as -> H. by rewrite (IH _ H).
Qed.

(** Two link paths with the same key are paths of the same sample. *)
Lemma link_path_key_sample (root a b t : string) :
  no_slash t → 3 ≤ String.length t →
  key getcwd (root +:+ "/" +:+ sample_of a +:+ t)
  = key getcwd (root +:+ "/" +:+ sample_of b +:+ t) →
  sample_of a = sample_of b.
Proof.
  intros Ht H3 Hk.
  assert (∀ x, plain_component (sample_of x +:+ t)) as Hplain.
  { intros x. apply plain_sample_ext; [apply sample_no_slash | done | done]. }
  pose proof (key_ends_in getcwd _ _ (link_path_ends_in root (sample_of a) t) (Hplain a)) as Ha.
  pose proof (key_ends_in getcwd _ _ (link_path_ends_in root (sample_of b) t) (Hplain b)) as Hb.
  rewrite Hk in Ha.
  apply ends_in_basename in Ha; [|apply Hplain]. apply ends_in_basename in Hb; [|apply Hplain].
  apply (app_inv_tail_s _ _ t). congruence.
Qed.

Lemma guarded_link_inodes (c : bool) (src dst : string) (w w' : world) (u : unit) :
  (if c then os_link getcwd src dst else mret tt) w = (Ok u, w') →
  inodes w' = inodes w ∧ next_inode w' = next_inode w.
Proof.
  destruct c.
  - by intros (i & _ & _ & _ & ->)%os_link_Ok.
  - by intros [_ <-]%ret_Ok.
Qed.

Lemma fileinput_inplace_next (p : string) (body : string → string) (w w' : world) (u : unit) :
  fileinput_inplace getcwd p body w = (Ok u, w') → next_inode w' = S (next_inode w).
Proof.
  unfold fileinput_inplace.
  destruct (node_at getcwd _ p); [done | done |].
  destruct (node_at getcwd _ (p +:+ ".bak")); [|done|]; by intros [= _ <-].
Qed.

(** A link followed by the rewrite, as both linkers do it for a consensus
    input. *)
Lemma link_and_rewrite_spec (root x src : string) (c : bool) (w w' : world) (u : unit) :
  ((if c then os_link getcwd src (consensus_path root x) else mret tt);;
   fileinput_inplace getcwd (consensus_path root x) (rewrite_line (sample_of x))) w
  = (Ok u, w') →
  holds_rewritten getcwd root x w' ∧ ∀ y, holds_rewritten getcwd root y w → holds_rewritten getcwd root y w'.
Proof.
  intros H. bind_in H as u1 w1 Hlink.
  pose proof (guarded_link_inodes _ _ _ _ _ _ Hlink) as [Hino Hnext].
  apply guarded_link_extends in Hlink as [[_ Hext] _].
  pose proof (fileinput_keeps_contents getcwd (consensus_path root x)
                (rewrite_line (sample_of x)) w1) as [_ Hkept].
  pose proof (fileinput_inplace_next _ _ _ _ _ H) as Hn.
  rewrite H in Hkept. simpl in Hkept.
  apply fileinput_inplace_Ok in H as (_ & Hother & i & Hi & Hnew & Hout).
  assert (holds_rewritten getcwd root x w') as Hx.
  { exists (next_inode w1), (content_of w1 i). split; [done|]. split; [lia | exact Hout]. }
  split; [done|]. intros y (j & text & Hj & Hlt & Htext).
  destruct (decide (key getcwd (consensus_path root y) = key getcwd (consensus_path root x)))
    as [Heq|Hne].
  - destruct Hx as (j' & text' & Hj' & Hlt' & Htext'). exists j', text'.
    unfold consensus_path in Heq. apply link_path_key_sample in Heq; [|done|simpl; lia].
    unfold holds_rewritten, consensus_path in *. rewrite Heq. by rewrite Heq in Hj.
  - exists j, text. split; [|split; [lia|]].
    + rewrite Hother; [by apply Hext | done |].
      intros Hbak. apply (f_equal (Py.suffix 1)) in Hbak. unfold consensus_path in Hbak.
      rewrite ends_like_link_path, ends_like_backup_path in Hbak;
        [done | done | simpl; lia | simpl; lia | done | simpl; lia | simpl; lia].
    + rewrite Hkept by lia. by rewrite Hino.
Qed.

Lemma holds_rewritten_same_inodes (root y : string) (w w' : world) :
  extends w w' → inodes w' = inodes w → next_inode w' = next_inode w →
  holds_rewritten getcwd root y w → holds_rewritten getcwd root y w'.
Proof.
  intros [_ Hext] Hi Hn (j & text & Hj & Hlt & Htext).
  exists j, text. rewrite Hi, Hn. by split; [apply Hext|].
Qed.

Lemma print_holds_rewritten (root y s : string) (w w' : world) (u : unit) :
  print s w = (Ok u, w') →
  holds_rewritten getcwd root y w → holds_rewritten getcwd root y w'.
Proof. unfold print, modify. by intros [= _ <-]. Qed.

Lemma link_ivar_holds_rewritten (root : string) (replace : bool) (w w' : world) (u : unit) :
  link_ivar getcwd snakemake root replace w = (Ok u, w') →
  (∀ c, c ∈ input_consensus snakemake → holds_rewritten getcwd root c w')
  ∧ (∀ y, holds_rewritten getcwd root y w → holds_rewritten getcwd root y w').
Proof.
  unfold link_ivar. intros H.
  bind_in H as u1 w1 Hp. bind_in H as u2 w2 Hvar.
  assert (∀ y, holds_rewritten getcwd root y w1 → holds_rewritten getcwd root y w2) as Hv.
  { intros y.
    refine (for_each_rel
              (λ a b, holds_rewritten getcwd root y a → holds_rewritten getcwd root y b)
              _ _ (λ _ h, h) (λ _ _ _ f g h, g (f h)) _ _ _ _ Hvar).
    intros v a b u' _ Hb. cbv zeta in Hb.
    bind_in Hb as e a1 He. apply os_path_exists_Ok in He as [-> _].
    pose proof (guarded_link_inodes _ _ _ _ _ _ Hb) as [Hino Hnext].
    apply guarded_link_extends in Hb as [Hext _].
    by apply holds_rewritten_same_inodes. }
  eapply (for_each_spec (λ _, True) (holds_rewritten getcwd root)) in H as (_ & HQ & Hkeep);
    [| |done].
  - split; [done|]. intros y Hy. apply Hkeep, Hv. by eapply print_holds_rewritten.
  - intros x v v' u' _ Hb. cbv zeta in Hb. split; [done|].
    bind_in Hb as e v1 He. apply os_path_exists_Ok in He as [-> _].
    by apply link_and_rewrite_spec in Hb.
Qed.

(** A loop with [break] whose body establishes [Q] for the element it
    handles, or for all of [every] when it breaks. *)
Lemma for_each_break_spec {A} (Q : A → world → Prop) (every xs : list A)
      (body : A → M flow) :
  (∀ x w w' c, body x w = (Ok c, w') →
     (∀ y, Q y w → Q y w')
     ∧ match c with Next => Q x w' | Break => ∀ y, y ∈ every → Q y w' end) →
  xs ⊆ every →
  ∀ w w' u, for_each_break xs body w = (Ok u, w') →
    (∀ y, Q y w → Q y w') ∧ ∀ y, y ∈ xs → Q y w'.
Proof.
  intros Hbody. induction xs as [|x xs IH]; intros Hsub w w' u H; simpl in H.
  - apply ret_Ok in H as [_ <-]. split; [done|]. intros y Hy. by apply elem_of_nil in Hy.
  - bind_in H as c w1 Hb. destruct (Hbody _ _ _ _ Hb) as [Hkeep Hc]. destruct c.
    + destruct (IH (λ y Hy, Hsub y (list_elem_of_further _ _ _ Hy)) _ _ _ H) as [Hkeep' Hxs].
      split; [by auto|]. intros y [->|Hy]%elem_of_cons; [by apply Hkeep' | by apply Hxs].
    + apply ret_Ok in H as [_ <-]. split; [done|]. intros y Hy. apply Hc, Hsub, Hy.
Qed.

(** ** X8.  After a pass of [link_ivar] (with or without the replace flag)
    or of [link_freebayes] that completed, the link of every consensus input
    holds a text that went through the header rewrite for the sample of that
    input. *)
Theorem consensus_links_are_rewritten (root : string) (replace : bool) (w w' : world) :
  link_ivar getcwd snakemake root replace w = (Ok tt, w')
  ∨ link_freebayes getcwd snakemake root w = (Ok tt, w') →
  ∀ c, c ∈ input_consensus snakemake →
    ∃ text, file_content w' (key getcwd (consensus_path root c))
            = Some (rewritten (sample_of c) text).
Proof.
  intros H c Hc.
  assert (holds_rewritten getcwd root c w') as (j & text & Hj & _ & Htext).
  { destruct H as [H|H].
    - destruct (link_ivar_holds_rewritten _ _ _ _ _ H) as [Hall _]. by apply Hall.
    - unfold link_freebayes in H.
      bind_in H as u1 w1 Hp. bind_in H as u2 w2 Hvar.
      eapply (for_each_break_spec (holds_rewritten getcwd root) (input_consensus snakemake))
        in H as [_ HQ]; [by apply HQ | | done].
      intros x v v' fl Hb. cbv zeta in Hb.
      bind_in Hb as e v1 He. apply os_path_exists_Ok in He as [-> _].
      destruct e; cbn [negb] in Hb.
      + bind_in Hb as e' v2 He'. apply os_path_exists_Ok in He' as [-> _].
        assert (∃ u3 v3,
          ((if negb e'
            then os_link getcwd (Path.join (sample_of x)
                                   ["freebayes"; sample_of x +:+ ".consensus.fasta"])
                         (consensus_path root x)
            else mret tt);;
           fileinput_inplace getcwd (consensus_path root x) (rewrite_line (sample_of x))) v
          = (Ok u3, v3) ∧ fl = Next ∧ v' = v3) as (u3 & v3 & Hlr & -> & ->).
        { bind_in Hb as u4 v4 Hl. bind_in Hb as u5 v5 Hf.
          apply ret_Ok in Hb as [<- <-]. exists u5, v5. split; [|done].
          unfold mbind, M_bind. unfold consensus_path. by rewrite Hl. }
        apply link_and_rewrite_spec in Hlr as [Hx Hkeep]. by split.
      + bind_in Hb as u3 v2 Hp'. bind_in Hb as u4 v3 Hivar.
        apply ret_Ok in Hb as [<- <-].
        apply link_ivar_holds_rewritten in Hivar as [Hall Hkeep].
        split; [|done]. intros y Hy. apply Hkeep.
        by eapply print_holds_rewritten. }
  exists text. unfold file_content, content_of. rewrite Hj. simpl. by rewrite Htext.
Qed.

End LinksRewritten.

(** The consensus link of S1 after a primary pass. *)
Lemma consensus_links_are_rewritten_witness :
  ∃ text,
    file_content
      (snd (link_ivar "/work" (demo_snakemake false "v3.1.2") demo_root false world_primary))
      "/work/ncov-tools/run1/S1.consensus.fasta"
    = Some (rewritten "S1" text).
Proof.
  apply (consensus_links_are_rewritten "/work" (demo_snakemake false "v3.1.2") demo_root false
           world_primary _ ) with (c := "S1/core/S1.consensus.fa").
  - left. vm_compute. reflexivity.
  - left.
Defined.

(* ===================================================================== *)
(** * More on the relocation *)
(* ===================================================================== *)

Lemma output_grows_refl (w : world) : output_grows w w.
Proof. by unfold output_grows. Qed.

Lemma output_grows_trans (w1 w2 w3 : world) :
  output_grows w1 w2 → output_grows w2 w3 → output_grows w1 w3.
Proof. unfold output_grows. by etrans. Qed.

Section Relocation2.

Context (getcwd : string).

Lemma print_output (s : string) : frames output_grows (print s).
Proof. intros w. unfold output_grows. simpl. by apply prefix_app_r. Qed.

Lemma exists_output (p : string) : frames output_grows (os_path_exists getcwd p).
Proof. intros w. apply output_grows_refl. Qed.

Lemma glob_output (p : string) : frames output_grows (glob_glob getcwd p).
Proof.
  intros w. unfold glob_glob. destruct (Path.has_magic p); [apply output_grows_refl|].
  destruct (node_at getcwd w p); apply output_grows_refl.
Qed.

Lemma open_write_output (p text : string) : frames output_grows (open_write getcwd p text).
Proof.
  intros w. unfold open_write, output_grows.
  destruct (node_at getcwd w p); [|done|done].
  by destruct (can_create getcwd w p).
Qed.

Lemma shutil_copy_output (src dst : string) : frames output_grows (shutil_copy getcwd src dst).
Proof.
  intros w. unfold shutil_copy.
  destruct (Py.mem_char Py.NUL src || Py.mem_char Py.NUL dst); [apply output_grows_refl|].
  destruct (node_at getcwd w src); try apply output_grows_refl.
  match goal with |- context [node_at getcwd w ?d] => destruct (node_at getcwd w d) end;
    try apply open_write_output.
  destruct (Nat.eqb _ _); [apply output_grows_refl | apply open_write_output].
Qed.

(** Proves that a part of [move] only adds to the output. *)
Local Ltac output_frames :=
  repeat first
    [ apply print_output | apply exists_output | apply glob_output | apply shutil_copy_output
    | apply (frames_ret output_grows output_grows_refl)
    | apply (frames_bind output_grows output_grows_trans); [|intros ?]
    | apply (frames_for_each output_grows output_grows_refl output_grows_trans); intros ?
    | apply (frames_try_except output_grows output_grows_trans)
    | apply frames_if
    | progress cbv zeta ].

(** ** X9.  When the [plots] directory of the output tree is missing,
    the first thing [move] prints is that this directory is missing. *)
Theorem move_reports_missing_plots_first (cwd dest prefix : string) (w : world) :
  node_at getcwd w (Path.join cwd ["ncov-tools"; "plots"]) = Absent →
  ∃ rest, stdout (snd (move getcwd cwd dest prefix w))
          = stdout w ++ "Missing ncov-tools 'plots' directory" :: rest.
Proof.
  intros Habs. unfold move.
  unfold mbind at 1, M_bind at 1, os_path_exists at 1. rewrite Habs.
  unfold mbind at 1, M_bind at 1.
  change (print "Missing ncov-tools 'plots' directory" w)
    with (Ok tt, World (dirs w) (names w) (inodes w) (next_inode w)
                       (stdout w ++ ["Missing ncov-tools 'plots' directory"]) (requests w)).
  cbv iota beta.
  match goal with
  | |- ∃ rest, stdout (snd (?tail ?w1)) = _ =>
      assert (frames output_grows tail) as Hgrow by output_frames;
      destruct (Hgrow w1) as [rest Hrest]
  end.
  exists rest. rewrite Hrest. simpl. by rewrite <- app_assoc.
Qed.

Lemma for_each_noop {A} (xs : list A) (body : A → M unit) (w : world) :
  (∀ x, x ∈ xs → body x w = (Ok tt, w)) → for_each xs body w = (Ok tt, w).
Proof.
  induction xs as [|x xs IH]; intros Hb; [done|]. simpl.
  unfold mbind, M_bind. rewrite (Hb x (list_elem_of_here _ _)).
  apply IH. intros y Hy. apply Hb. by right.
Qed.

Lemma glob_glob_absent (pattern : string) (w : world) :
  Path.has_magic pattern = false → node_at getcwd w pattern = Absent →
  glob_glob getcwd pattern w = (Ok [], w).
Proof. intros Hm Ha. unfold glob_glob. by rewrite Hm, Ha. Qed.

Lemma has_magic_source (cwd sub file : string) :
  Path.has_magic cwd = false → Path.has_magic sub = false → Path.has_magic file = false →
  Path.has_magic (Path.join cwd ["ncov-tools"; sub; file]) = false.
Proof. intros. apply has_magic_join; [done|]. by repeat constructor. Qed.

(** ** X10.  When the three directories of the output tree are there and
    none of the fourteen files it looks for is, [move] returns and leaves
    the world as it found it: nothing copied, nothing printed. *)
Theorem move_skips_missing_sources (cwd dest prefix : string) (w : world) :
  Path.has_magic cwd = false →
  node_at getcwd w (Path.join cwd ["ncov-tools"; "plots"]) ≠ Absent →
  node_at getcwd w (Path.join cwd ["ncov-tools"; "lineages"]) ≠ Absent →
  node_at getcwd w (Path.join cwd ["ncov-tools"; "qc_analysis"]) ≠ Absent →
  (∀ ext, ext ∈ plot_extensions →
     node_at getcwd w (Path.join cwd ["ncov-tools"; "plots"; "default" +:+ ext]) = Absent) →
  node_at getcwd w (Path.join cwd ["ncov-tools"; "lineages"; "default_lineage_report.csv"])
    = Absent →
  (∀ ext, ext ∈ qc_extensions →
     node_at getcwd w (Path.join cwd ["ncov-tools"; "qc_analysis"; "default" +:+ ext]) = Absent) →
  move getcwd cwd dest prefix w = (Ok tt, w).
Proof.
  intros Hc Hplots Hlin Hqc Hp Hl Hq. unfold move.
  assert (∀ p, node_at getcwd w p ≠ Absent → os_path_exists getcwd p w = (Ok true, w)) as Hex.
  { intros p Hn. unfold os_path_exists. by destruct (node_at getcwd w p). }
  assert (∀ sub exts,
            Path.has_magic sub = false →
            Forall (λ ext, Path.has_magic ("default" +:+ ext) = false) exts →
            (∀ ext, ext ∈ exts →
               node_at getcwd w (Path.join cwd ["ncov-tools"; sub; "default" +:+ ext]) = Absent) →
            for_each exts (λ ext,
              files ← glob_glob getcwd (Path.join cwd ["ncov-tools"; sub; "default" +:+ ext]);
              for_each files (λ file,
                try_except (shutil_copy getcwd file (Path.join dest [sub; prefix +:+ ext]))
                           is_IOError (print ("Missing file " +:+ prefix +:+ ext)))) w
            = (Ok tt, w)) as Hcat.
  { intros sub exts Hsub Hm Ha. apply for_each_noop. intros ext Hext.
    rewrite Forall_forall in Hm.
    erewrite bind_step; [|apply glob_glob_absent; [apply has_magic_source; auto | auto]].
    reflexivity. }
  erewrite bind_step; [|by apply Hex].
  erewrite bind_step; [|apply (Hcat "plots" plot_extensions); [done | by repeat constructor | done]].
  erewrite bind_step; [|by apply Hex].
  erewrite bind_step.
  2:{ erewrite bind_step; [|apply glob_glob_absent; [by apply has_magic_source | done]].
      reflexivity. }
  erewrite bind_step; [|by apply Hex].
  apply (Hcat "qc_analysis" qc_extensions); [done | by repeat constructor | done].
Qed.

(** ** X11.  Given a working directory without glob metacharacter and
    three arguments without NUL character, [move] returns normally in
    every world, whatever is missing there, and what was printed before is
    still the beginning of the output.  (A NUL character makes
    [shutil.copy] raise [ValueError], which the handler does not catch.) *)
Theorem move_returns_and_keeps_output (cwd dest prefix : string) (w : world) :
  Path.has_magic cwd = false →
  Py.mem_char Py.NUL cwd = false → Py.mem_char Py.NUL dest = false →
  Py.mem_char Py.NUL prefix = false →
  fst (move getcwd cwd dest prefix w) = Ok tt
  ∧ output_grows w (snd (move getcwd cwd dest prefix w)).
Proof.
  intros Hc Hnc Hnd Hnp. split; [by apply move_never_raises|].
  assert (frames output_grows (move getcwd cwd dest prefix)) as Hgrow
    by (unfold move; output_frames).
  apply Hgrow.
Qed.

End Relocation2.

(** The output tree under [/out] without its [plots] directory. *)
Lemma move_reports_missing_plots_first_witness :
  ∃ rest, stdout (snd (move "/" "/out" "/res" "run1" world_no_plots))
          = stdout world_no_plots ++ "Missing ncov-tools 'plots' directory" :: rest.
Proof.
  apply move_reports_missing_plots_first. vm_compute. reflexivity.
Defined.

(** The output tree under [/out] with its three directories empty. *)
Lemma move_skips_missing_sources_witness :
  move "/" "/out" "/res" "run1" world_no_outputs = (Ok tt, world_no_outputs).
Proof.
  apply move_skips_missing_sources; try (vm_compute; discriminate); try reflexivity.
  - intros ext Hext. repeat (apply elem_of_cons in Hext as [->|Hext]; [vm_compute; reflexivity|]).
    by apply elem_of_nil in Hext.
  - intros ext Hext. repeat (apply elem_of_cons in Hext as [->|Hext]; [vm_compute; reflexivity|]).
    by apply elem_of_nil in Hext.
Defined.

(** [move] on the tree without [plots]: it returns, and the output has
    only grown. *)
Lemma move_returns_and_keeps_output_witness :
  fst (move "/" "/out" "/res" "run1" world_no_plots) = Ok tt
  ∧ output_grows world_no_plots (snd (move "/" "/out" "/res" "run1" world_no_plots)).
Proof. apply move_returns_and_keeps_output; reflexivity. Defined.

(** A prefix with a NUL character, and a lineage report to copy: the
    [ValueError] of [shutil.copy] is no [IOError] and leaves [move]. *)
Example move_nul_prefix_raises :
  fst (move "/" "/out" "/res" (String Py.NUL "run1") world_no_plots)
  = Raise (ValueError "embedded null byte").
Proof. vm_compute. reflexivity. Qed.

(* ===================================================================== *)
(** * Edge cases of the negative-control detection *)
(* ===================================================================== *)

Section NegativeEdges.

#[local] Arguments String.append : simpl nomatch.

Lemma prefix_empty (s : string) : String.prefix EmptyString s = true.
Proof. by destruct s. Qed.

Lemma prefix_app_more (p s t : string) :
  String.prefix p s = true → String.prefix p (s +:+ t) = true.
Proof.
  revert s. induction p as [|c p IH]; intros s H; [apply prefix_empty|].
  destruct s as [|a s]; [done|]. cbn [String.append String.prefix] in *.
  destruct (ascii_dec c a); [by apply IH | done].
Qed.

(** ** X12.  With an empty tuple of prefixes no sample is a negative
    control.  With the empty string among the prefixes every line after
    the header counts: the detected set is the set of all leading
    fields. *)
Theorem neg_samples_degenerate_prefixes :
  (∀ manifest, neg_samples [] manifest = ∅)
  ∧ (∀ prefixes manifest id,
       EmptyString ∈ prefixes →
       id ∈ neg_samples prefixes manifest
       ↔ ∃ line, line ∈ tail (Py.text_lines manifest) ∧ id = Py.item0 (Py.split "," line)).
Proof.
  split.
  - intros manifest. apply set_eq. intros id. unfold neg_samples.
    rewrite scan_negatives_spec. split; [|intros H; by apply not_elem_of_empty in H].
    by intros (line & _ & _ & H).
  - intros prefixes manifest id Hin. unfold neg_samples. rewrite scan_negatives_spec.
    split; intros (line & Hl & Hid & _ ) || intros (line & Hl & Hid).
    + by exists line.
    + exists line. repeat split; try done. apply startswith_any_spec.
      exists EmptyString. split; [done | apply prefix_empty].
Qed.

(** ** X13.  In a sheet with one column the lines have no comma, so the
    identifier that is detected is the whole line, with its terminator. *)
Theorem neg_samples_one_column (header id p : string) :
  no_newline header → no_newline id → Py.mem_char "," id = false →
  String.prefix p id = true →
  neg_samples [p] (header +:+ nl +:+ id +:+ nl) = {[ id +:+ nl ]}.
Proof.
  intros Hh Hid Hc Hp. unfold neg_samples.
  rewrite text_lines_cons by done.
  pose proof (text_lines_cons id EmptyString Hid) as H.
  rewrite app_nil_r_s in H. rewrite H.
  cbn [tail scan_negatives fold_left Py.text_lines Py.universal_newlines Py.keepends].
  assert (Py.item0 (Py.split "," (id +:+ nl)) = id +:+ nl) as ->.
  { rewrite split_single; [done|]. rewrite mem_char_app, Hc. reflexivity. }
  unfold Py.startswith_any, Py.startswith. cbn [existsb].
  rewrite (prefix_app_more _ _ _ Hp). simpl. apply (right_id_L ∅ (∪)).
Qed.

End NegativeEdges.

(** No prefix at all, on the demo sheet. *)
Lemma neg_samples_degenerate_prefixes_witness :
  "SAMPLE2" ∈ neg_samples ["NEG"; ""] demo_sheet.
Proof.
  destruct neg_samples_degenerate_prefixes as [_ H].
  apply (H ["NEG"; ""] demo_sheet "SAMPLE2").
  - right. left.
  - exists (row "SAMPLE2" "b_R1.fastq.gz,b_R2.fastq.gz"). split; [|reflexivity].
    vm_compute. right. left.
Defined.

(** The sheet with the single column [sample] and the row [NEG1]. *)
Lemma neg_samples_one_column_witness :
  neg_samples ["NEG"] one_column_sheet = {[ "NEG1" +:+ nl ]}.
Proof.
  apply (neg_samples_one_column "sample" "NEG1" "NEG"); try (split; reflexivity); reflexivity.
Defined.

(* ===================================================================== *)
(** * The lines of the configuration file *)
(* ===================================================================== *)

Section ConfigLines.

#[local] Arguments String.append : simpl nomatch.

Lemma no_newline_app (a b : string) : no_newline a → no_newline b → no_newline (a +:+ b).
Proof.
  unfold no_newline. intros [H1 H2] [H3 H4]. by rewrite !mem_char_app, H1, H2, H3, H4.
Qed.

(** [repr] escapes line breaks: what it gives for a character holds
    none. *)
Lemma repr_char_no_newline (q c : ascii) :
  q = Py.SQUOTE ∨ q = Py.DQUOTE → no_newline (Py.repr_char q c).
Proof.
  intros [-> | ->]; destruct c as [[] [] [] [] [] [] [] []]; split; vm_compute; reflexivity.
Qed.

Lemma repr_no_newline (s : string) : no_newline (Py.repr s).
Proof.
  unfold Py.repr.
  assert (Py.repr_quote s = Py.SQUOTE ∨ Py.repr_quote s = Py.DQUOTE) as Hq.
  { unfold Py.repr_quote. destruct (_ && _); auto. }
  set (q := Py.repr_quote s) in *. clearbody q.
  assert (no_newline (String q EmptyString)) as Hq1.
  { destruct Hq as [-> | ->]; by split. }
  change (String q (Py.repr_body q s +:+ String q EmptyString))
    with (String q EmptyString +:+ Py.repr_body q s +:+ String q EmptyString).
  apply no_newline_app; [done|]. apply no_newline_app; [|done].
  induction s as [|c s IH]; [by split|]. cbn [Py.repr_body].
  apply no_newline_app; [by apply repr_char_no_newline | exact IH].
Qed.

Lemma join_no_newline (sep : string) (l : list string) :
  no_newline sep → Forall no_newline l → no_newline (Py.join sep l).
Proof.
  intros Hsep. induction l as [|x l IH]; intros Hl; [by split|].
  apply Forall_cons in Hl as [Hx Hl]. destruct l as [|y l]; [done|].
  change (Py.join sep (x :: y :: l)) with (x +:+ sep +:+ Py.join sep (y :: l)).
  repeat apply no_newline_app; auto.
Qed.

(** The list literal of the negative controls is one line, whatever the
    identifiers are. *)
Lemma str_list_no_newline (l : list string) : no_newline (Py.str_list l).
Proof.
  unfold Py.str_list. repeat apply no_newline_app; try by split.
  apply join_no_newline; [by split|]. apply Forall_fmap, Forall_forall.
  intros x _. apply repr_no_newline.
Qed.

Lemma entries_lines (entries : list (string * string)) :
  Forall (λ kv, no_newline (fst kv) ∧ no_newline (snd kv)) entries →
  Py.text_lines (String.concat EmptyString (map key_value_line entries))
  = map key_value_line entries.
Proof.
  induction entries as [|[k v] entries IH]; intros H; [done|].
  apply Forall_cons in H as [[Hk Hv] H]. cbn [map]. rewrite concat_cons.
  unfold key_value_line at 1. cbn [fst snd].
  replace ((k +:+ ": " +:+ v +:+ nl)
           +:+ String.concat EmptyString (map key_value_line entries))
    with ((k +:+ ": " +:+ v) +:+ nl
          +:+ String.concat EmptyString (map key_value_line entries))
    by (by rewrite !app_assoc_s).
  rewrite text_lines_cons.
  - rewrite (IH H). unfold key_value_line at 2. cbn [fst snd]. by rewrite !app_assoc_s.
  - repeat apply no_newline_app; first [done | by split].
Qed.

Context (sm : snakemake_t).

(** ** X14.  The text [set_up] writes, for the dictionary it has built
    (with the variants pattern replaced after the alternate-caller linker),
    splits into exactly nineteen lines, one [key: value] line per key in
    the order of the keys, provided the data directory, the run name, the
    version and the four interpolated parameters hold no line break.  The
    negative-control identifiers need no such condition: [str] of the list
    escapes them. *)
Theorem config_text_has_one_line_per_key (data_root run version : string)
        (neg_list : list string) :
  no_newline data_root → no_newline run → no_newline version →
  no_newline (amplicon_bed sm) → no_newline (viral_reference_genome sm) →
  no_newline (primer_bed sm) → no_newline (phylo_include_seqs sm) →
  let literal := config_literal sm data_root run version neg_list in
  let config :=
    if freebayes_run sm
    then dict_set "variants_pattern" (VStr "'{data_root}/{sample}.variants.vcf'") literal
    else literal in
  Py.text_lines (config_text config)
  = map key_value_line (config_entries sm data_root run version neg_list)
  ∧ map fst (config_entries sm data_root run version neg_list) = config_keys
  ∧ length (Py.text_lines (config_text config)) = 19.
Proof.
  intros Hd Hr Hv Ha Hg Hp Hi literal config.
  assert (config_text config
          = String.concat EmptyString
              (map key_value_line (config_entries sm data_root run version neg_list))) as ->.
  { subst config literal. unfold config_entries. by destruct (freebayes_run sm). }
  assert (Py.text_lines
            (String.concat EmptyString
               (map key_value_line (config_entries sm data_root run version neg_list)))
          = map key_value_line (config_entries sm data_root run version neg_list)) as ->.
  { apply entries_lines. unfold config_entries.
    pose proof (str_list_no_newline neg_list).
    repeat (apply Forall_cons; split;
            [cbn [fst snd]; split; [by split|];
             first [ assumption
                   | by split
                   | by repeat apply no_newline_app; first [done | by split]
                   | by destruct (freebayes_run sm); split ] |]).
    constructor. }
  split; [done|]. split; reflexivity.
Qed.

End ConfigLines.

(** The dictionary of the demo run, with a negative control whose
    identifier holds a line break. *)
Lemma config_text_has_one_line_per_key_witness :
  length (Py.text_lines
            (config_text
               (config_literal (demo_snakemake false "v3.1.2") "/work/ncov-tools/run1" "run1" "3"
                  ["NEG1" +:+ nl])))
  = 19.
Proof.
  destruct (config_text_has_one_line_per_key (demo_snakemake false "v3.1.2")
              "/work/ncov-tools/run1" "run1" "3" ["NEG1" +:+ nl])
    as (_ & _ & H).
  1-7: split; reflexivity.
  exact H.
Defined.

(* ===================================================================== *)
(** * The fallback linker when nothing is missing *)
(* ===================================================================== *)

Lemma survives_refl (w : world) : survives w w.
Proof. by split. Qed.

Lemma survives_trans (w1 w2 w3 : world) : survives w1 w2 → survives w2 w3 → survives w1 w3.
Proof. intros [D1 N1] [D2 N2]. split; [congruence | by auto]. Qed.

Lemma extends_survives (w w' : world) : extends w w' → survives w w'.
Proof. intros [Hd Hn]. split; [done|]. intros q _ [i Hi]. exists i. by apply Hn. Qed.

Section NoDowngrade.

Context (getcwd : string) (snakemake : snakemake_t).

(** A path whose key does not end in [.bak] and that names something
    keeps naming something. *)
Lemma present_survives (w w' : world) (p : string) :
  survives w w' → ¬ ends_like ".bak" (key getcwd p) →
  node_at getcwd w p ≠ Absent → node_at getcwd w' p ≠ Absent.
Proof.
  intros [Hd Hn] Hbak. rewrite !node_at_absent_iff.
  intros Hw [->|[Hnone Hdir]]; apply Hw; [by left | right].
  rewrite <- (is_dir_dirs w w') by done. split; [|done].
  destruct (names w !! key getcwd p) as [i|] eqn:E; [|done].
  destruct (Hn _ Hbak (mk_is_Some _ _ E)) as [j Hj]. congruence.
Qed.

Lemma guarded_link_stdout (c : bool) (src dst : string) (w w' : world) (u : unit) :
  (if c then os_link getcwd src dst else mret tt) w = (Ok u, w') → stdout w' = stdout w.
Proof.
  destruct c.
  - by intros (i & _ & _ & _ & ->)%os_link_Ok.
  - by intros [_ <-]%ret_Ok.
Qed.

Lemma rewrite_consensus_survives (root x : string) (w w' : world) (u : unit) :
  fileinput_inplace getcwd (consensus_path root x) (rewrite_line (sample_of x)) w = (Ok u, w') →
  survives w w' ∧ stdout w' = stdout w.
Proof.
  intros H. split.
  - apply fileinput_inplace_Ok in H as (Hd & Hother & i & _ & Hnew & _).
    split; [done|]. intros q Hq Hsome.
    destruct (decide (q = key getcwd (consensus_path root x))) as [->|Hne]; [by eexists|].
    rewrite Hother; [done | done |]. intros ->. apply Hq.
    unfold ends_like, consensus_path. simpl String.length.
    by rewrite ends_like_backup_path; [| |simpl; lia|simpl; lia].
  - revert H. unfold fileinput_inplace.
    destruct (node_at getcwd _ (consensus_path root x)); [done | done |].
    destruct (node_at getcwd _ (consensus_path root x +:+ ".bak")); [|done|];
      by intros [= _ <-].
Qed.

Lemma not_bak_link_path (root x t : string) :
  no_slash t → 4 ≤ String.length t → Py.suffix 4 t ≠ ".bak" →
  ¬ ends_like ".bak" (key getcwd (root +:+ "/" +:+ sample_of x +:+ t)).
Proof.
  intros Ht Hl Hs. unfold ends_like. simpl String.length.
  by rewrite ends_like_link_path; [| |lia|].
Qed.

Lemma not_bak_expected_path (x t : string) :
  no_slash t → 4 ≤ String.length t → Py.suffix 4 t ≠ ".bak" →
  ¬ ends_like ".bak"
      (key getcwd (Path.join (sample_of x) ["freebayes"; sample_of x +:+ t])).
Proof.
  intros Ht Hl Hs. unfold ends_like. simpl String.length.
  by rewrite ends_like_expected_path; [| |lia|].
Qed.

Lemma freebayes_variants_all_present (root : string) (w0 : world) (l : list string) :
  ∀ w w' u,
    survives w0 w →
    (∀ v, v ∈ l → node_at getcwd w0 (expected_variants v) ≠ Absent) →
    for_each_break l (λ variants,
      let sample := sample_of variants in
      let expected_path := Path.join sample ["freebayes"; sample +:+ ".variants.norm.vcf"] in
      e ← os_path_exists getcwd expected_path;
      if negb e then
        print "Missing FreeBayes variant file! Switching to iVar input!";;
        link_ivar getcwd snakemake root true;;
        mret Break
      else
        let ln_path := root +:+ "/" +:+ sample +:+ ".variants.vcf" in
        e' ← os_path_exists getcwd ln_path;
        (if negb e' then os_link getcwd expected_path ln_path else mret tt);;
        mret Next) w = (Ok u, w') →
    survives w w' ∧ stdout w' = stdout w
    ∧ ∀ v, v ∈ l → node_at getcwd w' (variants_vcf_path root v) ≠ Absent.
Proof.
  induction l as [|a l IH]; intros w w' u Hs Hall H; simpl in H.
  { apply ret_Ok in H as [_ <-]. split; [apply survives_refl|]. split; [done|].
    intros v Hv. by apply elem_of_nil in Hv. }
  bind_in H as c w1 Hbody.
  bind_in Hbody as e w2 He. apply os_path_exists_Ok in He as [-> Hex].
  assert (e = true) as ->.
  { destruct e; [done|]. exfalso.
    apply (present_survives w0 w (expected_variants a)); [done | | apply Hall; left | exact (proj1 Hex eq_refl)].
    unfold expected_variants, expected_consensus.
    apply not_bak_expected_path; [done | simpl; lia | by vm_compute]. }
  cbn [negb] in Hbody.
  bind_in Hbody as e' w3 He'. apply os_path_exists_Ok in He' as [-> Hex'].
  bind_in Hbody as u1 w4 Hlink. apply ret_Ok in Hbody as [<- <-].
  pose proof (guarded_link_stdout _ _ _ _ _ _ Hlink) as Hout.
  assert (node_at getcwd w4 (variants_vcf_path root a) ≠ Absent) as Ha.
  { destruct e'; cbn [negb] in Hlink.
    - apply ret_Ok in Hlink as [_ <-]. intros Habs. by pose proof (proj2 Hex' Habs).
    - apply os_link_extends in Hlink as (_ & i & _ & Hi).
      unfold variants_vcf_path. rewrite (proj2 (node_at_file getcwd _ _ i)); [done|].
      split; [apply link_path_nonempty | done]. }
  apply guarded_link_extends in Hlink as [Hext _]. apply extends_survives in Hext.
  destruct (IH w4 w' u) as (Hs' & Hout' & Hl); [by eapply survives_trans | | done |].
  { intros v Hv. apply Hall. by right. }
  split; [by eapply survives_trans|]. split; [congruence|].
  intros v [->|Hv]%elem_of_cons; [|by apply Hl].
  eapply present_survives; [exact Hs' | | exact Ha].
  unfold variants_vcf_path. apply not_bak_link_path; [done | simpl; lia | by vm_compute].
Qed.

Lemma freebayes_consensus_all_present (root : string) (w0 : world) (l : list string) :
  ∀ w w' u,
    survives w0 w →
    (∀ c, c ∈ l → node_at getcwd w0 (expected_consensus c) ≠ Absent) →
    for_each_break l (λ consensus,
      let sample := sample_of consensus in
      let expected_path := Path.join sample ["freebayes"; sample +:+ ".consensus.fasta"] in
      e ← os_path_exists getcwd expected_path;
      if negb e then
        print "Missing FreeBayes variant file! Switching to iVar input!";;
        link_ivar getcwd snakemake root true;;
        mret Break
      else
        let ln_path := root +:+ "/" +:+ sample +:+ ".consensus.fasta" in
        e' ← os_path_exists getcwd ln_path;
        (if negb e' then os_link getcwd expected_path ln_path else mret tt);;
        fileinput_inplace getcwd ln_path (rewrite_line sample);;
        mret Next) w = (Ok u, w') →
    survives w w' ∧ stdout w' = stdout w.
Proof.
  induction l as [|a l IH]; intros w w' u Hs Hall H; simpl in H.
  { apply ret_Ok in H as [_ <-]. split; [apply survives_refl | done]. }
  bind_in H as c w1 Hbody.
  bind_in Hbody as e w2 He. apply os_path_exists_Ok in He as [-> Hex].
  assert (e = true) as ->.
  { destruct e; [done|]. exfalso.
    apply (present_survives w0 w (expected_consensus a)); [done | | apply Hall; left | exact (proj1 Hex eq_refl)].
    unfold expected_variants, expected_consensus.
    apply not_bak_expected_path; [done | simpl; lia | by vm_compute]. }
  cbn [negb] in Hbody.
  bind_in Hbody as e' w3 He'. apply os_path_exists_Ok in He' as [-> _].
  bind_in Hbody as u1 w4 Hlink. bind_in Hbody as u2 w5 Hrw.
  apply ret_Ok in Hbody as [<- <-].
  pose proof (guarded_link_stdout _ _ _ _ _ _ Hlink) as Hout.
  apply guarded_link_extends in Hlink as [Hext _]. apply extends_survives in Hext.
  apply (rewrite_consensus_survives root a) in Hrw as [Hs5 Hout5].
  assert (survives w w5) as Hw5 by (by eapply survives_trans).
  destruct (IH w5 w' u) as (Hs' & Hout'); [by eapply survives_trans | | done |].
  { intros v Hv. apply Hall. by right. }
  split; [by eapply survives_trans | congruence].
Qed.

(** ** X15.  In fallback mode, when every file the alternate caller is
    expected to have written is there, a pass that completes never falls
    back: it prints its opening message and nothing else, and every
    variants input has something at its [.variants.vcf] destination. *)
Theorem link_freebayes_without_downgrade (root : string) (w w' : world) :
  (∀ v, v ∈ input_variants snakemake → node_at getcwd w (expected_variants v) ≠ Absent) →
  (∀ c, c ∈ input_consensus snakemake → node_at getcwd w (expected_consensus c) ≠ Absent) →
  link_freebayes getcwd snakemake root w = (Ok tt, w') →
  stdout w' = stdout w ++ ["Linking FreeBayes files to ncov-tools!"]
  ∧ ∀ v, v ∈ input_variants snakemake →
         node_at getcwd w' (variants_vcf_path root v) ≠ Absent.
Proof.
  intros Hv Hc H. unfold link_freebayes in H.
  bind_in H as u1 w1 Hp.
  assert (stdout w1 = stdout w ++ ["Linking FreeBayes files to ncov-tools!"]) as Hout1.
  { unfold print, modify in Hp. by injection Hp as _ <-. }
  apply print_Ok in Hp as (Hd & Hn & _).
  assert (∀ p, node_at getcwd w1 p = node_at getcwd w p) as Hnode.
  { intros p. unfold node_at, is_dir. by rewrite Hd, Hn. }
  bind_in H as u2 w2 Hvar.
  apply (freebayes_variants_all_present root w1) in Hvar as (Hs2 & Hout2 & Hvcf);
    [|apply survives_refl | intros v ?; rewrite Hnode; by apply Hv].
  apply (freebayes_consensus_all_present root w1) in H as (Hs' & Hout');
    [|done | intros c ?; rewrite Hnode; by apply Hc].
  split; [congruence|]. intros v Hin.
  eapply present_survives; [exact Hs' | | by apply Hvcf].
  unfold variants_vcf_path. apply not_bak_link_path; [done | simpl; lia | by vm_compute].
Qed.

End NoDowngrade.

(** Both samples have both alternate files. *)
Lemma link_freebayes_without_downgrade_witness :
  stdout (snd (link_freebayes "/work" (demo_snakemake true "v3.1.2") demo_root
                 world_alternate_complete))
  = stdout world_alternate_complete ++ ["Linking FreeBayes files to ncov-tools!"].
Proof.
  apply (link_freebayes_without_downgrade "/work" (demo_snakemake true "v3.1.2") demo_root
           world_alternate_complete).
  - intros v Hv. repeat (apply elem_of_cons in Hv as [->|Hv]; [vm_compute; discriminate|]).
    by apply elem_of_nil in Hv.
  - intros c Hc. repeat (apply elem_of_cons in Hc as [->|Hc]; [vm_compute; discriminate|]).
    by apply elem_of_nil in Hc.
  - vm_compute. reflexivity.
Defined.

(* ===================================================================== *)
(** * The names the linkers leave bound as they were *)
(* ===================================================================== *)

Section NamesKept.

Context (getcwd : string) (snakemake : snakemake_t).

Lemma print_keeps_names (P : string → Prop) (s : string) : frames (keeps P) (print s).
Proof. intros w q i _ H. exact H. Qed.

Lemma exists_keeps_names (P : string → Prop) (p : string) :
  frames (keeps P) (os_path_exists getcwd p).
Proof. intros w. apply keeps_refl. Qed.

(** A link never takes a name that is in use. *)
Lemma os_link_keeps_names (P : string → Prop) (src dst : string) :
  frames (keeps P) (os_link getcwd src dst).
Proof.
  intros w. destruct (os_link getcwd src dst w) as [[u|e] w'] eqn:E; simpl.
  - apply extends_keeps. by destruct (os_link_extends _ _ _ _ _ _ E) as [[? _] _].
  - assert (w' = w) as ->; [|apply keeps_refl].
    revert E. unfold os_link.
    destruct (node_at getcwd w src); [by intros [= _ <-]| |];
      (destruct (can_create getcwd w dst); simpl; [|by intros [= _ <-]]);
      destruct (node_at getcwd w dst); by intros [= _ <-].
Qed.

(** The header rewrite of a consensus link unbinds the backup name,
    rebinds the link and touches no other name, also when it fails. *)
Lemma rewrite_keeps_names (root x : string) :
  frames (keeps other_name)
         (fileinput_inplace getcwd (consensus_path root x) (rewrite_line (sample_of x))).
Proof.
  intros w q i [Hq Hqb] Hi.
  assert (q ≠ key getcwd (consensus_path root x)) as Hk.
  { intros ->. apply Hq. unfold ends_like, consensus_path.
    rewrite ends_like_link_path; [done | done | simpl; lia | simpl; lia]. }
  assert (q ≠ key getcwd (consensus_path root x +:+ ".bak")) as Hkb.
  { intros ->. apply Hqb. unfold ends_like, consensus_path.
    rewrite (ends_like_backup_path getcwd _ root x ".consensus.fasta");
      [done | done | simpl; lia | simpl; lia]. }
  unfold fileinput_inplace.
  destruct (node_at getcwd _ (consensus_path root x));
    [simpl; by rewrite lookup_delete_ne | simpl; by rewrite lookup_delete_ne |].
  destruct (node_at getcwd _ (consensus_path root x +:+ ".bak")); simpl;
    try (by rewrite lookup_delete_ne);
    by rewrite lookup_delete_ne, lookup_insert_ne, lookup_insert_ne,
               lookup_delete_ne, lookup_delete_ne.
Qed.

Lemma link_ivar_keeps_names (root : string) (replace : bool) :
  frames (keeps other_name) (link_ivar getcwd snakemake root replace).
Proof.
  apply (frames_link_ivar (keeps other_name) (keeps_refl _) (keeps_trans _));
    auto using print_keeps_names, exists_keeps_names, os_link_keeps_names,
               rewrite_keeps_names.
Qed.

Lemma link_freebayes_keeps_names (root : string) :
  frames (keeps other_name) (link_freebayes getcwd snakemake root).
Proof.
  apply (frames_link_freebayes (keeps other_name) (keeps_refl _) (keeps_trans _));
    auto using print_keeps_names, exists_keeps_names, os_link_keeps_names,
               rewrite_keeps_names.
Qed.

(** ** When the model covers the run *)

Lemma guarded_ret {A} (I : world → Prop) (E : exn → bool) (a : A) :
  guarded I E (mret a : M A).
Proof. intros w Hw. split; [done|]. by intros e. Qed.

Lemma guarded_bind {A B} (I : world → Prop) (E : exn → bool) (m : M A) (f : A → M B) :
  guarded I E m → (∀ a, guarded I E (f a)) → guarded I E (m ≫= f).
Proof.
  intros Hm Hf w Hw. unfold mbind, M_bind. destruct (Hm w Hw) as [HI HE].
  destruct (m w) as [[a|e] w1]; simpl in *; [by apply Hf|].
  split; [done|]. intros e' [= <-]. by apply HE.
Qed.

Lemma guarded_if {A} (I : world → Prop) (E : exn → bool) (c : bool) (m1 m2 : M A) :
  guarded I E m1 → guarded I E m2 → guarded I E (if c then m1 else m2).
Proof. by destruct c. Qed.

Lemma guarded_for_each {A} (I : world → Prop) (E : exn → bool)
      (xs : list A) (body : A → M unit) :
  (∀ x, x ∈ xs → guarded I E (body x)) → guarded I E (for_each xs body).
Proof.
  induction xs as [|x xs IH]; intros Hb; simpl; [apply guarded_ret|].
  apply guarded_bind; [apply Hb; left | intros _].
  apply IH. intros y Hy. apply Hb. by right.
Qed.

Lemma guarded_for_each_break {A} (I : world → Prop) (E : exn → bool)
      (xs : list A) (body : A → M flow) :
  (∀ x, x ∈ xs → guarded I E (body x)) → guarded I E (for_each_break xs body).
Proof.
  induction xs as [|x xs IH]; intros Hb; simpl; [apply guarded_ret|].
  apply guarded_bind; [apply Hb; left|]. intros []; [|apply guarded_ret].
  apply IH. intros y Hy. apply Hb. by right.
Qed.

Lemma no_dir_same_dirs (root : string) (w w' : world) :
  dirs w' = dirs w →
  consensus_links_no_dir getcwd snakemake root w →
  consensus_links_no_dir getcwd snakemake root w'.
Proof. intros Hd H c Hc. rewrite (is_dir_dirs w w') by done. by apply H. Qed.

Lemma print_guarded (root s : string) :
  guarded (consensus_links_no_dir getcwd snakemake root) is_Unmodelled (print s).
Proof. intros w Hw. split; [by apply (no_dir_same_dirs root w) | by intros e]. Qed.

Lemma exists_guarded (root p : string) :
  guarded (consensus_links_no_dir getcwd snakemake root) is_Unmodelled
          (os_path_exists getcwd p).
Proof. intros w Hw. split; [done | by intros e]. Qed.

Lemma os_link_guarded (root src dst : string) :
  guarded (consensus_links_no_dir getcwd snakemake root) is_Unmodelled
          (os_link getcwd src dst).
Proof.
  intros w Hw. unfold os_link.
  destruct (node_at getcwd w src); [by split; [|intros e [= <-]]| |];
    (destruct (can_create getcwd w dst); simpl; [|by split; [|intros e [= <-]]]);
    destruct (node_at getcwd w dst); simpl;
    (split; [by apply (no_dir_same_dirs root w) | by intros e [= <-]]).
Qed.

(** The destination of a consensus link is no directory, so the header
    rewrite stays within the model. *)
Lemma rewrite_guarded (root c : string) :
  c ∈ input_consensus snakemake →
  guarded (consensus_links_no_dir getcwd snakemake root) is_Unmodelled
          (fileinput_inplace getcwd (consensus_path root c) (rewrite_line (sample_of c))).
Proof.
  intros Hc w Hw. unfold fileinput_inplace.
  destruct (node_at getcwd _ (consensus_path root c)) eqn:E.
  - split; [by apply (no_dir_same_dirs root w) | by intros e [= <-]].
  - exfalso. revert E. unfold node_at.
    destruct (String.eqb _ _); [done|]. simpl.
    destruct (delete _ (names w) !! _); [done|].
    change (is_dir (set_names _ w) ?k) with (is_dir w k).
    by rewrite (Hw c Hc).
  - destruct (node_at getcwd _ (consensus_path root c +:+ ".bak")); simpl;
      (split; [by apply (no_dir_same_dirs root w) | by intros e [= <-]]).
Qed.

Lemma link_ivar_guarded (root : string) (replace : bool) :
  guarded (consensus_links_no_dir getcwd snakemake root) is_Unmodelled
          (link_ivar getcwd snakemake root replace).
Proof.
  unfold link_ivar.
  apply guarded_bind; [apply print_guarded | intros _].
  apply guarded_bind; [|intros _]; apply guarded_for_each; intros x Hx; cbv zeta.
  - apply guarded_bind; [apply exists_guarded | intros e].
    apply guarded_if; [apply os_link_guarded | apply guarded_ret].
  - apply guarded_bind; [apply exists_guarded | intros e].
    apply guarded_bind; [|intros _; by apply (rewrite_guarded root x)].
    apply guarded_if; [apply os_link_guarded | apply guarded_ret].
Qed.

Lemma link_freebayes_guarded (root : string) :
  guarded (consensus_links_no_dir getcwd snakemake root) is_Unmodelled
          (link_freebayes getcwd snakemake root).
Proof.
  unfold link_freebayes.
  apply guarded_bind; [apply print_guarded | intros _].
  apply guarded_bind; [|intros _]; apply guarded_for_each_break; intros x Hx; cbv zeta.
  - apply guarded_bind; [apply exists_guarded | intros e].
    apply guarded_if.
    + apply guarded_bind; [apply print_guarded | intros _].
      apply guarded_bind; [apply link_ivar_guarded | intros _; apply guarded_ret].
    + apply guarded_bind; [apply exists_guarded | intros e'].
      apply guarded_bind; [|intros _; apply guarded_ret].
      apply guarded_if; [apply os_link_guarded | apply guarded_ret].
  - apply guarded_bind; [apply exists_guarded | intros e].
    apply guarded_if.
    + apply guarded_bind; [apply print_guarded | intros _].
      apply guarded_bind; [apply link_ivar_guarded | intros _; apply guarded_ret].
    + apply guarded_bind; [apply exists_guarded | intros e'].
      apply guarded_bind; [|intros _].
      { apply guarded_if; [apply os_link_guarded | apply guarded_ret]. }
      apply guarded_bind; [by apply (rewrite_guarded root x) | intros _; apply guarded_ret].
Qed.

Lemma guarded_not_Unmodelled {A} (I : world → Prop) (m : M A) (w : world) :
  guarded I is_Unmodelled m → I w → ∀ what, fst (m w) ≠ Raise (Unmodelled what).
Proof. intros Hg Hw what He. by destruct (Hg w Hw) as [_ H]; specialize (H _ He). Qed.

(** ** X16.  When no destination of a consensus link is a directory,
    [link_ivar] and [link_freebayes] stay within the model (they do not
    end in [Unmodelled]) and, whether they return or raise, leave every
    name bound to the inode it had, except the names that end in
    [.consensus.fasta] or [.consensus.fasta.bak]: links are only added,
    never replaced or removed, and only the header rewrite of a consensus
    link rebinds a name and removes a backup. *)
Theorem linkers_rebind_only_consensus_names (root : string) (replace : bool) (w : world) :
  consensus_links_no_dir getcwd snakemake root w →
  ((∀ what, fst (link_ivar getcwd snakemake root replace w) ≠ Raise (Unmodelled what))
   ∧ keeps other_name w (snd (link_ivar getcwd snakemake root replace w)))
  ∧ ((∀ what, fst (link_freebayes getcwd snakemake root w) ≠ Raise (Unmodelled what))
     ∧ keeps other_name w (snd (link_freebayes getcwd snakemake root w))).
Proof.
  intros Hw. split; split.
  - by apply (guarded_not_Unmodelled _ _ _ (link_ivar_guarded root replace)).
  - apply link_ivar_keeps_names.
  - by apply (guarded_not_Unmodelled _ _ _ (link_freebayes_guarded root)).
  - apply link_freebayes_keeps_names.
Qed.

Lemma files_kept_of (w w' : world) :
  contents_kept w w' → keeps other_name w w' → files_kept w w'.
Proof.
  intros [Hn Hc] Hk q t Hq (i & Hi & Hlt & Ht).
  exists i. split; [by apply Hk|]. split; [lia|].
  unfold content_of in *. by rewrite Hc.
Qed.

(** ** X1.  Whatever [link_ivar] and [link_freebayes] do, and whether they
    return or raise, every inode that was allocated before the call holds
    the same text after it: the header rewrite writes into a new inode.
    So, when no destination of a consensus link is a directory, every
    file keeps its name and its text, the workflow outputs that the links
    were made from among them; only a name that ends in
    [.consensus.fasta] or [.consensus.fasta.bak] may name another text,
    or nothing, afterwards. *)
Theorem linkers_keep_contents (root : string) (replace : bool) (w : world) :
  (contents_kept w (snd (link_ivar getcwd snakemake root replace w))
   ∧ contents_kept w (snd (link_freebayes getcwd snakemake root w)))
  ∧ (consensus_links_no_dir getcwd snakemake root w →
     files_kept w (snd (link_ivar getcwd snakemake root replace w))
     ∧ files_kept w (snd (link_freebayes getcwd snakemake root w))).
Proof.
  assert (contents_kept w (snd (link_ivar getcwd snakemake root replace w))) as H1.
  { apply (frames_link_ivar contents_kept contents_kept_refl contents_kept_trans);
      auto using print_keeps_contents, exists_keeps_contents, os_link_keeps_contents;
      intros; apply fileinput_keeps_contents. }
  assert (contents_kept w (snd (link_freebayes getcwd snakemake root w))) as H2.
  { apply (frames_link_freebayes contents_kept contents_kept_refl contents_kept_trans);
      auto using print_keeps_contents, exists_keeps_contents, os_link_keeps_contents;
      intros; apply fileinput_keeps_contents. }
  split; [by split|]. intros _. split; apply files_kept_of; try done.
  - apply link_ivar_keeps_names.
  - apply link_freebayes_keeps_names.
Qed.

(** ** The alignment links *)

Lemma suffix_suffix (m n : nat) (q : string) :
  m ≤ n → Py.suffix m (Py.suffix n q) = Py.suffix m q.
Proof.
  intros Hmn. induction q as [|c q IH]; [reflexivity|].
  change (Py.suffix n (String c q))
    with (if (String.length (String c q) <=? n)%nat then String c q else Py.suffix n q).
  destruct (Nat.leb_spec (String.length (String c q)) n) as [H|H]; [reflexivity|].
  rewrite IH.
  change (Py.suffix m (String c q))
    with (if (String.length (String c q) <=? m)%nat then String c q else Py.suffix m q).
  destruct (Nat.leb_spec (String.length (String c q)) m) as [H'|H']; [lia | reflexivity].
Qed.

Lemma ends_like_last (t q : string) (m : nat) :
  ends_like t q → m ≤ String.length t → Py.suffix m q = Py.suffix m t.
Proof.
  intros Ht Hm. rewrite <- (suffix_suffix m (String.length t) q) by done.
  by rewrite Ht.
Qed.

(** A link whose extension ends in another letter than those of a
    consensus link or of a backup. *)
Lemma other_name_link_path (root b t : string) :
  no_slash t → 3 ≤ String.length t →
  Py.suffix 1 t ≠ "a" → Py.suffix 1 t ≠ "k" →
  other_name (key getcwd (root +:+ "/" +:+ sample_of b +:+ t)).
Proof.
  intros Ht Hl Ha Hk.
  pose proof (ends_like_link_path getcwd 1 root b t Ht Hl ltac:(lia)) as Hs.
  split; intros He; apply (ends_like_last _ _ 1) in He; try (simpl; lia);
    rewrite Hs in He; [by apply Ha | by apply Hk].
Qed.

Lemma hard_linked_keeps (P : string → Prop) (w w' : world) (p q : string) :
  keeps P w w' → P (key getcwd p) → P (key getcwd q) →
  hard_linked getcwd w p q → hard_linked getcwd w' p q.
Proof.
  intros Hk Hp Hq (i & [Hpn Hpi]%node_at_file & [Hqn Hqi]%node_at_file).
  exists i. split; apply node_at_file; split; try done; by apply Hk.
Qed.

Lemma hard_linked_extends (w w' : world) (p q : string) :
  extends w w' → hard_linked getcwd w p q → hard_linked getcwd w' p q.
Proof.
  intros He. by apply (hard_linked_keeps (λ _, True)); [apply extends_keeps| |].
Qed.

(** A loop that completes leaves every input linked. *)
Lemma bam_loop_links (data_root ext : string) (l : list string) :
  ∀ w w' u, bam_loop getcwd data_root ext l w = (Ok u, w') →
    ∀ b, b ∈ l → hard_linked getcwd w' b (bam_path data_root ext b).
Proof.
  induction l as [|a l IH]; intros w w' u H b Hb; [by apply elem_of_nil in Hb|].
  unfold bam_loop in H. simpl in H.
  bind_in H as u1 w1 Hbody. bind_in Hbody as g w2 Hg.
  fold (bam_path data_root ext a) in *.
  apply elem_of_cons in Hb as [->|Hb]; [|by eapply IH].
  destruct (node_at getcwd w (bam_path data_root ext a)) eqn:Hnode.
  2,3: rewrite (bam_guard_present getcwd) in Hg by (by rewrite Hnode); done.
  rewrite (bam_guard_absent getcwd _ _ Hnode) in Hg. injection Hg as <- <-.
  apply os_link_extends in Hbody as ([He _] & i & Hsrc & Hi).
  apply (bam_loop_Ok getcwd data_root ext) in H as (He' & _ & _).
  apply (hard_linked_extends w1); [done|].
  exists i. split.
  - apply node_at_file in Hsrc as [? Hsrc]. apply node_at_file. split; [done|].
    by apply He.
  - apply node_at_file. split; [apply link_path_nonempty | done].
Qed.

(** Writing a file takes no name away. *)
Lemma open_write_extends (p text : string) (w w' : world) (u : unit) :
  open_write getcwd p text w = (Ok u, w') → extends w w'.
Proof.
  unfold open_write. destruct (node_at getcwd w p) as [| |i] eqn:E; [|done|].
  - destruct (can_create getcwd w p) eqn:Ec; [|done]. simpl. intros [= _ <-].
    assert (p ≠ EmptyString) as Hp by (intros ->; done).
    apply node_at_absent in E; [|done].
    split; [done|]. intros q j Hq. simpl. rewrite lookup_insert_ne; [done | congruence].
  - by intros [= _ <-].
Qed.

End NamesKept.

Section AlignmentLinks.

Context (getcwd : string) (geturl : string → option string)
        (set_order : gset string → list string) (snakemake : snakemake_t).

(** ** X17.  When [set_up] completes, every alignment input and its link
    in the data directory name one file, and so do every primer-trimmed
    alignment and its link, for the inputs whose own name is not that of
    a consensus link or of a backup. *)
Theorem set_up_links_every_bam (w w' : world) (r : string * string) :
  set_up getcwd geturl set_order snakemake w = (Ok r, w') →
  (∀ b, b ∈ input_bams snakemake → other_name (key getcwd b) →
        hard_linked getcwd w' b (bam_path (data_root_of getcwd snakemake) ".bam" b))
  ∧ (∀ b, b ∈ input_primertrimmed_bams snakemake → other_name (key getcwd b) →
          hard_linked getcwd w' b
            (bam_path (data_root_of getcwd snakemake) ".mapped.primertrimmed.sorted.bam" b)).
Proof.
  intros H. unfold set_up in H. fold (data_root_of getcwd snakemake) in H.
  bind_in H as u1 w1 Hp1.
  bind_in H as pang w2 Hpang.
  bind_in H as u2 w3 Hreset.
  bind_in H as manifest w4 Hread.
  bind_in H as u3 w5 Hp2.
  bind_in H as u4 w6 Hp3.
  bind_in H as u5 w7 Hbams.
  bind_in H as u6 w8 Hpt.
  bind_in H as config w9 Hlink.
  bind_in H as u7 w10 Hwrite.
  apply ret_Ok in H as [_ <-].
  apply open_write_extends in Hwrite.
  assert (keeps other_name w8 w9) as Hkeep.
  { destruct (freebayes_run snakemake).
    - bind_in Hlink as u8 w11 Hfb. apply ret_Ok in Hlink as [_ <-].
      pose proof (link_freebayes_keeps_names getcwd snakemake
                    (data_root_of getcwd snakemake) w8) as Hk.
      by rewrite Hfb in Hk.
    - bind_in Hlink as u8 w11 Hiv. apply ret_Ok in Hlink as [_ <-].
      pose proof (link_ivar_keeps_names getcwd snakemake
                    (data_root_of getcwd snakemake) false w8) as Hk.
      by rewrite Hiv in Hk. }
  pose proof (bam_loop_links getcwd _ ".bam" _ _ _ _ Hbams) as Hb1.
  pose proof (bam_loop_links getcwd _ ".mapped.primertrimmed.sorted.bam" _ _ _ _ Hpt) as Hb2.
  apply (bam_loop_Ok getcwd _ ".mapped.primertrimmed.sorted.bam") in Hpt as (Hext & _ & _).
  split; intros b Hb Hother.
  - apply (hard_linked_extends getcwd w9); [done|].
    apply (hard_linked_keeps getcwd other_name w8); [done | done | |].
    + apply other_name_link_path; [done | simpl; lia | by vm_compute | by vm_compute].
    + apply (hard_linked_extends getcwd w7); [done | by apply Hb1].
  - apply (hard_linked_extends getcwd w9); [done|].
    apply (hard_linked_keeps getcwd other_name w8); [done | done | |].
    + apply other_name_link_path; [done | simpl; lia | by vm_compute | by vm_compute].
    + by apply Hb2.
Qed.

End AlignmentLinks.

(** The alignment of sample S1 in a primary-mode run. *)
Lemma set_up_links_every_bam_witness :
  hard_linked "/work"
    (snd (set_up "/work" no_web elements (demo_snakemake false "v3.1.2") world_full))
    "S1/core/S1.bam"
    (bam_path (data_root_of "/work" (demo_snakemake false "v3.1.2")) ".bam" "S1/core/S1.bam").
Proof.
  assert (set_up "/work" no_web elements (demo_snakemake false "v3.1.2") world_full
          = (Ok (".", "run1"),
             snd (set_up "/work" no_web elements (demo_snakemake false "v3.1.2") world_full)))
    as H by (vm_compute; reflexivity).
  destruct (set_up_links_every_bam _ _ _ _ _ _ _ H) as [Hb _].
  apply Hb.
  - left.
  - split; vm_compute; discriminate.
Defined.

(** The two samples of the primary world: no link destination is a
    directory, and the consensus of S1 keeps its three lines. *)
Lemma linkers_rebind_only_consensus_names_witness :
  ((∀ what, fst (link_ivar "/work" (demo_snakemake false "v3.1.2") demo_root false
                   world_primary) ≠ Raise (Unmodelled what))
   ∧ keeps other_name world_primary
       (snd (link_ivar "/work" (demo_snakemake false "v3.1.2") demo_root false
               world_primary)))
  ∧ ((∀ what, fst (link_freebayes "/work" (demo_snakemake false "v3.1.2") demo_root
                     world_primary) ≠ Raise (Unmodelled what))
     ∧ keeps other_name world_primary
         (snd (link_freebayes "/work" (demo_snakemake false "v3.1.2") demo_root
                 world_primary))).
Proof.
  apply linkers_rebind_only_consensus_names.
  intros c Hc. repeat (apply elem_of_cons in Hc as [->|Hc]; [vm_compute; reflexivity|]).
  by apply elem_of_nil in Hc.
Defined.

Lemma linkers_keep_contents_witness :
  holds (snd (link_ivar "/work" (demo_snakemake false "v3.1.2") demo_root false world_primary))
        "/work/S1/core/S1.consensus.fa"
        (">Consensus_S1_threshold_0.75" +:+ nl +:+ "ACGT" +:+ nl +:+ "TTGA" +:+ nl).
Proof.
  destruct (linkers_keep_contents "/work" (demo_snakemake false "v3.1.2") demo_root false
              world_primary) as [_ H].
  destruct H as [H _].
  - intros c Hc. repeat (apply elem_of_cons in Hc as [->|Hc]; [vm_compute; reflexivity|]).
    by apply elem_of_nil in Hc.
  - apply H.
    + split; vm_compute; discriminate.
    + exists 2. split; [vm_compute; reflexivity|]. split; [vm_compute; lia | vm_compute; reflexivity].
Defined.
